(** * Scan-result intake and download file naming (civitai)

    A shallow embedding of
      - [src/pages/api/webhooks/scan-result.ts]: the webhook handler, [unpublish],
        [processImport] and [examinePickleScanMessage];
      - [src/pages/api/download/models/[modelVersionId].ts]: [getDownloadFilename]
        and the address test of [downloadModel];
      - the model-version details API: [hashesAsObject] and the [hashes]
        selection of [getModelVersionApiSelect];
      - the tables of [prisma/schema.prisma] those functions read and write.

    JavaScript strings are represented by their UTF-8 encoding ([string] is a
    sequence of bytes), so a lone surrogate has no representation; everything the
    code does with strings (substring search, splitting on an ASCII separator,
    percent-decoding, trimming) is written on that encoding.  Database ids are
    [Z], those of a row within the 32 bits of an [Int] column; timestamps are
    [Z] and the clock is an input of the handler.  A Prisma call fails as Prisma
    and PostgreSQL make it fail: on a missing row, on a number outside the range
    of its column, on a string PostgreSQL does not store. *)

From Stdlib Require Import ZArith Ascii String DecimalString.
From stdpp Require Import gmap strings list fin_maps.

Open Scope Z_scope.

(** ** JavaScript string operations *)

Module JsString.

(** [s.includes(sub)]: [sub] occurs in [s] as a substring. *)
Fixpoint includes (s sub : string) : bool :=
  String.prefix sub s ||
  match s with
  | EmptyString => false
  | String _ s' => includes s' sub
  end.

Fixpoint drop (n : nat) (s : string) : string :=
  match n, s with
  | O, _ => s
  | S n', String _ s' => drop n' s'
  | S _, EmptyString => EmptyString
  end.

(** [s.replace(pat, rep)] with a string pattern: the first occurrence only.
    The [$]-patterns of the replacement are not interpreted; the code passes
    the empty replacement. *)
Fixpoint replace (s pat rep : string) : string :=
  if String.prefix pat s then rep +:+ drop (String.length pat) s
  else match s with
       | EmptyString => EmptyString
       | String c s' => String c (replace s' pat rep)
       end.

(** [s.split(sep)] for a one-character separator; never the empty list. *)
Fixpoint split (sep : ascii) (s : string) : list string :=
  match s with
  | EmptyString => [EmptyString]
  | String c s' =>
      if Ascii.eqb c sep then EmptyString :: split sep s'
      else match split sep s' with
           | h :: t => String c h :: t
           | [] => [String c EmptyString]
           end
  end.

(** [arr.pop()] on the result of a split: its last element. *)
Definition pop (l : list string) : string := List.last l EmptyString.

(** [arr.join(sep)]. *)
Fixpoint join (sep : string) (l : list string) : string :=
  match l with
  | [] => EmptyString
  | [x] => x
  | x :: t => x +:+ sep +:+ join sep t
  end.

(** [s.replace(/c/g, '')]: every occurrence of the character removed. *)
Fixpoint removeAll (c : ascii) (s : string) : string :=
  match s with
  | EmptyString => EmptyString
  | String x s' => if Ascii.eqb x c then removeAll c s' else String x (removeAll c s')
  end.

Fixpoint rev_onto (s acc : string) : string :=
  match s with
  | EmptyString => acc
  | String c s' => rev_onto s' (String c acc)
  end.

Definition rev (s : string) : string := rev_onto s EmptyString.

Definition byte (c : ascii) : N := N_of_ascii c.

(** White space and line terminators of ECMAScript, as UTF-8 encodings:
    U+0009..U+000D, U+0020, U+00A0, U+1680, U+2000..U+200A, U+2028, U+2029,
    U+202F, U+205F, U+3000, U+FEFF. *)
Definition ws1 (a : N) : bool :=
  ((9 <=? a) && (a <=? 13) || (a =? 32))%N.
Definition ws2 (a b : N) : bool :=
  ((a =? 194) && (b =? 160))%N.
Definition ws3 (a b c : N) : bool :=
  ((a =? 225) && (b =? 154) && (c =? 128)
   || (a =? 226) && (b =? 128)
      && ((128 <=? c) && (c <=? 138) || (c =? 168) || (c =? 169) || (c =? 175))
   || (a =? 226) && (b =? 129) && (c =? 159)
   || (a =? 227) && (b =? 128) && (c =? 128)
   || (a =? 239) && (b =? 187) && (c =? 191))%N.

(** [s.trimStart()]. *)
Fixpoint trimStart (s : string) : string :=
  match s with
  | EmptyString => EmptyString
  | String a s1 =>
      if ws1 (byte a) then trimStart s1
      else match s1 with
           | EmptyString => s
           | String b s2 =>
               if ws2 (byte a) (byte b) then trimStart s2
               else match s2 with
                    | EmptyString => s
                    | String c s3 =>
                        if ws3 (byte a) (byte b) (byte c) then trimStart s3 else s
                    end
           end
  end.

(** The same on a reversed string, where each encoding reads backwards. *)
Fixpoint trimStartRev (s : string) : string :=
  match s with
  | EmptyString => EmptyString
  | String a s1 =>
      if ws1 (byte a) then trimStartRev s1
      else match s1 with
           | EmptyString => s
           | String b s2 =>
               if ws2 (byte b) (byte a) then trimStartRev s2
               else match s2 with
                    | EmptyString => s
                    | String c s3 =>
                        if ws3 (byte c) (byte b) (byte a) then trimStartRev s3 else s
                    end
           end
  end.

(** [s.trim()]. *)
Definition trim (s : string) : string :=
  rev (trimStartRev (rev (trimStart s))).

(** [s.endsWith(suffix)]. *)
Fixpoint endsWith (s suffix : string) : bool :=
  String.eqb s suffix ||
  match s with
  | EmptyString => false
  | String _ s' => endsWith s' suffix
  end.

(** [`${n}`] for a non-negative integer. *)
Definition ofNat (n : nat) : string := NilZero.string_of_uint (Nat.to_uint n).

(** *** [decodeURIComponent]

    ECMAScript's Decode with an empty reserved set.  [None] stands for the
    [URIError] it throws. *)

Definition hexDigit (c : ascii) : option N :=
  let n := byte c in
  if ((48 <=? n) && (n <=? 57))%N then Some (n - 48)%N
  else if ((65 <=? n) && (n <=? 70))%N then Some (n - 55)%N
  else if ((97 <=? n) && (n <=? 102))%N then Some (n - 87)%N
  else None.

Definition hexByte (h1 h2 : ascii) : option N :=
  match hexDigit h1, hexDigit h2 with
  | Some a, Some b => Some (16 * a + b)%N
  | _, _ => None
  end.

(** Number of leading 1 bits of an octet, capped at 5. *)
Definition leadingOnes (b : N) : nat :=
  if (b <? 128)%N then 0
  else if (b <? 192)%N then 1
  else if (b <? 224)%N then 2
  else if (b <? 240)%N then 3
  else if (b <? 248)%N then 4
  else 5.

(** The two most significant bits are 10. *)
Definition isCont (b : N) : bool := ((128 <=? b) && (b <=? 191))%N.

(** Well-formed UTF-8 sequences of two to four octets (no overlong form, no
    surrogate, nothing above U+10FFFF). *)
Definition validUtf8 (octs : list N) : bool :=
  match octs with
  | [a; b] => ((194 <=? a) && (a <=? 223))%N && isCont b
  | [a; b; c] =>
      ((a =? 224) && (160 <=? b) && (b <=? 191)
       || (225 <=? a) && (a <=? 236) && isCont b
       || (a =? 237) && (128 <=? b) && (b <=? 159)
       || (238 <=? a) && (a <=? 239) && isCont b)%N
      && isCont c
  | [a; b; c; d] =>
      ((a =? 240) && (144 <=? b) && (b <=? 191)
       || (241 <=? a) && (a <=? 243) && isCont b
       || (a =? 244) && (128 <=? b) && (b <=? 143))%N
      && isCont c && isCont d
  | _ => false
  end.

Definition ofOctets (octs : list N) : string :=
  fold_right (fun b acc => String (ascii_of_N b) acc) EmptyString octs.

(** [need] is the number of escaped continuation octets still expected for
    the code point whose octets so far are [octs]. *)
Fixpoint decodeFrom (need : nat) (octs : list N) (s : string) : option string :=
  match s with
  | EmptyString => match need with O => Some EmptyString | S _ => None end
  | String c rest =>
      if Ascii.eqb c "%"%char then
        match rest with
        | String h1 (String h2 rest') =>
            match hexByte h1 h2 with
            | None => None
            | Some b =>
                match need with
                | O =>
                    match leadingOnes b with
                    | O => String (ascii_of_N b) <$> decodeFrom 0 [] rest'
                    | 1%nat => None
                    | 2%nat => decodeFrom 1 [b] rest'
                    | 3%nat => decodeFrom 2 [b] rest'
                    | 4%nat => decodeFrom 3 [b] rest'
                    | _ => None
                    end
                | S need' =>
                    if isCont b then
                      match need' with
                      | O =>
                          if validUtf8 (octs ++ [b])
                          then String.append (ofOctets (octs ++ [b]))
                                 <$> decodeFrom 0 [] rest'
                          else None
                      | S _ => decodeFrom need' (octs ++ [b]) rest'
                      end
                    else None
                end
            end
        | _ => None
        end
      else
        match need with
        | O => String c <$> decodeFrom 0 [] rest
        | S _ => None
        end
  end.

Definition decodeURIComponent (s : string) : option string := decodeFrom 0 [] s.

End JsString.

(** The character occurs in the string. *)
Fixpoint occurs (c : ascii) (s : string) : bool :=
  match s with
  | EmptyString => false
  | String x s' => Ascii.eqb x c || occurs c s'
  end.

(** ** What PostgreSQL accepts

    A [text] value cannot hold the NUL character, and a [jsonb] value cannot
    hold a string with one: the server refuses the statement that carries it.
    A Prisma [Int] is a 32-bit signed integer. *)

Definition NUL : ascii := ascii_of_nat 0.

Definition pgText (s : string) : bool := negb (occurs NUL s).

Definition inInt (z : Z) : bool := (-2147483648 <=? z) && (z <=? 2147483647).

(** ** Enumerations of [prisma/schema.prisma] *)

Inductive ModelStatus := Draft | Published | Unpublished | GatherInterest.
Inductive ModelType := Checkpoint | TextualInversion | Hypernetwork | AestheticGradient | LORA.
Inductive ModelHashType := AutoV1 | AutoV2 | SHA256 | CRC32 | BLAKE3.
Inductive ModelFileFormat := PickleTensor | SafeTensor | Other.

Module ScanResultCode.
Inductive t := Pending | Success | Danger | Error.
End ScanResultCode.

(** The scanner's exit codes ([enum ScanExitCode] of scan-result.ts). *)
Module ScanExitCode.
Inductive t := Pending | Success | Danger | Error.

Definition code (c : t) : Z :=
  match c with Pending => -1 | Success => 0 | Danger => 1 | Error => 2 end.
End ScanExitCode.

(** The task vocabulary of the intake webhook. *)
Inductive ScannerTask := Import | Hash | Scan | Convert.

#[global] Instance ModelStatus_eq_dec : EqDecision ModelStatus.
Proof. solve_decision. Defined.
#[global] Instance ModelType_eq_dec : EqDecision ModelType.
Proof. solve_decision. Defined.
#[global] Instance ModelHashType_eq_dec : EqDecision ModelHashType.
Proof. solve_decision. Defined.
#[global] Instance ModelFileFormat_eq_dec : EqDecision ModelFileFormat.
Proof. solve_decision. Defined.
#[global] Instance ScanExitCode_eq_dec : EqDecision ScanExitCode.t.
Proof. solve_decision. Defined.
#[global] Instance ScannerTask_eq_dec : EqDecision ScannerTask.
Proof. solve_decision. Defined.

Definition ModelHashType_index (t : ModelHashType) : nat :=
  match t with AutoV1 => 0 | AutoV2 => 1 | SHA256 => 2 | CRC32 => 3 | BLAKE3 => 4 end.
Definition ModelHashType_of_index (n : nat) : ModelHashType :=
  match n with
  | 0 => AutoV1 | 1 => AutoV2 | 2 => SHA256 | 3 => CRC32 | _ => BLAKE3
  end%nat.
#[global] Instance ModelHashType_countable : Countable ModelHashType :=
  inj_countable' ModelHashType_index ModelHashType_of_index
    (fun t => match t with
              | AutoV1 | AutoV2 | SHA256 | CRC32 | BLAKE3 => eq_refl
              end).

Definition ModelFileFormat_index (t : ModelFileFormat) : nat :=
  match t with PickleTensor => 0 | SafeTensor => 1 | Other => 2 end.
Definition ModelFileFormat_of_index (n : nat) : ModelFileFormat :=
  match n with 0 => PickleTensor | 1 => SafeTensor | _ => Other end%nat.
#[global] Instance ModelFileFormat_countable : Countable ModelFileFormat :=
  inj_countable' ModelFileFormat_index ModelFileFormat_of_index
    (fun t => match t with PickleTensor | SafeTensor | Other => eq_refl end).

(** ** The scanner's payload ([type ScanResult]) *)

Module ScanResult.
Record t := mk {
  url : string;
  fileExists : Z;
  picklescanExitCode : ScanExitCode.t;
  picklescanOutput : option string;
  picklescanGlobalImports : option (list string);
  picklescanDangerousImports : option (list string);
  clamscanExitCode : ScanExitCode.t;
  clamscanOutput : string;
  (** a JavaScript object used as a map from algorithm to hash *)
  hashes : option (gmap ModelHashType string)
}.

(** The hash values of the object are acceptable [text] values. *)
Definition pgHashes (h : gmap ModelHashType string) : bool :=
  forallb (fun e => pgText e.2) (map_to_list h).

(** The payload is an acceptable [jsonb] value: none of its strings holds a
    NUL (the keys of [hashes] are names of the enumeration). *)
Definition pgJson (sr : t) : bool :=
  pgText (url sr)
  && from_option pgText true (picklescanOutput sr)
  && from_option (forallb pgText) true (picklescanGlobalImports sr)
  && from_option (forallb pgText) true (picklescanDangerousImports sr)
  && pgText (clamscanOutput sr)
  && from_option pgHashes true (hashes sr).
End ScanResult.

(** ** Rows of the tables

    Only the columns the modelled functions read or write by name are kept.
    In particular the [createdAt] and [updatedAt] columns are left out:
    [updatedAt] is marked [@updatedAt] on [Model] and [ModelVersion], so Prisma
    rewrites it on every update of such a row; what is said below of a row
    that is updated is said of the columns kept here. *)

Module Model.
Record t := mk { name : string; type : ModelType; status : ModelStatus }.

(** The row after [data: { status }]. *)
Definition with_status (s : ModelStatus) (m : t) : t := mk (name m) (type m) s.
End Model.

Module ModelVersion.
Record t := mk {
  name : string;
  modelId : Z;
  trainedWords : list string;
  status : ModelStatus
}.

(** The row after [data: { status }]. *)
Definition with_status (s : ModelStatus) (v : t) : t :=
  mk (name v) (modelId v) (trainedWords v) s.
End ModelVersion.

(** A [ModelFile] row without the columns of its unique key
    [(modelVersionId, type, format)], which index the table below. *)
Module ModelFile.
Record t := mk {
  id : Z;
  name : string;
  url : string;
  pickleScanResult : ScanResultCode.t;
  exists_ : option bool;
  pickleScanMessage : option string;
  virusScanResult : ScanResultCode.t;
  virusScanMessage : option string;
  scannedAt : option Z;
  rawScanResult : option ScanResult.t
}.
End ModelFile.

(** The unique key [modelVersionId_type_format]. *)
Abbreviation FileKey := (Z * string * ModelFileFormat)%type.

(** The database: [Model] and [ModelVersion] by primary key, [ModelFile] by
    its unique key, [ModelHash] by its compound primary key [(fileId, type)]. *)
Record DB := mkDB {
  models : gmap Z Model.t;
  modelVersions : gmap Z ModelVersion.t;
  modelFiles : gmap FileKey ModelFile.t;
  modelHashes : gmap (Z * ModelHashType) string
}.

(** ** Database actions: state passing with exceptions

    No transaction spans the handler, so the database a failed action leaves
    behind is part of its outcome. *)

(** [URIError] is JavaScript's; the others are failures of a Prisma call: no
    row to update (P2025), a key already taken (P2002), a number outside the
    range of its [Int] column (P2020), and a statement PostgreSQL refuses
    because a string it carries holds a NUL. *)
Inductive Error :=
  URIError | RecordNotFound | UniqueConstraintFailed | ValueOutOfRange | ValueRejected.

Inductive Result (A : Type) := Ok (a : A) | Throw (e : Error).
Arguments Ok {A} a.
Arguments Throw {A} e.

Definition Prisma (A : Type) : Type := DB -> Result A * DB.

#[global] Instance Prisma_ret : MRet Prisma := fun A a db => (Ok a, db).
#[global] Instance Prisma_bind : MBind Prisma := fun A B f m db =>
  match m db with
  | (Ok a, db') => f a db'
  | (Throw e, db') => (Throw e, db')
  end.

Definition throw {A} (e : Error) : Prisma A := fun db => (Throw e, db).
Definition get : Prisma DB := fun db => (Ok db, db).
Definition put (db : DB) : Prisma unit := fun _ => (Ok tt, db).

(** Lifting of a computation that may raise [URIError]. *)
Definition liftURI {A} (o : option A) : Prisma A :=
  match o with Some a => mret a | None => throw URIError end.

Module prisma.

(** [prisma.modelFile.findUnique({ where })].  [modelVersionId] is an [Int]
    column, so the key of a row lies within the range of [Int]; for a number
    outside that range, which is the key of no row, Prisma does not answer
    [null]: it throws. *)
Definition modelFile_findUnique (k : FileKey) : Prisma (option ModelFile.t) :=
  db ← get;
  match modelFiles db !! k with
  | Some f => mret (Some f)
  | None => if inInt k.1.1 then mret None else throw ValueOutOfRange
  end.

(** [prisma.modelVersion.update({ where: { id }, data: { status } })];
    Prisma throws when no row has that id. *)
Definition modelVersion_update_status (id : Z) (s : ModelStatus) : Prisma unit :=
  db ← get;
  match modelVersions db !! id with
  | None => throw RecordNotFound
  | Some v =>
      put (mkDB (models db) (<[id := ModelVersion.with_status s v]> (modelVersions db))
             (modelFiles db) (modelHashes db))
  end.

(** [prisma.modelVersion.findUnique({ where: { id }, select: { modelId: true } })]. *)
Definition modelVersion_findUnique_modelId (id : Z) : Prisma (option Z) :=
  db ← get; mret (ModelVersion.modelId <$> modelVersions db !! id).

(** The versions of model [m] whose status is [Published]. *)
Definition publishedVersions (vs : gmap Z ModelVersion.t) (m : Z) : gmap Z ModelVersion.t :=
  filter (fun kv => ModelVersion.modelId kv.2 = m /\ ModelVersion.status kv.2 = Published) vs.

(** [prisma.model.findUnique] selecting
    [_count.modelVersions where status = Published]; [None] when the model
    does not exist. *)
Definition model_findUnique_publishedCount (m : Z) : Prisma (option nat) :=
  db ← get;
  mret (match models db !! m with
        | None => None
        | Some _ => Some (size (publishedVersions (modelVersions db) m))
        end).

(** [prisma.model.update({ where: { id }, data: { status } })]. *)
Definition model_update_status (id : Z) (s : ModelStatus) : Prisma unit :=
  db ← get;
  match models db !! id with
  | None => throw RecordNotFound
  | Some m =>
      put (mkDB (<[id := Model.with_status s m]> (models db))
             (modelVersions db) (modelFiles db) (modelHashes db))
  end.

(** [prisma.modelHash.deleteMany({ where: { fileId } })]. *)
Definition modelHash_deleteMany (fileId : Z) : Prisma unit :=
  db ← get;
  put (mkDB (models db) (modelVersions db) (modelFiles db)
         (filter (fun kv => kv.1.1 <> fileId) (modelHashes db))).

(** [prisma.modelHash.createMany({ data })]: one insert statement; a hash
    that is no acceptable [text] value, or a row whose primary key is taken or
    given twice, fails the whole statement. *)
Definition modelHash_createMany (rows : list (Z * ModelHashType * string)) : Prisma unit :=
  db ← get;
  if negb (forallb (fun r => pgText r.2) rows) then throw ValueRejected
  else if bool_decide (NoDup rows.*1)
          && forallb (fun r => bool_decide (modelHashes db !! r.1 = None)) rows
  then put (mkDB (models db) (modelVersions db) (modelFiles db)
              (list_to_map rows ∪ modelHashes db))
  else throw UniqueConstraintFailed.

End prisma.

(** ** [unpublish] *)

(** [if (x)] on a number. *)
Definition truthyZ (z : Z) : bool := negb (z =? 0).

Definition unpublish (modelVersionId : Z) : Prisma unit :=
  prisma.modelVersion_update_status modelVersionId Draft;;
  r ← prisma.modelVersion_findUnique_modelId modelVersionId;
  match r with
  | Some modelId =>
      if truthyZ modelId then
        modelVersionCount ← prisma.model_findUnique_publishedCount modelId;
        match modelVersionCount with
        | Some O => prisma.model_update_status modelId Unpublished
        | _ => mret tt
        end
      else mret tt
  | None => mret tt
  end.

(** ** [processImport] and [examinePickleScanMessage] *)

(** [None] is the [URIError] of [decodeURIComponent]. *)
Definition processImport (importStr : string) : option string :=
  importStr ← JsString.decodeURIComponent importStr;
  let importParts :=
    (fun x => JsString.trim (JsString.removeAll "'"%char x))
      <$> JsString.split ","%char importStr in
  Some (JsString.join "." importParts).

Definition specialImports : list string :=
  ["pytorch_lightning.callbacks.model_checkpoint.ModelCheckpoint"].

(** [arr.includes(x)] on an array of strings. *)
Definition arrayIncludes (arr : list string) (x : string) : bool :=
  bool_decide (x ∈ arr).

(** [arr.indexOf(x)]: the first index, or -1. *)
Definition indexOf (arr : list string) (x : string) : Z :=
  match list_find (fun y => y = x) arr with
  | Some (i, _) => Z.of_nat i
  | None => -1
  end.

(** [arr.splice(start, 1)]: what is left in [arr]; a negative [start] counts
    from the end, and nothing is removed at or beyond the length. *)
Definition splice1 (arr : list string) (start : Z) : list string :=
  let len := Z.of_nat (length arr) in
  let from := if start <? 0 then Z.max (len + start) 0 else Z.min start len in
  delete (Z.to_nat from) arr.

(** [picklescanGlobalImports.filter(x => specialImports.includes(processImport(x)))]. *)
Fixpoint filterSpecial (globals : list string) : option (list string) :=
  match globals with
  | [] => Some []
  | x :: rest =>
      p ← processImport x;
      kept ← filterSpecial rest;
      Some (if arrayIncludes specialImports p then x :: kept else kept)
  end.

(** The loop over [dangerousGlobals]: each import is pushed on the dangerous
    list, and the global list loses the element at the index the import has in
    the {e dangerous} list. *)
Definition reclassify (dangerousGlobals dangerous globals : list string)
  : list string * list string :=
  foldl (fun acc imp =>
           let dangerous' := acc.1 ++ [imp] in
           (dangerous', splice1 acc.2 (indexOf dangerous' imp)))
        (dangerous, globals) dangerousGlobals.

Definition newline : string := String (ascii_of_nat 10) EmptyString.

(** What [examinePickleScanMessage] returns: [{}] is both fields undefined. *)
Record Examined := mkExamined {
  pickleScanMessage : option string;
  hasDanger : option bool
}.

(** The result and the payload object after the call: the two import arrays
    of the payload are the ones the function pushes to and splices, unless the
    payload had none (then [??=] made a fresh local array). [None] is a
    [URIError]. *)
Definition examinePickleScanMessage (sr : ScanResult.t)
  : option (Examined * ScanResult.t) :=
  if decide (ScanResult.picklescanExitCode sr = ScanExitCode.Pending)
  then Some (mkExamined None None, sr)
  else
    let picklescanDangerousImports := default [] (ScanResult.picklescanDangerousImports sr) in
    let picklescanGlobalImports := default [] (ScanResult.picklescanGlobalImports sr) in
    let importCount :=
      (length picklescanDangerousImports + length picklescanGlobalImports)%nat in
    if (importCount =? 0)%nat
    then Some (mkExamined (Some "No Pickle imports") (Some false), sr)
    else
      dangerousGlobals ← filterSpecial picklescanGlobalImports;
      let moved := reclassify dangerousGlobals picklescanDangerousImports picklescanGlobalImports in
      let hasDanger := (0 <? length moved.1)%nat in
      dangerousLines ← mapM (fun imp => p ← processImport imp; Some ("*" +:+ p +:+ "*")) moved.1;
      globalLines ← mapM processImport moved.2;
      let lines :=
        ["**Detected Pickle imports (" +:+ JsString.ofNat importCount +:+ ")**"]
        ++ (if hasDanger then ["*Dangerous import detected*"] else [])
        ++ ["```"] ++ dangerousLines ++ globalLines ++ ["```"] in
      Some (mkExamined (Some (JsString.join newline lines)) (Some hasDanger),
            ScanResult.mk (ScanResult.url sr) (ScanResult.fileExists sr)
              (ScanResult.picklescanExitCode sr) (ScanResult.picklescanOutput sr)
              ((fun _ => moved.2) <$> ScanResult.picklescanGlobalImports sr)
              ((fun _ => moved.1) <$> ScanResult.picklescanDangerousImports sr)
              (ScanResult.clamscanExitCode sr) (ScanResult.clamscanOutput sr)
              (ScanResult.hashes sr)).

(** ** The webhook handler *)

(** [resultCodeMap]. *)
Definition resultCodeMap (c : ScanExitCode.t) : ScanResultCode.t :=
  match c with
  | ScanExitCode.Pending => ScanResultCode.Pending
  | ScanExitCode.Success => ScanResultCode.Success
  | ScanExitCode.Danger => ScanResultCode.Danger
  | ScanExitCode.Error => ScanResultCode.Error
  end.

(** The query as [querySchema.parse] returns it (a query it rejects never
    reaches the lookup): [modelVersionId] is a number the schema does not
    bound, here an integer of any size, and [type] is one of
    [constants.modelFileTypes]. *)
Record Query := mkQuery {
  modelVersionId : Z;
  type : string;
  format : ModelFileFormat;
  tasks : option (list ScannerTask)
}.

Record Request := mkRequest {
  method : string;
  query : Query;
  body : ScanResult.t
}.

Inductive Json := JsonError (error : string) | JsonOk.

Record Response := mkResponse { status : Z; json : Json }.

(** [Prisma.ModelFileUpdateInput], a field being [None] while its key is not
    set.  [rawScanResult] holds a reference to the request's payload object,
    which is read when the update is sent; for [pickleScanMessage] the inner
    [None] is [undefined] (Prisma leaves the column alone), for
    [virusScanMessage] it is [null] (the column is cleared). *)
Module ModelFileUpdateInput.
Record t := mk {
  scannedAt : option Z;
  rawScanResult : option unit;
  virusScanResult : option ScanResultCode.t;
  virusScanMessage : option (option string);
  pickleScanResult : option ScanResultCode.t;
  pickleScanMessage : option (option string);
  exists_ : option bool;
  url : option string
}.

Definition empty : t := mk None None None None None None None None.

(** [Object.keys(data).length]. *)
Definition key {A} (field : option A) : nat :=
  match field with Some _ => 1%nat | None => 0%nat end.

Definition keys (d : t) : nat :=
  (key (scannedAt d) + key (rawScanResult d) + key (virusScanResult d)
   + key (virusScanMessage d) + key (pickleScanResult d) + key (pickleScanMessage d)
   + key (exists_ d) + key (url d))%nat.

(** The row after the update; [payload] is the payload object as it is when
    the update is sent. *)
Definition apply (d : t) (payload : ScanResult.t) (f : ModelFile.t) : ModelFile.t :=
  ModelFile.mk
    (ModelFile.id f)
    (ModelFile.name f)
    (default (ModelFile.url f) (url d))
    (default (ModelFile.pickleScanResult f) (pickleScanResult d))
    (match exists_ d with Some b => Some b | None => ModelFile.exists_ f end)
    (match pickleScanMessage d with
     | Some (Some m) => Some m
     | _ => ModelFile.pickleScanMessage f
     end)
    (default (ModelFile.virusScanResult f) (virusScanResult d))
    (default (ModelFile.virusScanMessage f) (virusScanMessage d))
    (match scannedAt d with Some t => Some t | None => ModelFile.scannedAt f end)
    (match rawScanResult d with
     | Some _ => Some payload
     | None => ModelFile.rawScanResult f
     end).

(** The values of the update are acceptable to PostgreSQL: the [text] columns
    [url], [virusScanMessage] and [pickleScanMessage] and the [jsonb] column
    [rawScanResult], for the keys that are set. *)
Definition storable (d : t) (payload : ScanResult.t) : bool :=
  from_option pgText true (url d)
  && from_option (from_option pgText true) true (virusScanMessage d)
  && from_option (from_option pgText true) true (pickleScanMessage d)
  && from_option (fun _ => ScanResult.pgJson payload) true (rawScanResult d).
End ModelFileUpdateInput.

Module prisma_modelFile.
(** [prisma.modelFile.update({ where, data })]: it throws when no row has
    the key, and when PostgreSQL refuses a value of [data]; the row is then
    left as it was. *)
Definition update (k : FileKey) (data : ModelFileUpdateInput.t) (payload : ScanResult.t)
  : Prisma unit :=
  db ← get;
  match modelFiles db !! k with
  | None => throw RecordNotFound
  | Some f =>
      if ModelFileUpdateInput.storable data payload
      then put (mkDB (models db) (modelVersions db)
                  (<[k := ModelFileUpdateInput.apply data payload f]> (modelFiles db))
                  (modelHashes db))
      else throw ValueRejected
  end.
End prisma_modelFile.

(** [scanResult.picklescanExitCode = c]. *)
Definition set_picklescanExitCode (c : ScanExitCode.t) (sr : ScanResult.t) : ScanResult.t :=
  ScanResult.mk (ScanResult.url sr) (ScanResult.fileExists sr) c
    (ScanResult.picklescanOutput sr) (ScanResult.picklescanGlobalImports sr)
    (ScanResult.picklescanDangerousImports sr) (ScanResult.clamscanExitCode sr)
    (ScanResult.clamscanOutput sr) (ScanResult.hashes sr).

(** [tasks.includes(t)]. *)
Definition hasTask (tasks : list ScannerTask) (t : ScannerTask) : bool :=
  bool_decide (t ∈ tasks).

(** The lookup key of a request, and the tasks it asks for. *)
Definition fileKey (q : Query) : FileKey := (modelVersionId q, type q, format q).

Definition requestedTasks (q : Query) : list ScannerTask :=
  default [Import; Scan; Hash] (tasks q).

Section Handler.

(** [env.S3_UPLOAD_BUCKET], and the clock read by [new Date()]. *)
Variable S3_UPLOAD_BUCKET : string.
Variable now : Z.

(** The [Scan] block: the update input and the payload object after it. *)
Definition scanTask (scanResult : ScanResult.t) (data : ModelFileUpdateInput.t)
  : option (ModelFileUpdateInput.t * ScanResult.t) :=
  let clam := ScanResult.clamscanExitCode scanResult in
  let pickleScanResult := resultCodeMap (ScanResult.picklescanExitCode scanResult) in
  ex ← examinePickleScanMessage scanResult;
  let data :=
    ModelFileUpdateInput.mk
      (Some now)
      (Some tt)
      (Some (resultCodeMap clam))
      (Some (if decide (clam = ScanExitCode.Success) then None
             else Some (ScanResult.clamscanOutput scanResult)))
      (Some pickleScanResult)
      (Some (pickleScanMessage ex.1))
      (ModelFileUpdateInput.exists_ data)
      (ModelFileUpdateInput.url data) in
  Some (data,
        if decide (hasDanger ex.1 = Some true)
        then set_picklescanExitCode ScanExitCode.Danger ex.2
        else ex.2).

(** The [Import] block, for a file whose stored URL is [url]. *)
Definition importTask (modelVersionId : Z) (url : string) (scanResult : ScanResult.t)
    (data : ModelFileUpdateInput.t) : Prisma ModelFileUpdateInput.t :=
  let exists_ := ScanResult.fileExists scanResult =? 1 in
  let bucket := S3_UPLOAD_BUCKET in
  let scannerImportedFile :=
    negb (JsString.includes url bucket)
    && JsString.includes (ScanResult.url scanResult) bucket in
  let data :=
    ModelFileUpdateInput.mk
      (ModelFileUpdateInput.scannedAt data)
      (ModelFileUpdateInput.rawScanResult data)
      (ModelFileUpdateInput.virusScanResult data)
      (ModelFileUpdateInput.virusScanMessage data)
      (ModelFileUpdateInput.pickleScanResult data)
      (ModelFileUpdateInput.pickleScanMessage data)
      (Some exists_)
      (if exists_ && scannerImportedFile then Some (ScanResult.url scanResult)
       else ModelFileUpdateInput.url data) in
  (if negb exists_ then unpublish modelVersionId else mret tt);;
  mret data.

(** The [Hash] block. *)
Definition hashTask (fileId : Z) (scanResult : ScanResult.t) : Prisma unit :=
  match ScanResult.hashes scanResult with
  | Some hashes =>
      prisma.modelHash_deleteMany fileId;;
      prisma.modelHash_createMany
        ((fun e => (fileId, e.1, e.2)) <$> map_to_list hashes)
  | None => mret tt
  end.

Definition handler (req : Request) : Prisma Response :=
  if negb (String.eqb (method req) "POST")
  then mret (mkResponse 405 (JsonError "Method not allowed"))
  else
    let q := query req in
    let tasks := requestedTasks q in
    let scanResult := body req in
    let where_ := fileKey q in
    found ← prisma.modelFile_findUnique where_;
    match found with
    | None => mret (mkResponse 404 (JsonError "File not found"))
    | Some file =>
        let url := ModelFile.url file in
        let fileId := ModelFile.id file in
        if String.eqb url "" || (fileId =? 0)
        then mret (mkResponse 404 (JsonError "File not found"))
        else
          let data := ModelFileUpdateInput.empty in
          scanned ←
            (if hasTask tasks Scan then liftURI (scanTask scanResult data)
             else mret (data, scanResult));
          let scanResult := scanned.2 in
          data ←
            (if hasTask tasks Import
             then importTask (modelVersionId q) url scanResult scanned.1
             else mret scanned.1);
          (if (0 <? ModelFileUpdateInput.keys data)%nat
           then prisma_modelFile.update where_ data scanResult
           else mret tt);;
          (if hasTask tasks Hash then hashTask fileId scanResult else mret tt);;
          mret (mkResponse 200 JsonOk)
    end.

End Handler.

(** ** [getDownloadFilename] *)

Section DownloadFilename.

(** [filenamize] of [~/utils/string-helpers] and [constants.modelFileTypes] of
    [~/server/common/constants] are not part of the sources at hand: the naming
    function is taken over any such helper and vocabulary. *)
Variable filenamize : string -> string.
Variable modelFileTypes : list string.

Definition getDownloadFilename
    (model_name : string) (model_type : ModelType)
    (modelVersion_name : string) (modelVersion_trainedWords : list string)
    (file_name : string) (file_type : string) : string :=
  let fileName := file_name in
  let modelName := filenamize model_name in
  let versionName := JsString.replace (filenamize modelVersion_name) modelName "" in
  let ext := JsString.pop (JsString.split "."%char file_name) in
  if negb (arrayIncludes modelFileTypes file_type) then file_name
  else
    let fileType := file_type in
    if String.eqb fileType "Training Data"
    then modelName +:+ "_" +:+ versionName +:+ "_trainingData.zip"
    else if decide (model_type = TextualInversion) then
      let trainedWord := modelVersion_trainedWords !! 0%nat in
      let fileSuffix := if String.eqb fileType "Negative" then "-neg" else "" in
      match trainedWord with
      | Some w => if String.eqb w "" then fileName else w +:+ fileSuffix +:+ "." +:+ ext
      | None => fileName
      end
    else if negb (String.eqb fileType "VAE") then
      let fileSuffix :=
        if JsString.includes fileName "-inpainting" then "-inpainting"
        else if String.eqb fileType "Text Encoder" then "_txt"
        else "" in
      modelName +:+ "_" +:+ versionName +:+ fileSuffix +:+ "." +:+ ext
    else fileName.

End DownloadFilename.

(** ** Callers: the model-version details API and the download endpoint *)

(** [hashesAsObject] of the model-version details API: the rows of a file's
    [hashes] relation folded into an object, a later row overwriting an earlier
    one of the same type. *)
Definition hashesAsObject (hashes : list (ModelHashType * string))
  : gmap ModelHashType string :=
  foldl (fun acc r => <[r.1 := r.2]> acc) ∅ hashes.

(** The address test that opens [downloadModel]: [value] is the value of the
    ['ip-blacklist'] row of [KeyValue] when there is one, [ip] the client
    address when [request-ip] found one. *)
Definition ipBlacklisted (value : option string) (ip : option string) : bool :=
  let blacklist := JsString.split ","%char (default EmptyString value) in
  match ip with
  | Some ip => negb (String.eqb ip "") && arrayIncludes blacklist ip
  | None => false
  end.

(** [files.select.hashes] of [getModelVersionDetailsSelect], which
    [getModelVersionApiSelect] spreads: [hashes: { select: { type: true, hash:
    true } }] is, for a file, the type and hash of the rows of its [hashes]
    relation, the [ModelHash] rows whose [fileId] is the file's id.  The
    selection has no [orderBy]; the rows are listed here as the table
    enumerates them, and what is proved of them is proved of every order. *)
Definition getModelVersionApiSelect_hashes (db : DB) (fileId : Z)
  : list (ModelHashType * string) :=
  (fun kv => (kv.1.2, kv.2))
    <$> map_to_list (filter (fun kv => kv.1.1 = fileId) (modelHashes db)).

(** ** Vocabulary of the statements *)

(** The request resolves to [file]: the lookup finds the row, and the row
    passes the guard [!url || !fileId]. *)
Definition resolves (db : DB) (q : Query) (file : ModelFile.t) : Prop :=
  modelFiles db !! fileKey q = Some file
  /\ ModelFile.url file <> "" /\ ModelFile.id file <> 0.

(** The hash table after the [Hash] block for file [fileId]. *)
Definition replacedHashes (fileId : Z) (hashes : gmap ModelHashType string)
    (table : gmap (Z * ModelHashType) string) : gmap (Z * ModelHashType) string :=
  list_to_map ((fun e => (fileId, e.1, e.2)) <$> map_to_list hashes)
  ∪ filter (fun kv => kv.1.1 <> fileId) table.

(** The global import reads, once processed, as an entry of the
    special-import list. *)
Definition isSpecial (importStr : string) : bool :=
  match processImport importStr with
  | Some p => arrayIncludes specialImports p
  | None => false
  end.

(** The indices at which the loop over the special global imports splices the
    global list: each import in turn is pushed on the dangerous list, and the
    index is the one it then has there. *)
Fixpoint splicedAt (dangerous dangerousGlobals : list string) : list Z :=
  match dangerousGlobals with
  | [] => []
  | imp :: rest => indexOf (dangerous ++ [imp]) imp :: splicedAt (dangerous ++ [imp]) rest
  end.

(** ** Concrete requests and databases *)

Module Sample.

Definition bucket : string := "model-share".

Definition file : ModelFile.t :=
  ModelFile.mk 5 "mymodel.ckpt" "https://uploads.example/tmp/mymodel.ckpt"
    ScanResultCode.Pending None None ScanResultCode.Pending None None None.

(** Model 1 with versions 10 (Published, owning the file) and 11 (Draft); the
    file has two hashes on record, another file has one. *)
Definition db : DB :=
  mkDB {[ 1 := Model.mk "My Model" Checkpoint Published ]}
       {[ 10 := ModelVersion.mk "v1" 1 [] Published;
          11 := ModelVersion.mk "v2" 1 [] Draft ]}
       {[ (10, "Model", PickleTensor) := file ]}
       {[ (5, SHA256) := "0a0a"; (5, CRC32) := "0b0b"; (6, SHA256) := "0c0c" ]}.

(** The same, with version 11 Published too. *)
Definition db2 : DB :=
  mkDB (models db)
       (<[ 11 := ModelVersion.mk "v2" 1 [] Published ]> (modelVersions db))
       (modelFiles db) (modelHashes db).

Definition payload (fileExists : Z) (picklescanExitCode : ScanExitCode.t)
    (globals dangerous : option (list string)) : ScanResult.t :=
  ScanResult.mk "https://model-share.example/10/mymodel.ckpt" fileExists
    picklescanExitCode None globals dangerous ScanExitCode.Success ""
    (Some {[ SHA256 := "1a1a"; AutoV1 := "1b1b" ]}).

(** The file is reported missing. *)
Definition missing : ScanResult.t := payload 0 ScanExitCode.Success None None.

Definition request (tasks : option (list ScannerTask)) (p : ScanResult.t) : Request :=
  mkRequest "POST" (mkQuery 10 "Model" PickleTensor tasks) p.

(** An import as the scanner reports it: module and name, quoted and separated
    by a comma. *)
Definition checkpointImport : string :=
  "'pytorch_lightning.callbacks.model_checkpoint', 'ModelCheckpoint'".

(** A vocabulary holding the file types the sources name, and a stand-in for
    [filenamize]. *)
Definition modelFileTypes : list string :=
  ["Model"; "Pruned Model"; "Negative"; "Training Data"; "VAE"; "Text Encoder"].

Definition filenamize (s : string) : string := s.

End Sample.

(** * Properties *)

(** ** Running database actions *)

Lemma bind_run {A B} (m : Prisma A) (f : A -> Prisma B) db :
  (m ≫= f) db =
  match m db with
  | (Ok a, db') => f a db'
  | (Throw e, db') => (Throw e, db')
  end.
Proof. reflexivity. Qed.

Lemma bind_ok_inv {A B} (m : Prisma A) (f : A -> Prisma B) db b db'' :
  (m ≫= f) db = (Ok b, db'') ->
  exists a db', m db = (Ok a, db') /\ f a db' = (Ok b, db'').
Proof.
  rewrite bind_run. destruct (m db) as [[a|e] db1]; [eauto | discriminate].
Qed.

Lemma bind_ok {A B} (m : Prisma A) (f : A -> Prisma B) db a db' :
  m db = (Ok a, db') -> (m ≫= f) db = f a db'.
Proof. intros H. by rewrite bind_run, H. Qed.

Lemma liftURI_ok_inv {A} (o : option A) db a db' :
  liftURI o db = (Ok a, db') -> o = Some a /\ db' = db.
Proof. destruct o; simpl; [by intros [= <- <-]|done]. Qed.

(** ** [unpublish] *)

(** [unpublish] as one case analysis on the database it starts from. *)
Lemma unpublish_run v db :
  unpublish v db =
  match modelVersions db !! v with
  | None => (Throw RecordNotFound, db)
  | Some ver =>
      let vs := <[v := ModelVersion.with_status Draft ver]> (modelVersions db) in
      let m := ModelVersion.modelId ver in
      match (if truthyZ m then models db !! m else None) with
      | Some mo =>
          if decide (size (prisma.publishedVersions vs m) = 0)%nat
          then (Ok tt, mkDB (<[m := Model.with_status Unpublished mo]> (models db)) vs
                         (modelFiles db) (modelHashes db))
          else (Ok tt, mkDB (models db) vs (modelFiles db) (modelHashes db))
      | None => (Ok tt, mkDB (models db) vs (modelFiles db) (modelHashes db))
      end
  end.
Proof.
  unfold unpublish, prisma.modelVersion_update_status,
    prisma.modelVersion_findUnique_modelId, prisma.model_findUnique_publishedCount,
    prisma.model_update_status, get, put, throw.
  rewrite !bind_run. unfold mret, Prisma_ret.
  destruct (modelVersions db !! v) as [ver|] eqn:Hv; [|done].
  rewrite !bind_run. simpl. rewrite lookup_insert_eq. simpl.
  destruct (truthyZ _); [|done].
  rewrite !bind_run. simpl.
  destruct (models db !! _) as [mo|] eqn:Hm; [|done].
  destruct (size _) eqn:Hsz; simpl.
  - rewrite bind_run. simpl. by rewrite Hm.
  - done.
Qed.

Lemma unpublish_frame v db r db' :
  unpublish v db = (r, db') ->
  modelFiles db' = modelFiles db /\ modelHashes db' = modelHashes db.
Proof.
  rewrite unpublish_run. intros H.
  destruct (modelVersions db !! v); [|by inversion H].
  cbn in H. destruct (if truthyZ _ then _ else _).
  - destruct (decide _); by inversion H.
  - by inversion H.
Qed.


(** C10.  The unpublish cascade is idempotent: run twice in sequence, it
    returns what one run returns and leaves the database one run leaves (so the
    version and model statuses in particular), whatever the database and the
    version id; and one run leaves the version, when it exists, with status
    Draft whatever its status was. *)
Theorem unpublish_idempotent (v : Z) (db : DB) :
  (unpublish v ;; unpublish v) db = unpublish v db
  /\ ModelVersion.status <$> modelVersions (unpublish v db).2 !! v
     = (fun _ => Draft) <$> modelVersions db !! v.
Proof.
  split.
  - rewrite bind_run, (unpublish_run v db).
    destruct (modelVersions db !! v) as [ver|] eqn:Hv; [|done].
    set (m := ModelVersion.modelId ver).
    cbv zeta.
    destruct (if truthyZ m then models db !! m else None) as [mo|] eqn:Hm.
    + destruct (truthyZ m) eqn:Ht; [|done].
      destruct (decide _) as [Hz|Hnz];
        rewrite unpublish_run; simpl; rewrite lookup_insert_eq; simpl;
        rewrite insert_insert_eq; fold m; rewrite Ht.
      * rewrite lookup_insert_eq, decide_True by done.
        by rewrite insert_insert_eq.
      * by rewrite Hm, decide_False.
    + rewrite unpublish_run; simpl; rewrite lookup_insert_eq; simpl.
      rewrite insert_insert_eq. fold m. by rewrite Hm.
  - rewrite unpublish_run.
    destruct (modelVersions db !! v) as [ver|] eqn:Hv; [|by simpl; rewrite Hv].
    cbv zeta. destruct (if truthyZ _ then _ else _).
    + destruct (decide _); simpl; by rewrite lookup_insert_eq.
    + simpl; by rewrite lookup_insert_eq.
Qed.

(** ** Counting the published versions of a model *)

Lemma publishedVersions_lookup vs m v ver :
  prisma.publishedVersions vs m !! v = Some ver <->
  vs !! v = Some ver /\ ModelVersion.modelId ver = m
  /\ ModelVersion.status ver = Published.
Proof. unfold prisma.publishedVersions. by rewrite map_lookup_filter_Some. Qed.

Lemma publishedVersions_only vs m v ver :
  vs !! v = Some ver ->
  ModelVersion.modelId ver = m ->
  ModelVersion.status ver = Published ->
  (forall v' ver', vs !! v' = Some ver' -> ModelVersion.modelId ver' = m ->
                   ModelVersion.status ver' = Published -> v' = v) ->
  size (prisma.publishedVersions vs m) = 1%nat.
Proof.
  intros Hv Hm Hs Honly.
  replace (prisma.publishedVersions vs m) with ({[ v := ver ]} : gmap Z ModelVersion.t);
    [apply map_size_singleton|].
  apply map_eq. intros i. destruct (decide (i = v)) as [->|Hne].
  - rewrite lookup_singleton_eq. symmetry. by apply publishedVersions_lookup.
  - rewrite lookup_singleton_ne by done. symmetry.
    destruct (prisma.publishedVersions vs m !! i) as [x|] eqn:Hx; [|done].
    apply publishedVersions_lookup in Hx as (? & ? & ?). destruct Hne. eauto.
Qed.

Lemma publishedVersions_after_draft vs m v ver :
  (forall v' ver', vs !! v' = Some ver' -> ModelVersion.modelId ver' = m ->
                   ModelVersion.status ver' = Published -> v' = v) ->
  size (prisma.publishedVersions (<[v := ModelVersion.with_status Draft ver]> vs) m) = 0%nat.
Proof.
  intros Honly. apply map_size_empty_iff, map_empty. intros i.
  destruct (prisma.publishedVersions _ m !! i) as [x|] eqn:Hx; [|done].
  apply publishedVersions_lookup in Hx as (Hi & Hm & Hs).
  destruct (decide (i = v)) as [->|Hne].
  - rewrite lookup_insert_eq in Hi. injection Hi as <-. done.
  - rewrite lookup_insert_ne in Hi by done. destruct Hne. eauto.
Qed.

Lemma publishedVersions_other_remains vs m v ver v2 ver2 :
  v2 <> v -> vs !! v2 = Some ver2 ->
  ModelVersion.modelId ver2 = m -> ModelVersion.status ver2 = Published ->
  size (prisma.publishedVersions (<[v := ModelVersion.with_status Draft ver]> vs) m) <> 0%nat.
Proof.
  intros Hne Hv2 Hm Hs Hz. apply map_size_empty_iff in Hz.
  assert (prisma.publishedVersions (<[v := ModelVersion.with_status Draft ver]> vs) m
          !! v2 = Some ver2) as Hl.
  { apply publishedVersions_lookup. by rewrite lookup_insert_ne. }
  by rewrite Hz, lookup_empty in Hl.
Qed.

(** ** The blocks of the handler *)

Lemma examine_payload_frame sr ex sr' :
  examinePickleScanMessage sr = Some (ex, sr') ->
  ScanResult.url sr' = ScanResult.url sr
  /\ ScanResult.fileExists sr' = ScanResult.fileExists sr
  /\ ScanResult.hashes sr' = ScanResult.hashes sr
  /\ ScanResult.picklescanExitCode sr' = ScanResult.picklescanExitCode sr.
Proof.
  unfold examinePickleScanMessage.
  destruct (decide _); [by intros [= <- <-]|].
  destruct (_ =? _)%nat; [by intros [= <- <-]|].
  intros H.
  apply bind_Some in H as (dg & _ & H).
  apply bind_Some in H as (dl & _ & H).
  apply bind_Some in H as (gl & _ & H).
  by injection H as <- <-.
Qed.

Lemma scanTask_payload_frame now sr d d' sr' :
  scanTask now sr d = Some (d', sr') ->
  ScanResult.url sr' = ScanResult.url sr
  /\ ScanResult.fileExists sr' = ScanResult.fileExists sr
  /\ ScanResult.hashes sr' = ScanResult.hashes sr.
Proof.
  unfold scanTask.
  destruct (examinePickleScanMessage sr) as [[ex sr1]|] eqn:He; [|done].
  apply examine_payload_frame in He as (? & ? & ? & _). simpl.
  intros [= <- <-]. by destruct (decide _).
Qed.

Lemma scan_step_payload_frame (c : bool) now payload d1 sr1 :
  (if c then scanTask now payload ModelFileUpdateInput.empty
   else Some (ModelFileUpdateInput.empty, payload)) = Some (d1, sr1) ->
  ScanResult.url sr1 = ScanResult.url payload
  /\ ScanResult.fileExists sr1 = ScanResult.fileExists payload
  /\ ScanResult.hashes sr1 = ScanResult.hashes payload.
Proof.
  destruct c; [apply scanTask_payload_frame|by intros [= _ <-]].
Qed.

Lemma scan_step_data (c : bool) now payload d1 sr1 :
  (if c then scanTask now payload ModelFileUpdateInput.empty
   else Some (ModelFileUpdateInput.empty, payload)) = Some (d1, sr1) ->
  ModelFileUpdateInput.url d1 = None /\ ModelFileUpdateInput.exists_ d1 = None.
Proof.
  destruct c; [|by intros [= <- _]].
  unfold scanTask. intros H. apply bind_Some in H as (ex & _ & H).
  by injection H as <- _.
Qed.

Lemma importTask_run bucket v url sr d db :
  importTask bucket v url sr d db =
  let exists_ := ScanResult.fileExists sr =? 1 in
  let data :=
    ModelFileUpdateInput.mk
      (ModelFileUpdateInput.scannedAt d) (ModelFileUpdateInput.rawScanResult d)
      (ModelFileUpdateInput.virusScanResult d) (ModelFileUpdateInput.virusScanMessage d)
      (ModelFileUpdateInput.pickleScanResult d) (ModelFileUpdateInput.pickleScanMessage d)
      (Some exists_)
      (if exists_ && (negb (JsString.includes url bucket)
                      && JsString.includes (ScanResult.url sr) bucket)
       then Some (ScanResult.url sr) else ModelFileUpdateInput.url d) in
  if exists_ then (Ok data, db)
  else match unpublish v db with
       | (Ok _, db') => (Ok data, db')
       | (Throw e, db') => (Throw e, db')
       end.
Proof.
  unfold importTask. rewrite bind_run. cbv zeta.
  destruct (ScanResult.fileExists sr =? 1); simpl; [done|].
  by destruct (unpublish v db) as [[[]|e] db1].
Qed.

Lemma import_step_frame (c : bool) bucket v url sr d db data db2 :
  (if c then importTask bucket v url sr d else mret d) db = (Ok data, db2) ->
  modelFiles db2 = modelFiles db /\ modelHashes db2 = modelHashes db.
Proof.
  destruct c; [|by intros [= _ <-]].
  rewrite importTask_run. cbv zeta.
  destruct (_ =? 1); [by intros [= _ <-]|].
  destruct (unpublish v db) as [[[]|e] dbu] eqn:Hun; [|done].
  intros [= _ <-]. by eapply unpublish_frame.
Qed.

Lemma import_step_data (c : bool) bucket v url sr d db data db2 :
  (if c then importTask bucket v url sr d else mret d) db = (Ok data, db2) ->
  ModelFileUpdateInput.pickleScanResult data = ModelFileUpdateInput.pickleScanResult d
  /\ ModelFileUpdateInput.pickleScanMessage data = ModelFileUpdateInput.pickleScanMessage d
  /\ ModelFileUpdateInput.rawScanResult data = ModelFileUpdateInput.rawScanResult d.
Proof.
  destruct c; [|by intros [= <- _]].
  rewrite importTask_run. cbv zeta.
  destruct (_ =? 1); [by intros [= <- _]|].
  destruct (unpublish v db) as [[[]|e] dbu]; [|done].
  by intros [= <- _].
Qed.

Lemma findUnique_run k db :
  prisma.modelFile_findUnique k db =
  match modelFiles db !! k with
  | Some f => (Ok (Some f), db)
  | None => if inInt k.1.1 then (Ok None, db) else (Throw ValueOutOfRange, db)
  end.
Proof.
  unfold prisma.modelFile_findUnique, get, throw. rewrite bind_run.
  destruct (modelFiles db !! k); [done|]. by destruct (inInt _).
Qed.

Lemma update_run k data payload db :
  prisma_modelFile.update k data payload db =
  match modelFiles db !! k with
  | None => (Throw RecordNotFound, db)
  | Some f =>
      if ModelFileUpdateInput.storable data payload
      then (Ok tt, mkDB (models db) (modelVersions db)
                     (<[k := ModelFileUpdateInput.apply data payload f]> (modelFiles db))
                     (modelHashes db))
      else (Throw ValueRejected, db)
  end.
Proof.
  unfold prisma_modelFile.update, get, put, throw. rewrite bind_run.
  destruct (modelFiles db !! k); [|done]. by destruct (ModelFileUpdateInput.storable _ _).
Qed.

(** An update that went through carried acceptable values and wrote the row. *)
Lemma update_ok_inv k data payload db db' :
  prisma_modelFile.update k data payload db = (Ok tt, db') ->
  ModelFileUpdateInput.storable data payload = true
  /\ match modelFiles db !! k with
     | None => (Throw RecordNotFound, db)
     | Some f =>
         (Ok tt, mkDB (models db) (modelVersions db)
                   (<[k := ModelFileUpdateInput.apply data payload f]> (modelFiles db))
                   (modelHashes db))
     end = (Ok tt, db').
Proof.
  rewrite update_run. destruct (modelFiles db !! k); [|done].
  by destruct (ModelFileUpdateInput.storable _ _).
Qed.

Lemma update_step_frame (c : bool) k data payload db db' :
  (if c then prisma_modelFile.update k data payload else mret tt) db = (Ok tt, db') ->
  models db' = models db /\ modelVersions db' = modelVersions db
  /\ modelHashes db' = modelHashes db.
Proof.
  destruct c; [|by intros [= <-]].
  intros (_ & H)%update_ok_inv. destruct (modelFiles db !! k); [by injection H as <-|done].
Qed.

Lemma keys_exists d b :
  ModelFileUpdateInput.exists_ d = Some b -> (0 <? ModelFileUpdateInput.keys d)%nat = true.
Proof.
  intros H. apply Nat.ltb_lt. unfold ModelFileUpdateInput.keys. rewrite H. simpl. lia.
Qed.

Lemma keys_pickleScanResult d c :
  ModelFileUpdateInput.pickleScanResult d = Some c ->
  (0 <? ModelFileUpdateInput.keys d)%nat = true.
Proof.
  intros H. apply Nat.ltb_lt. unfold ModelFileUpdateInput.keys. rewrite H. simpl. lia.
Qed.

Lemma hash_rows_keys (fileId : Z) (hashes : gmap ModelHashType string) :
  ((fun e => (fileId, e.1, e.2)) <$> map_to_list hashes).*1
  = (fun t => (fileId, t)) <$> (map_to_list hashes).*1.
Proof. rewrite <- !list_fmap_compose. by apply list_fmap_ext. Qed.

Lemma hash_rows_text (fileId : Z) (hashes : gmap ModelHashType string) :
  forallb (fun r : Z * ModelHashType * string => pgText r.2)
    ((fun e => (fileId, e.1, e.2)) <$> map_to_list hashes)
  = ScanResult.pgHashes hashes.
Proof.
  unfold ScanResult.pgHashes. induction (map_to_list hashes) as [|e l IH]; [done|].
  rewrite fmap_cons. cbn [forallb snd]. by rewrite IH.
Qed.

(** The [Hash] block fails only on a hash PostgreSQL refuses, and then after
    the deletion: no key of the new rows is taken once the old rows are
    deleted, and the keys of a JavaScript object are distinct. *)
Lemma hashTask_run fileId sr db :
  hashTask fileId sr db =
  match ScanResult.hashes sr with
  | Some hashes =>
      if ScanResult.pgHashes hashes
      then (Ok tt, mkDB (models db) (modelVersions db) (modelFiles db)
                     (replacedHashes fileId hashes (modelHashes db)))
      else (Throw ValueRejected,
            mkDB (models db) (modelVersions db) (modelFiles db)
              (filter (fun kv => kv.1.1 <> fileId) (modelHashes db)))
  | None => (Ok tt, db)
  end.
Proof.
  unfold hashTask. destruct (ScanResult.hashes sr) as [hashes|]; [|done].
  unfold prisma.modelHash_deleteMany, prisma.modelHash_createMany, get, put, throw.
  rewrite !bind_run. simpl. rewrite hash_rows_text.
  destruct (ScanResult.pgHashes hashes); [|done]. simpl.
  rewrite bool_decide_eq_true_2.
  2:{ rewrite hash_rows_keys. apply NoDup_fmap_2; [by intros ?? [=]|].
      apply NoDup_fst_map_to_list. }
  assert (forallb
    (fun r : Z * ModelHashType * string =>
       bool_decide (filter (fun kv : Z * ModelHashType * string => kv.1.1 <> fileId)
                      (modelHashes db) !! r.1 = None))
    ((fun e => (fileId, e.1, e.2)) <$> map_to_list hashes) = true) as ->.
  { apply forallb_forall. intros r Hr%list_elem_of_In.
    apply list_elem_of_fmap in Hr as (e & -> & _). simpl.
    apply bool_decide_eq_true_2, map_lookup_filter_None. right.
    intros x _. simpl. tauto. }
  done.
Qed.

(** A [Hash] block that went through replaced the rows of the file. *)
Lemma hashTask_ok_inv fileId sr db db' :
  hashTask fileId sr db = (Ok tt, db') ->
  match ScanResult.hashes sr with
  | Some hashes =>
      (Ok tt, mkDB (models db) (modelVersions db) (modelFiles db)
                (replacedHashes fileId hashes (modelHashes db)))
  | None => (Ok tt, db)
  end = (Ok tt, db').
Proof.
  rewrite hashTask_run. destruct (ScanResult.hashes sr) as [hashes|]; [|done].
  by destruct (ScanResult.pgHashes hashes).
Qed.

Lemma hash_step_frame (c : bool) fileId payload db r db' :
  (if c then hashTask fileId payload else mret tt) db = (r, db') ->
  models db' = models db /\ modelVersions db' = modelVersions db
  /\ modelFiles db' = modelFiles db.
Proof.
  destruct c; [|by intros [= _ <-]].
  rewrite hashTask_run. destruct (ScanResult.hashes payload) as [hashes|];
    [destruct (ScanResult.pgHashes hashes)|]; by intros [= _ <-].
Qed.

Lemma replacedHashes_kmap fileId hashes table :
  replacedHashes fileId hashes table
  = kmap (fun t => (fileId, t)) hashes ∪ filter (fun kv => kv.1.1 <> fileId) table.
Proof.
  unfold replacedHashes, kmap. by do 2 f_equal.
Qed.

#[local] Instance pair_fileId_inj (fileId : Z) :
  Inj (=) (=) (fun t : ModelHashType => (fileId, t)).
Proof. by intros ?? [=]. Qed.

Lemma replacedHashes_lookup fileId hashes table fid t :
  replacedHashes fileId hashes table !! (fid, t)
  = if decide (fid = fileId) then hashes !! t else table !! (fid, t).
Proof.
  rewrite replacedHashes_kmap. destruct (decide (fid = fileId)) as [->|Hne].
  - destruct (hashes !! t) as [h|] eqn:Ht.
    + apply lookup_union_Some_l. by rewrite (lookup_kmap (fun t => (fileId, t))).
    + apply lookup_union_None. split.
      * by rewrite (lookup_kmap (fun t => (fileId, t))).
      * apply map_lookup_filter_None. right. intros x _. simpl. tauto.
  - rewrite lookup_union_r.
    + destruct (table !! (fid, t)) as [h|] eqn:Ht.
      * by apply map_lookup_filter_Some.
      * apply map_lookup_filter_None. by left.
    + apply lookup_kmap_None; [apply _|]. intros t' [= ? _]. done.
Qed.

(** ** Runs of the handler *)

Section HandlerRun.

(** A POST for a file the handler resolves. *)
Context (bucket : string) (now : Z) (req : Request) (db : DB) (file : ModelFile.t).
Hypothesis Hpost : method req = "POST".
Hypothesis Hresolves : resolves db (query req) file.

#[local] Abbreviation q := (query req).

(** Past the method test, the lookup and its guard, the handler is its four
    blocks in sequence. *)
Lemma handler_resolved :
  handler bucket now req db =
  (scanned ←
     (if hasTask (requestedTasks q) Scan
      then liftURI (scanTask now (body req) ModelFileUpdateInput.empty)
      else mret (ModelFileUpdateInput.empty, body req));
   data ←
     (if hasTask (requestedTasks q) Import
      then importTask bucket (modelVersionId q) (ModelFile.url file) scanned.2 scanned.1
      else mret scanned.1);
   (if (0 <? ModelFileUpdateInput.keys data)%nat
    then prisma_modelFile.update (fileKey q) data scanned.2
    else mret tt);;
   (if hasTask (requestedTasks q) Hash
    then hashTask (ModelFile.id file) scanned.2 else mret tt);;
   mret (mkResponse 200 JsonOk)) db.
Proof.
  destruct Hresolves as (Hf & Hurl & Hid). unfold handler.
  rewrite Hpost. simpl.
  rewrite bind_run, findUnique_run, Hf.
  apply String.eqb_neq in Hurl. apply Z.eqb_neq in Hid.
  by rewrite Hurl, Hid.
Qed.

(** A handler run that answers went through the four blocks in order. *)
Lemma handler_ok_inv resp db' :
  handler bucket now req db = (Ok resp, db') ->
  exists d1 sr1 data db2 db3,
    (if hasTask (requestedTasks q) Scan
     then scanTask now (body req) ModelFileUpdateInput.empty
     else Some (ModelFileUpdateInput.empty, body req)) = Some (d1, sr1)
    /\ (if hasTask (requestedTasks q) Import
        then importTask bucket (modelVersionId q) (ModelFile.url file) sr1 d1
        else mret d1) db = (Ok data, db2)
    /\ (if (0 <? ModelFileUpdateInput.keys data)%nat
        then prisma_modelFile.update (fileKey q) data sr1
        else mret tt) db2 = (Ok tt, db3)
    /\ (if hasTask (requestedTasks q) Hash
        then hashTask (ModelFile.id file) sr1 else mret tt) db3 = (Ok tt, db')
    /\ resp = mkResponse 200 JsonOk.
Proof.
  rewrite handler_resolved. intros H.
  apply bind_ok_inv in H as ([d1 sr1] & db1 & Hscan & H).
  apply bind_ok_inv in H as (data & db2 & Himp & H).
  apply bind_ok_inv in H as ([] & db3 & Hupd & H).
  apply bind_ok_inv in H as ([] & db4 & Hhash & H).
  injection H as <- <-.
  assert (db1 = db /\
    (if hasTask (requestedTasks q) Scan
     then scanTask now (body req) ModelFileUpdateInput.empty
     else Some (ModelFileUpdateInput.empty, body req)) = Some (d1, sr1)) as [-> Hs].
  { destruct (hasTask _ Scan).
    - by apply liftURI_ok_inv in Hscan as [-> ->].
    - by injection Hscan as <- <-. }
  by exists d1, sr1, data, db2, db3.
Qed.

(** An import that does not percent-decode aborts the request before any
    write. *)
Lemma handler_scan_throws :
  Scan ∈ requestedTasks q ->
  examinePickleScanMessage (body req) = None ->
  handler bucket now req db = (Throw URIError, db).
Proof.
  intros Hs Hex. rewrite handler_resolved, bind_run.
  unfold hasTask. rewrite bool_decide_eq_true_2 by done.
  unfold scanTask. by rewrite Hex.
Qed.

(** With [Import] requested and the file reported missing, the model and
    version tables the handler leaves are those [unpublish] leaves. *)
Lemma handler_missing_file resp db' :
  Import ∈ requestedTasks q ->
  ScanResult.fileExists (body req) <> 1 ->
  handler bucket now req db = (Ok resp, db') ->
  exists db2,
    unpublish (modelVersionId q) db = (Ok tt, db2)
    /\ models db' = models db2 /\ modelVersions db' = modelVersions db2
    /\ resp = mkResponse 200 JsonOk.
Proof.
  intros Himp Hex H.
  destruct (handler_ok_inv _ _ H)
    as (d1 & sr1 & data & db2 & db3 & Hs & Hi & Hu & Hh & ->).
  apply scan_step_payload_frame in Hs as (_ & Hfe & _).
  unfold hasTask in Hi. rewrite bool_decide_eq_true_2 in Hi by done.
  rewrite importTask_run in Hi. cbv zeta in Hi.
  rewrite Hfe in Hi. apply Z.eqb_neq in Hex. rewrite Hex in Hi.
  destruct (unpublish _ db) as [[[]|e] dbu] eqn:Hun; [|done].
  injection Hi as _ <-.
  apply update_step_frame in Hu as (Hu1 & Hu2 & _).
  apply hash_step_frame in Hh as (Hh1 & Hh2 & _).
  exists dbu. repeat split; congruence.
Qed.

(** What a run that answers, with [Scan] requested, has stored on the file:
    the verdict is the image of the exit code the payload came with, the
    message is the one [examinePickleScanMessage] built (the old one when it
    built none), and the raw result is the payload object as the [Scan] block
    left it. *)
Lemma handler_scan_stored resp db' :
  Scan ∈ requestedTasks q ->
  handler bucket now req db = (Ok resp, db') ->
  exists ex sr1 file',
    examinePickleScanMessage (body req) = Some (ex, sr1)
    /\ modelFiles db' !! fileKey q = Some file'
    /\ ModelFile.pickleScanResult file'
       = resultCodeMap (ScanResult.picklescanExitCode (body req))
    /\ ModelFile.pickleScanMessage file'
       = match pickleScanMessage ex with
         | Some m => Some m
         | None => ModelFile.pickleScanMessage file
         end
    /\ ModelFile.rawScanResult file'
       = Some (if decide (hasDanger ex = Some true)
               then set_picklescanExitCode ScanExitCode.Danger sr1 else sr1)
    /\ resp = mkResponse 200 JsonOk.
Proof.
  intros Hscan H.
  destruct (handler_ok_inv _ _ H)
    as (d1 & sr1 & data & db2 & db3 & Hs & Hi & Hu & Hh & ->).
  unfold hasTask in Hs. rewrite bool_decide_eq_true_2 in Hs by done.
  unfold scanTask in Hs. apply bind_Some in Hs as ([ex sre] & Hex & Hs).
  injection Hs as <- <-.
  pose proof (import_step_data _ _ _ _ _ _ _ _ _ Hi) as (Hr & Hmsg & Hraw).
  apply import_step_frame in Hi as (Hfiles & _).
  rewrite (keys_pickleScanResult _ _ Hr) in Hu.
  apply update_ok_inv in Hu as (_ & Hu). rewrite Hfiles in Hu.
  destruct Hresolves as (Hf & _ & _).
  rewrite Hf in Hu.
  injection Hu as <-.
  apply hash_step_frame in Hh as (_ & _ & Hh).
  exists ex, sre. eexists. split; [done|].
  split; [by rewrite Hh; apply lookup_insert_eq|].
  unfold ModelFileUpdateInput.apply. cbn [ModelFile.pickleScanResult
    ModelFile.pickleScanMessage ModelFile.rawScanResult].
  rewrite Hr, Hmsg, Hraw. simpl. by repeat split.
Qed.

End HandlerRun.

(** The blocks of a run that answered, named [d1 sr1 data db2 db3] with the
    equations [Hs Hi Hu Hh] of the four blocks. *)
Ltac handler_blocks Hm Hres H :=
  destruct (handler_ok_inv _ _ _ _ _ Hm Hres _ _ H)
    as (d1 & sr1 & data & db2 & db3 & Hs & Hi & Hu & Hh & ->).

Lemma sample_resolves tasks p :
  resolves Sample.db (query (Sample.request tasks p)) Sample.file.
Proof. split; [vm_compute; reflexivity | split; vm_compute; discriminate]. Qed.

Lemma sample_resolves2 tasks p :
  resolves Sample.db2 (query (Sample.request tasks p)) Sample.file.
Proof. split; [vm_compute; reflexivity | split; vm_compute; discriminate]. Qed.

(** ** The unpublish cascade through the handler *)

(** C2.  An intake POST with [Import] among its tasks reports the file
    missing ([fileExists] is not 1); the handler resolves the file, the version
    of the key and its model exist (the model id is not zero, as an
    auto-incremented id is), and that version is the only Published version of
    the model.  If the handler answers, it answers 200, the version ends Draft
    and the model Unpublished.  The count the decision rests on is read after
    the version update: it is 1 in the database the handler starts from and 0 in
    the database the version update leaves. *)
Theorem handler_unpublishes_only_published_version
    bucket now req db resp db' file ver mo :
  let v := modelVersionId (query req) in
  let m := ModelVersion.modelId ver in
  method req = "POST" ->
  resolves db (query req) file ->
  Import ∈ requestedTasks (query req) ->
  ScanResult.fileExists (body req) <> 1 ->
  modelVersions db !! v = Some ver ->
  ModelVersion.status ver = Published ->
  m <> 0 ->
  models db !! m = Some mo ->
  (forall v' ver', modelVersions db !! v' = Some ver' ->
                   ModelVersion.modelId ver' = m ->
                   ModelVersion.status ver' = Published -> v' = v) ->
  handler bucket now req db = (Ok resp, db') ->
  status resp = 200
  /\ ModelVersion.status <$> modelVersions db' !! v = Some Draft
  /\ Model.status <$> models db' !! m = Some Unpublished
  /\ prisma.model_findUnique_publishedCount m db = (Ok (Some 1%nat), db)
  /\ exists db1,
       prisma.modelVersion_update_status v Draft db = (Ok tt, db1)
       /\ prisma.model_findUnique_publishedCount m db1 = (Ok (Some 0%nat), db1).
Proof.
  intros v m Hm Hres Himp Hex Hv Hpub Hm0 Hmo Honly H.
  destruct (handler_missing_file _ _ _ _ _ Hm Hres _ _ Himp Hex H)
    as (dbu & Hun & Hmodels & Hvers & ->).
  rewrite unpublish_run in Hun. fold v in Hun. rewrite Hv in Hun.
  cbv zeta in Hun. fold m in Hun.
  assert (truthyZ m = true) as Ht by (unfold truthyZ; by apply negb_true_iff, Z.eqb_neq).
  rewrite Ht, Hmo in Hun.
  rewrite decide_True in Hun by (by apply publishedVersions_after_draft).
  injection Hun as <-. simpl in Hmodels, Hvers.
  rewrite Hmodels, Hvers, !lookup_insert_eq.
  repeat split; try done.
  - unfold prisma.model_findUnique_publishedCount, get. rewrite bind_run.
    unfold mret, Prisma_ret. rewrite Hmo.
    by rewrite (publishedVersions_only _ m v ver).
  - exists (mkDB (models db) (<[v := ModelVersion.with_status Draft ver]> (modelVersions db))
              (modelFiles db) (modelHashes db)).
    split.
    + unfold prisma.modelVersion_update_status, get, put. rewrite bind_run.
      by rewrite Hv.
    + unfold prisma.model_findUnique_publishedCount, get. rewrite bind_run.
      unfold mret, Prisma_ret. cbn [models modelVersions]. rewrite Hmo.
      by rewrite publishedVersions_after_draft.
Qed.

Lemma handler_unpublishes_only_published_version_witness :
  let r := handler Sample.bucket 1700000000 (Sample.request (Some [Import]) Sample.missing)
             Sample.db in
  r.1 = Ok (mkResponse 200 JsonOk)
  /\ ModelVersion.status <$> modelVersions r.2 !! 10 = Some Draft
  /\ Model.status <$> models r.2 !! 1 = Some Unpublished.
Proof.
  set (req := Sample.request (Some [Import]) Sample.missing).
  intros r.
  assert (resolves Sample.db (query req) Sample.file) as Hres
    by (split; [vm_compute; reflexivity | split; vm_compute; discriminate]).
  assert (Import ∈ requestedTasks (query req)) as Himp by apply list_elem_of_here.
  assert (forall v' ver', modelVersions Sample.db !! v' = Some ver' ->
            ModelVersion.modelId ver' = 1 ->
            ModelVersion.status ver' = Published -> v' = 10) as Honly.
  { intros v' ver' Hl _ Hst.
    destruct (decide (v' = 10)) as [->|H10]; [done|].
    unfold Sample.db in Hl. cbn [modelVersions] in Hl.
    rewrite lookup_insert_ne in Hl by done.
    apply lookup_singleton_Some in Hl as [_ <-]. discriminate. }
  assert (r = (Ok (mkResponse 200 JsonOk), r.2)) as Hr by (vm_compute; reflexivity).
  destruct (handler_unpublishes_only_published_version Sample.bucket 1700000000
    req Sample.db (mkResponse 200 JsonOk) r.2 Sample.file
    (ModelVersion.mk "v1" 1 [] Published) (Model.mk "My Model" Checkpoint Published)
    eq_refl Hres Himp ltac:(discriminate) eq_refl eq_refl ltac:(discriminate) eq_refl
    Honly Hr) as (_ & Hv & Hmo & _).
  split; [vm_compute; reflexivity|]. split; assumption.
Defined.

(** C3.  An intake POST with [Import] among its tasks reports the file
    missing; the handler resolves the file, and the model of the key's version
    has another version that is Published.  If the handler answers, it answers
    200, the affected version ends Draft, and the model table is left as it was,
    so the model keeps its status (Published if it was Published). *)
Theorem handler_keeps_model_with_other_published_version
    bucket now req db resp db' file ver v2 ver2 :
  let v := modelVersionId (query req) in
  let m := ModelVersion.modelId ver in
  method req = "POST" ->
  resolves db (query req) file ->
  Import ∈ requestedTasks (query req) ->
  ScanResult.fileExists (body req) <> 1 ->
  modelVersions db !! v = Some ver ->
  v2 <> v ->
  modelVersions db !! v2 = Some ver2 ->
  ModelVersion.modelId ver2 = m ->
  ModelVersion.status ver2 = Published ->
  handler bucket now req db = (Ok resp, db') ->
  status resp = 200
  /\ ModelVersion.status <$> modelVersions db' !! v = Some Draft
  /\ models db' = models db
  /\ Model.status <$> models db' !! m = Model.status <$> models db !! m.
Proof.
  intros v m Hm Hres Himp Hex Hv Hne Hv2 Hm2 Hpub2 H.
  destruct (handler_missing_file _ _ _ _ _ Hm Hres _ _ Himp Hex H)
    as (dbu & Hun & Hmodels & Hvers & ->).
  rewrite unpublish_run in Hun. fold v in Hun. rewrite Hv in Hun.
  cbv zeta in Hun. fold m in Hun.
  assert (models dbu = models db
          /\ modelVersions dbu = <[v := ModelVersion.with_status Draft ver]> (modelVersions db))
    as [Hmu Hvu].
  { destruct (if truthyZ m then models db !! m else None).
    - rewrite decide_False in Hun
        by (by eapply publishedVersions_other_remains).
      by injection Hun as <-.
    - by injection Hun as <-. }
  rewrite Hmodels, Hvers, Hmu, Hvu, lookup_insert_eq. done.
Qed.

Lemma handler_keeps_model_with_other_published_version_witness :
  let r := handler Sample.bucket 1700000000 (Sample.request (Some [Import]) Sample.missing)
             Sample.db2 in
  r.1 = Ok (mkResponse 200 JsonOk)
  /\ ModelVersion.status <$> modelVersions r.2 !! 10 = Some Draft
  /\ Model.status <$> models r.2 !! 1 = Some Published.
Proof.
  set (req := Sample.request (Some [Import]) Sample.missing).
  intros r.
  assert (Import ∈ requestedTasks (query req)) as Himp by apply list_elem_of_here.
  assert (r = (Ok (mkResponse 200 JsonOk), r.2)) as Hr by (vm_compute; reflexivity).
  destruct (handler_keeps_model_with_other_published_version Sample.bucket 1700000000
    req Sample.db2 (mkResponse 200 JsonOk) r.2 Sample.file
    (ModelVersion.mk "v1" 1 [] Published) 11 (ModelVersion.mk "v2" 1 [] Published)
    eq_refl (sample_resolves2 _ _) Himp ltac:(discriminate) eq_refl ltac:(discriminate)
    eq_refl eq_refl eq_refl Hr) as (_ & Hv & _ & Hmo).
  split; [vm_compute; reflexivity|]. split; [assumption|].
  exact (eq_trans Hmo eq_refl).
Defined.

(** ** Lookup failure, hashes and the stored URL *)

(** C5, as amended.  An intake POST whose lookup key matches no [ModelFile]
    row leaves the database exactly as it was, whatever it returns: no file
    update, no hash deleted or inserted, no version or model status changed;
    and when the [modelVersionId] of the key lies within the range of the [Int]
    column, the POST is answered 404. *)
Theorem handler_file_not_found bucket now req db :
  method req = "POST" ->
  modelFiles db !! fileKey (query req) = None ->
  (handler bucket now req db).2 = db
  /\ (inInt (modelVersionId (query req)) = true ->
      handler bucket now req db
      = (Ok (mkResponse 404 (JsonError "File not found")), db)).
Proof.
  intros Hm Hf.
  assert (handler bucket now req db
          = if inInt (modelVersionId (query req))
            then (Ok (mkResponse 404 (JsonError "File not found")), db)
            else (Throw ValueOutOfRange, db)) as ->.
  { unfold handler. rewrite Hm. simpl. rewrite bind_run, findUnique_run, Hf.
    unfold fileKey. simpl. by destruct (inInt _). }
  split; [by destruct (inInt _)|]. by intros ->.
Qed.

Lemma handler_file_not_found_witness :
  handler Sample.bucket 1700000000
    (mkRequest "POST" (mkQuery 10 "VAE" PickleTensor None)
       (Sample.payload 0 ScanExitCode.Success None None))
    Sample.db
  = (Ok (mkResponse 404 (JsonError "File not found")), Sample.db).
Proof.
  apply (handler_file_not_found Sample.bucket 1700000000
    (mkRequest "POST" (mkQuery 10 "VAE" PickleTensor None)
       (Sample.payload 0 ScanExitCode.Success None None)) Sample.db).
  - reflexivity.
  - vm_compute; reflexivity.
  - reflexivity.
Defined.

(** C5 as stated fails for a version id outside the range of the [Int]
    column, here 2^31: no row has that key, but the lookup does not find none,
    it throws, and the POST is not answered 404 (nothing is written). *)
Lemma out_of_range_version_id_not_answered_404 :
  let req := mkRequest "POST" (mkQuery 2147483648 "Model" PickleTensor None)
               Sample.missing in
  let r := handler Sample.bucket 1700000000 req Sample.db in
  method req = "POST"
  /\ modelFiles Sample.db !! fileKey (query req) = None
  /\ r = (Throw ValueOutOfRange, Sample.db)
  /\ r.1 <> Ok (mkResponse 404 (JsonError "File not found")).
Proof.
  cbv zeta. split; [reflexivity|].
  split; [vm_compute; reflexivity|]. split; [vm_compute; reflexivity|].
  vm_compute. discriminate.
Qed.

(** C4.  An intake POST with [Hash] among its tasks carries a hash map
    (empty or not), for a file the handler resolves.  If the handler answers, it
    answers 200 and the hash records of the file are then exactly the entries of
    that map, one record per algorithm of the map and none for any other
    algorithm, whatever was on record before; the records of other files are
    left as they were. *)
Theorem handler_replaces_hashes bucket now req db resp db' file hashes :
  method req = "POST" ->
  resolves db (query req) file ->
  Hash ∈ requestedTasks (query req) ->
  ScanResult.hashes (body req) = Some hashes ->
  handler bucket now req db = (Ok resp, db') ->
  status resp = 200
  /\ (forall t, modelHashes db' !! (ModelFile.id file, t) = hashes !! t)
  /\ filter (fun kv => kv.1.1 = ModelFile.id file) (modelHashes db')
     = kmap (fun t => (ModelFile.id file, t)) hashes
  /\ (forall fid t, fid <> ModelFile.id file ->
                    modelHashes db' !! (fid, t) = modelHashes db !! (fid, t)).
Proof.
  intros Hm Hres Hhash Hhs H.
  handler_blocks Hm Hres H.
  apply scan_step_payload_frame in Hs as (_ & _ & Hhs1).
  apply import_step_frame in Hi as (_ & Hi).
  apply update_step_frame in Hu as (_ & _ & Hu).
  unfold hasTask in Hh. rewrite bool_decide_eq_true_2 in Hh by done.
  apply hashTask_ok_inv in Hh. rewrite Hhs1, Hhs in Hh. injection Hh as <-.
  cbn [modelHashes]. rewrite Hu, Hi.
  assert (forall fid t,
    replacedHashes (ModelFile.id file) hashes (modelHashes db) !! (fid, t)
    = if decide (fid = ModelFile.id file) then hashes !! t
      else modelHashes db !! (fid, t)) as Hl by (intros; apply replacedHashes_lookup).
  split; [done|]. split; [|split].
  - intros t. by rewrite Hl, decide_True.
  - apply map_eq. intros [fid t]. destruct (decide (fid = ModelFile.id file)) as [->|Hne].
    + rewrite (lookup_kmap (fun t => (ModelFile.id file, t))).
      destruct (hashes !! t) as [h|] eqn:Ht.
      * apply map_lookup_filter_Some. by rewrite Hl, decide_True.
      * apply map_lookup_filter_None. left. by rewrite Hl, decide_True.
    + transitivity (@None string).
      * apply map_lookup_filter_None. right. intros x _. simpl. done.
      * symmetry. apply lookup_kmap_None; [apply _|]. intros t' [= ? _]. done.
  - intros fid t Hne. by rewrite Hl, decide_False.
Qed.

Lemma handler_replaces_hashes_witness :
  let r := handler Sample.bucket 1700000000
             (Sample.request (Some [Hash]) (Sample.payload 1 ScanExitCode.Success None None))
             Sample.db in
  r.1 = Ok (mkResponse 200 JsonOk)
  /\ modelHashes r.2 !! (5, SHA256) = Some "1a1a"
  /\ modelHashes r.2 !! (5, AutoV1) = Some "1b1b"
  /\ modelHashes r.2 !! (5, CRC32) = None
  /\ modelHashes r.2 !! (6, SHA256) = Some "0c0c".
Proof.
  set (req := Sample.request (Some [Hash]) (Sample.payload 1 ScanExitCode.Success None None)).
  intros r.
  assert (Hash ∈ requestedTasks (query req)) as Hh by apply list_elem_of_here.
  assert (r = (Ok (mkResponse 200 JsonOk), r.2)) as Hr by (vm_compute; reflexivity).
  destruct (handler_replaces_hashes Sample.bucket 1700000000 req Sample.db
    (mkResponse 200 JsonOk) r.2 Sample.file {[ SHA256 := "1a1a"; AutoV1 := "1b1b" ]}
    eq_refl (sample_resolves _ _) Hh eq_refl Hr) as (_ & Hfile & _ & Hother).
  split; [vm_compute; reflexivity|].
  split; [exact (eq_trans (Hfile SHA256) eq_refl)|].
  split; [exact (eq_trans (Hfile AutoV1) eq_refl)|].
  split; [exact (eq_trans (Hfile CRC32) eq_refl)|].
  exact (eq_trans (Hother 6 SHA256 ltac:(discriminate)) eq_refl).
Defined.

(** C6.  An intake POST with [Import] among its tasks reports the file as
    existing ([fileExists] is 1), for a file the handler resolves.  If the
    handler answers, it answers 200, and the URL stored for the file is the
    scanner's when the stored URL does not contain the permanent bucket and the
    scanner's does, and is the stored one otherwise; a stored URL that contains
    the bucket is therefore never replaced. *)
Theorem handler_url_promotion bucket now req db resp db' file :
  method req = "POST" ->
  resolves db (query req) file ->
  Import ∈ requestedTasks (query req) ->
  ScanResult.fileExists (body req) = 1 ->
  handler bucket now req db = (Ok resp, db') ->
  status resp = 200
  /\ exists file',
       modelFiles db' !! fileKey (query req) = Some file'
       /\ ModelFile.url file'
          = (if negb (JsString.includes (ModelFile.url file) bucket)
                && JsString.includes (ScanResult.url (body req)) bucket
             then ScanResult.url (body req)
             else ModelFile.url file)
       /\ (JsString.includes (ModelFile.url file) bucket = true ->
           ModelFile.url file' = ModelFile.url file).
Proof.
  intros Hm Hres Himp Hex H.
  handler_blocks Hm Hres H.
  pose proof (scan_step_data _ _ _ _ _ Hs) as (Hd1 & _).
  apply scan_step_payload_frame in Hs as (Hurl & Hfe & _).
  unfold hasTask in Hi. rewrite bool_decide_eq_true_2 in Hi by done.
  rewrite importTask_run in Hi. cbv zeta in Hi.
  rewrite Hfe, Hex, Hurl, Hd1 in Hi. simpl in Hi. injection Hi as <- <-.
  rewrite (keys_exists _ true) in Hu by done.
  apply update_ok_inv in Hu as (_ & Hu). destruct Hres as (Hf & _ & _). rewrite Hf in Hu.
  injection Hu as <-.
  apply hash_step_frame in Hh as (_ & _ & Hh).
  split; [done|]. eexists. split; [by rewrite Hh; apply lookup_insert_eq|].
  simpl. split.
  - by destruct (negb _ && _).
  - by intros ->.
Qed.

Lemma handler_url_promotion_witness :
  let r := handler Sample.bucket 1700000000
             (Sample.request (Some [Import]) (Sample.payload 1 ScanExitCode.Success None None))
             Sample.db in
  r.1 = Ok (mkResponse 200 JsonOk)
  /\ ModelFile.url <$> modelFiles r.2 !! (10, "Model", PickleTensor)
     = Some "https://model-share.example/10/mymodel.ckpt".
Proof.
  set (req := Sample.request (Some [Import]) (Sample.payload 1 ScanExitCode.Success None None)).
  intros r.
  assert (Import ∈ requestedTasks (query req)) as Hi by apply list_elem_of_here.
  assert (r = (Ok (mkResponse 200 JsonOk), r.2)) as Hr by (vm_compute; reflexivity).
  destruct (handler_url_promotion Sample.bucket 1700000000 req Sample.db
    (mkResponse 200 JsonOk) r.2 Sample.file
    eq_refl (sample_resolves _ _) Hi eq_refl Hr) as (_ & file' & Hf & Hurl & _).
  split; [vm_compute; reflexivity|].
  change (ModelFile.url <$> modelFiles r.2 !! fileKey (query req)
          = Some "https://model-share.example/10/mymodel.ckpt").
  rewrite Hf. simpl. f_equal. exact (eq_trans Hurl eq_refl).
Defined.

(** ** The pickle scan verdict and message *)

Lemma examine_no_imports sr :
  ScanResult.picklescanExitCode sr <> ScanExitCode.Pending ->
  default [] (ScanResult.picklescanDangerousImports sr) = [] ->
  default [] (ScanResult.picklescanGlobalImports sr) = [] ->
  examinePickleScanMessage sr
  = Some (mkExamined (Some "No Pickle imports") (Some false), sr).
Proof.
  intros Hp Hd Hg. unfold examinePickleScanMessage.
  rewrite decide_False by done. by rewrite Hd, Hg.
Qed.

(** C7, as amended.  An intake POST with [Scan] among its tasks whose
    picklescan exit code is not Pending and whose two import lists are empty or
    absent, for a file the handler resolves: [examinePickleScanMessage] returns
    the message "No Pickle imports" with the danger flag false and leaves the
    payload as it was, and the handler, if it answers, answers 200 having stored
    exactly that message on the file. *)
Theorem handler_no_pickle_imports bucket now req db resp db' file :
  method req = "POST" ->
  resolves db (query req) file ->
  Scan ∈ requestedTasks (query req) ->
  ScanResult.picklescanExitCode (body req) <> ScanExitCode.Pending ->
  default [] (ScanResult.picklescanDangerousImports (body req)) = [] ->
  default [] (ScanResult.picklescanGlobalImports (body req)) = [] ->
  handler bucket now req db = (Ok resp, db') ->
  examinePickleScanMessage (body req)
  = Some (mkExamined (Some "No Pickle imports") (Some false), body req)
  /\ status resp = 200
  /\ ModelFile.pickleScanMessage <$> modelFiles db' !! fileKey (query req)
     = Some (Some "No Pickle imports").
Proof.
  intros Hm Hres Hscan Hp Hd Hg H.
  pose proof (examine_no_imports _ Hp Hd Hg) as Hex.
  destruct (handler_scan_stored _ _ _ _ _ Hm Hres _ _ Hscan H)
    as (ex & sr1 & file' & Hex' & Hf & _ & Hmsg & _ & ->).
  rewrite Hex in Hex'. injection Hex' as <- <-.
  split; [done|]. split; [done|]. rewrite Hf. simpl in *. by rewrite Hmsg.
Qed.

Lemma handler_no_pickle_imports_witness :
  let r := handler Sample.bucket 1700000000
             (Sample.request (Some [Scan]) (Sample.payload 1 ScanExitCode.Success None (Some [])))
             Sample.db in
  r.1 = Ok (mkResponse 200 JsonOk)
  /\ ModelFile.pickleScanMessage <$> modelFiles r.2 !! (10, "Model", PickleTensor)
     = Some (Some "No Pickle imports").
Proof.
  set (req := Sample.request (Some [Scan])
                (Sample.payload 1 ScanExitCode.Success None (Some []))).
  intros r.
  assert (Scan ∈ requestedTasks (query req)) as Hs by apply list_elem_of_here.
  assert (r = (Ok (mkResponse 200 JsonOk), r.2)) as Hr by (vm_compute; reflexivity).
  destruct (handler_no_pickle_imports Sample.bucket 1700000000 req Sample.db
    (mkResponse 200 JsonOk) r.2 Sample.file
    eq_refl (sample_resolves _ _) Hs ltac:(discriminate) eq_refl eq_refl Hr)
    as (_ & _ & Hmsg).
  split; [vm_compute; reflexivity | exact Hmsg].
Defined.

(** C7 as stated fails when the picklescan exit code is Pending: with both
    import lists empty, [examinePickleScanMessage] returns [{}] (no message, no
    flag), and the handler answers 200 leaving the file's message as it was,
    here none. *)
Lemma pending_scan_stores_no_message :
  let p := Sample.payload 1 ScanExitCode.Pending (Some []) (Some []) in
  let r := handler Sample.bucket 1700000000 (Sample.request (Some [Scan]) p) Sample.db in
  Scan ∈ requestedTasks (query (Sample.request (Some [Scan]) p))
  /\ ScanResult.picklescanGlobalImports p = Some []
  /\ ScanResult.picklescanDangerousImports p = Some []
  /\ examinePickleScanMessage p = Some (mkExamined None None, p)
  /\ r.1 = Ok (mkResponse 200 JsonOk)
  /\ ModelFile.pickleScanMessage <$> modelFiles r.2 !! (10, "Model", PickleTensor)
     = Some None
  /\ ModelFile.pickleScanMessage <$> modelFiles r.2 !! (10, "Model", PickleTensor)
     <> Some (Some "No Pickle imports").
Proof.
  cbv zeta. split; [apply list_elem_of_here|].
  repeat (split; [vm_compute; reflexivity|]).
  vm_compute. discriminate.
Qed.

(** C1.  The claim fails on the code at this call: a [Scan] intake whose
    picklescan exit code is Success (0) and whose one global import reads, once
    processed, as the entry of the special-import list.
    [examinePickleScanMessage] flags danger and the handler answers 200, yet the
    verdict stored on the file is Success: it was taken from the exit code
    before the imports were examined, and the Danger the handler then writes
    into the payload only reaches the stored raw scan result. *)
Theorem special_import_verdict_stays_success :
  let p := Sample.payload 1 ScanExitCode.Success (Some [Sample.checkpointImport]) (Some []) in
  let r := handler Sample.bucket 1700000000 (Sample.request (Some [Scan]) p) Sample.db in
  let stored := modelFiles r.2 !! (10, "Model", PickleTensor) in
  (exists q, processImport Sample.checkpointImport = Some q /\ q ∈ specialImports)
  /\ hasDanger <$> (fst <$> examinePickleScanMessage p) = Some (Some true)
  /\ r.1 = Ok (mkResponse 200 JsonOk)
  /\ ModelFile.pickleScanResult <$> stored = Some ScanResultCode.Success
  /\ ScanResult.picklescanExitCode <$> (stored ≫= ModelFile.rawScanResult)
     = Some ScanExitCode.Danger.
Proof.
  cbv zeta. split.
  - eexists. split; [vm_compute; reflexivity | apply list_elem_of_here].
  - repeat split; vm_compute; reflexivity.
Qed.

(** ** Derived file names *)

Lemma endsWith_refl (s : string) : JsString.endsWith s s = true.
Proof. destruct s; [done|]. cbn [JsString.endsWith]. by rewrite String.eqb_refl. Qed.

Lemma endsWith_append (a x s : string) :
  JsString.endsWith x s = true -> JsString.endsWith (a +:+ x) s = true.
Proof.
  intros H. induction a as [|c a IH]; [exact H|].
  change (String c a +:+ x) with (String c (a +:+ x)).
  cbn [JsString.endsWith]. rewrite IH. apply orb_true_r.
Qed.

Lemma arrayIncludes_true arr x : x ∈ arr -> arrayIncludes arr x = true.
Proof. intros H. by apply bool_decide_eq_true_2. Qed.

(** C8, as amended.  For a vocabulary that holds "Negative": a
    textual-inversion model whose version has first trained word "foo" and a
    file of type "Negative" yield "foo-neg." followed by the extension of the
    stored name; and for a model that is not a textual inversion, a file whose
    type is in the vocabulary and is neither "Training Data" nor "VAE", and
    whose stored name contains "-inpainting", yields the model and version
    names followed by "-inpainting." and the extension. *)
Theorem getDownloadFilename_named_cases
    (filenamize : string -> string) (modelFileTypes : list string) :
  "Negative" ∈ modelFileTypes ->
  (forall model_name version_name words file_name,
     getDownloadFilename filenamize modelFileTypes model_name TextualInversion
       version_name ("foo" :: words) file_name "Negative"
     = "foo-neg." +:+ JsString.pop (JsString.split "."%char file_name))
  /\ (forall model_name model_type version_name words file_name file_type,
        model_type <> TextualInversion ->
        file_type ∈ modelFileTypes ->
        file_type <> "Training Data" ->
        file_type <> "VAE" ->
        JsString.includes file_name "-inpainting" = true ->
        let derived :=
          getDownloadFilename filenamize modelFileTypes model_name model_type
            version_name words file_name file_type in
        let ext := JsString.pop (JsString.split "."%char file_name) in
        derived
        = filenamize model_name +:+ "_"
          +:+ JsString.replace (filenamize version_name) (filenamize model_name) ""
          +:+ "-inpainting" +:+ "." +:+ ext
        /\ JsString.endsWith derived ("-inpainting." +:+ ext) = true).
Proof.
  intros Hneg. split.
  - intros. unfold getDownloadFilename.
    rewrite (arrayIncludes_true _ _ Hneg). reflexivity.
  - intros model_name model_type version_name words file_name file_type
      Hti Hin Htd Hvae Hinp. cbv zeta.
    assert (getDownloadFilename filenamize modelFileTypes model_name model_type
              version_name words file_name file_type
            = filenamize model_name +:+ "_"
              +:+ JsString.replace (filenamize version_name) (filenamize model_name) ""
              +:+ "-inpainting" +:+ "."
              +:+ JsString.pop (JsString.split "."%char file_name)) as ->.
    { unfold getDownloadFilename. rewrite (arrayIncludes_true _ _ Hin).
      apply String.eqb_neq in Htd, Hvae. rewrite Htd, Hvae, Hinp.
      by rewrite decide_False. }
    split; [done|].
    do 3 apply endsWith_append. apply endsWith_refl.
Qed.

Lemma getDownloadFilename_named_cases_witness :
  getDownloadFilename Sample.filenamize Sample.modelFileTypes "My Embedding"
    TextualInversion "v1" ["foo"] "embedding.pt" "Negative" = "foo-neg.pt"
  /\ getDownloadFilename Sample.filenamize Sample.modelFileTypes "mymodel"
       Checkpoint "v2" [] "mymodel-inpainting.ckpt" "Model"
     = "mymodel_v2-inpainting.ckpt".
Proof.
  assert ("Negative" ∈ Sample.modelFileTypes) as Hneg
    by (apply (bool_decide_eq_true_1 ("Negative" ∈ Sample.modelFileTypes));
        vm_compute; reflexivity).
  assert ("Model" ∈ Sample.modelFileTypes) as Hmod by apply list_elem_of_here.
  destruct (getDownloadFilename_named_cases Sample.filenamize Sample.modelFileTypes Hneg)
    as (Hti & Hinp).
  split.
  - exact (eq_trans (Hti "My Embedding" "v1" [] "embedding.pt") eq_refl).
  - destruct (Hinp "mymodel" Checkpoint "v2" [] "mymodel-inpainting.ckpt" "Model"
      ltac:(discriminate) Hmod ltac:(discriminate) ltac:(discriminate) eq_refl)
      as (Heq & _).
    exact (eq_trans Heq eq_refl).
Defined.

(** C8 as stated fails for a file whose type is outside the vocabulary: the
    stored name is returned as it is, and here it does not end with
    "-inpainting" before its extension. *)
Lemma inpainting_suffix_outside_vocabulary :
  let derived :=
    getDownloadFilename Sample.filenamize Sample.modelFileTypes "mymodel" Checkpoint
      "v2" [] "mymodel-inpainting-fp16.ckpt" "Unknown" in
  ("Unknown" ∉ Sample.modelFileTypes)
  /\ "Unknown" <> "Training Data" /\ "Unknown" <> "VAE"
  /\ Checkpoint <> TextualInversion
  /\ JsString.includes "mymodel-inpainting-fp16.ckpt" "-inpainting" = true
  /\ JsString.pop (JsString.split "."%char "mymodel-inpainting-fp16.ckpt") = "ckpt"
  /\ derived = "mymodel-inpainting-fp16.ckpt"
  /\ JsString.endsWith derived "-inpainting.ckpt" = false.
Proof.
  cbv zeta.
  split; [apply (bool_decide_eq_false_1 ("Unknown" ∈ Sample.modelFileTypes));
          vm_compute; reflexivity|].
  do 3 (split; [discriminate|]).
  repeat split; vm_compute; reflexivity.
Qed.

(** C9.  A file whose declared type is not in the vocabulary gets its stored
    name back unchanged, whatever the model name and type, the version name and
    the trained words. *)
Theorem getDownloadFilename_unknown_type
    (filenamize : string -> string) (modelFileTypes : list string)
    model_name model_type version_name words file_name file_type :
  file_type ∉ modelFileTypes ->
  getDownloadFilename filenamize modelFileTypes model_name model_type
    version_name words file_name file_type = file_name.
Proof.
  intros Hnot. unfold getDownloadFilename, arrayIncludes.
  by rewrite bool_decide_eq_false_2.
Qed.

Lemma getDownloadFilename_unknown_type_witness :
  getDownloadFilename Sample.filenamize Sample.modelFileTypes "My Embedding"
    TextualInversion "v1" ["foo"] "notes.txt" "Readme" = "notes.txt".
Proof.
  apply (getDownloadFilename_unknown_type Sample.filenamize Sample.modelFileTypes).
  apply (bool_decide_eq_false_1 ("Readme" ∈ Sample.modelFileTypes)).
  vm_compute; reflexivity.
Defined.

(** * Further properties of the handler *)

(** ** Refusals and failures *)

(** X1.  A POST whose key finds a row with an empty URL or with id 0 is
    answered 404 like a POST whose key finds no row, and nothing is written:
    the guard [!url || !fileId] treats such a row as no file. *)
Theorem handler_unusable_row_not_found bucket now req db file :
  method req = "POST" ->
  modelFiles db !! fileKey (query req) = Some file ->
  ModelFile.url file = "" \/ ModelFile.id file = 0 ->
  handler bucket now req db = (Ok (mkResponse 404 (JsonError "File not found")), db).
Proof.
  intros Hm Hf Hbad. unfold handler. rewrite Hm. simpl.
  rewrite bind_run, findUnique_run, Hf.
  destruct Hbad as [-> | ->]; [done|]. by rewrite orb_true_r.
Qed.

Lemma handler_unusable_row_not_found_witness :
  let file := ModelFile.mk 7 "draft.ckpt" "" ScanResultCode.Pending None None
                ScanResultCode.Pending None None None in
  let db := mkDB (models Sample.db) (modelVersions Sample.db)
              {[ (10, "Model", PickleTensor) := file ]} (modelHashes Sample.db) in
  handler Sample.bucket 1700000000 (Sample.request None Sample.missing) db
  = (Ok (mkResponse 404 (JsonError "File not found")), db).
Proof.
  intros file db.
  apply (handler_unusable_row_not_found Sample.bucket 1700000000
           (Sample.request None Sample.missing) db file).
  - reflexivity.
  - vm_compute; reflexivity.
  - by left.
Defined.

Lemma filterSpecial_fails globals g :
  g ∈ globals -> processImport g = None -> filterSpecial globals = None.
Proof.
  intros Hin Hg. induction globals as [|x rest IH]; [by apply elem_of_nil in Hin|].
  apply elem_of_cons in Hin as [<- | Hin]; simpl.
  - by rewrite Hg.
  - destruct (processImport x); [|done]. simpl. by rewrite (IH Hin).
Qed.

(** X2.  When [Scan] is requested, the picklescan exit code is not Pending
    and one of the reported global imports does not percent-decode, the request
    fails with [URIError] and nothing is written: not the scan columns, and
    neither the [Import] nor the [Hash] effects of the same request. *)
Theorem handler_undecodable_import_aborts bucket now req db file globals g :
  method req = "POST" ->
  resolves db (query req) file ->
  Scan ∈ requestedTasks (query req) ->
  ScanResult.picklescanExitCode (body req) <> ScanExitCode.Pending ->
  ScanResult.picklescanGlobalImports (body req) = Some globals ->
  g ∈ globals ->
  JsString.decodeURIComponent g = None ->
  handler bucket now req db = (Throw URIError, db).
Proof.
  intros Hm Hres Hscan Hp Hg Hin Hdec.
  apply (handler_scan_throws _ _ _ _ _ Hm Hres Hscan).
  unfold examinePickleScanMessage. rewrite decide_False by done. rewrite Hg. simpl.
  destruct (_ =? 0)%nat eqn:Hz.
  - apply Nat.eqb_eq in Hz. destruct globals; [by apply elem_of_nil in Hin|].
    simpl in Hz. lia.
  - rewrite (filterSpecial_fails globals g); [done|done|].
    unfold processImport. by rewrite Hdec.
Qed.

Lemma handler_undecodable_import_aborts_witness :
  handler Sample.bucket 1700000000
    (Sample.request None
       (Sample.payload 0 ScanExitCode.Success (Some ["torch,FloatStorage"; "100%"]) None))
    Sample.db
  = (Throw URIError, Sample.db).
Proof.
  apply (handler_undecodable_import_aborts Sample.bucket 1700000000
    (Sample.request None
       (Sample.payload 0 ScanExitCode.Success (Some ["torch,FloatStorage"; "100%"]) None))
    Sample.db Sample.file ["torch,FloatStorage"; "100%"] "100%").
  - reflexivity.
  - apply sample_resolves.
  - vm_compute. apply list_elem_of_further, list_elem_of_here.
  - discriminate.
  - reflexivity.
  - apply list_elem_of_further, list_elem_of_here.
  - vm_compute; reflexivity.
Defined.

Lemma unpublish_throws_inv v db e db' :
  unpublish v db = (Throw e, db') ->
  db' = db /\ e = RecordNotFound /\ modelVersions db !! v = None.
Proof.
  rewrite unpublish_run.
  destruct (modelVersions db !! v) as [ver|]; [|by intros [= <- <-]].
  cbv zeta. destruct (if truthyZ _ then _ else _); [destruct (decide _)|]; discriminate.
Qed.

Lemma handler_not_post bucket now req db :
  method req <> "POST" ->
  handler bucket now req db
  = (Ok (mkResponse 405 (JsonError "Method not allowed")), db).
Proof.
  intros Hm. unfold handler. apply String.eqb_neq in Hm. by rewrite Hm.
Qed.

(** A POST the handler does not resolve is refused before any write. *)
Lemma handler_not_resolved bucket now req db :
  method req = "POST" ->
  (forall file, ~ resolves db (query req) file) ->
  (handler bucket now req db).2 = db.
Proof.
  intros Hm Hno. unfold handler. rewrite Hm. simpl.
  rewrite bind_run, findUnique_run.
  destruct (modelFiles db !! fileKey (query req)) as [file|] eqn:Hf.
  - destruct (String.eqb (ModelFile.url file) "") eqn:Hu; [done|].
    destruct (ModelFile.id file =? 0) eqn:Hi; [done|].
    destruct (Hno file). split; [done|]. split.
    + by apply String.eqb_neq.
    + by apply Z.eqb_neq.
  - by destruct (inInt _).
Qed.

Lemma resolves_dec db q :
  {file | resolves db q file} + {forall file, ~ resolves db q file}.
Proof.
  destruct (modelFiles db !! fileKey q) as [file|] eqn:Hf.
  - destruct (decide (ModelFile.url file = "")) as [Hu|Hu].
    + right. intros f (Hf' & Hu' & _). congruence.
    + destruct (decide (ModelFile.id file = 0)) as [Hi|Hi].
      * right. intros f (Hf' & _ & Hi'). congruence.
      * left. by exists file.
  - right. intros f (Hf' & _). congruence.
Qed.

(** ** The blocks, whatever their result *)

Lemma import_step_any (c : bool) bucket v url sr d db r db2 :
  (if c then importTask bucket v url sr d else mret d) db = (r, db2) ->
  modelFiles db2 = modelFiles db /\ modelHashes db2 = modelHashes db
  /\ (c = false \/ ScanResult.fileExists sr = 1 -> db2 = db)
  /\ (db2 = db \/ unpublish v db = (Ok tt, db2)).
Proof.
  destruct c; [|intros [= _ <-]; by auto].
  rewrite importTask_run. cbv zeta.
  destruct (ScanResult.fileExists sr =? 1) eqn:Hex; [intros [= _ <-]; by auto|].
  apply Z.eqb_neq in Hex.
  destruct (unpublish v db) as [[[]|e] dbu] eqn:Hun; intros [= _ <-].
  - destruct (unpublish_frame _ _ _ _ Hun) as (? & ?).
    split; [done|]. split; [done|]. split; [by intros [?|?]|by right].
  - apply unpublish_throws_inv in Hun as (-> & _). by auto.
Qed.

Lemma import_step_throws (c : bool) bucket v url sr d db e db2 :
  (if c then importTask bucket v url sr d else mret d) db = (Throw e, db2) ->
  db2 = db /\ e = RecordNotFound /\ c = true
  /\ ScanResult.fileExists sr <> 1 /\ modelVersions db !! v = None.
Proof.
  destruct c; [|done]. rewrite importTask_run. cbv zeta.
  destruct (ScanResult.fileExists sr =? 1) eqn:Hex; [done|]. apply Z.eqb_neq in Hex.
  destruct (unpublish v db) as [[[]|e'] dbu] eqn:Hun; [done|].
  intros [= <- <-]. by apply unpublish_throws_inv in Hun as (-> & -> & Hv).
Qed.

(** The update input the [Import] block hands on. *)
Lemma import_step_data_eq (c : bool) bucket v url sr d db data db2 :
  (if c then importTask bucket v url sr d else mret d) db = (Ok data, db2) ->
  data =
  if c then
    ModelFileUpdateInput.mk
      (ModelFileUpdateInput.scannedAt d) (ModelFileUpdateInput.rawScanResult d)
      (ModelFileUpdateInput.virusScanResult d) (ModelFileUpdateInput.virusScanMessage d)
      (ModelFileUpdateInput.pickleScanResult d) (ModelFileUpdateInput.pickleScanMessage d)
      (Some (ScanResult.fileExists sr =? 1))
      (if (ScanResult.fileExists sr =? 1)
          && (negb (JsString.includes url bucket)
              && JsString.includes (ScanResult.url sr) bucket)
       then Some (ScanResult.url sr) else ModelFileUpdateInput.url d)
  else d.
Proof.
  destruct c; [|by intros [= <- _]].
  rewrite importTask_run. cbv zeta.
  destruct (ScanResult.fileExists sr =? 1); [by intros [= <- _]|].
  destruct (unpublish v db) as [[[]|e] dbu]; [|done]. by intros [= <- _].
Qed.

Lemma update_step_any (c : bool) k data payload db r db3 :
  (if c then prisma_modelFile.update k data payload else mret tt) db = (r, db3) ->
  models db3 = models db /\ modelVersions db3 = modelVersions db
  /\ modelHashes db3 = modelHashes db
  /\ (forall k', k' <> k -> modelFiles db3 !! k' = modelFiles db !! k')
  /\ ModelFile.id <$> modelFiles db3 !! k = ModelFile.id <$> modelFiles db !! k
  /\ ModelFile.name <$> modelFiles db3 !! k = ModelFile.name <$> modelFiles db !! k
  /\ (c = false -> db3 = db).
Proof.
  destruct c; [|by intros [= _ <-]].
  rewrite update_run. destruct (modelFiles db !! k) as [f|] eqn:Hf;
    [|intros [= _ <-]; by rewrite ?Hf].
  destruct (ModelFileUpdateInput.storable _ _); intros [= _ <-]; [|by rewrite ?Hf].
  cbn [models modelVersions modelFiles modelHashes].
  do 3 (split; [done|]). split; [intros k' Hk; by rewrite lookup_insert_ne|].
  by rewrite lookup_insert_eq.
Qed.

Lemma update_step_throws (c : bool) k data payload db e db3 f :
  modelFiles db !! k = Some f ->
  (if c then prisma_modelFile.update k data payload else mret tt) db = (Throw e, db3) ->
  e = ValueRejected /\ db3 = db.
Proof.
  intros Hf. destruct c; [|done]. rewrite update_run, Hf.
  destruct (ModelFileUpdateInput.storable _ _); [done|]. by intros [= <- <-].
Qed.

Lemma hash_step_any (c : bool) fileId payload db r db' :
  (if c then hashTask fileId payload else mret tt) db = (r, db') ->
  models db' = models db /\ modelVersions db' = modelVersions db
  /\ modelFiles db' = modelFiles db
  /\ (forall fid t, fid <> fileId ->
                    modelHashes db' !! (fid, t) = modelHashes db !! (fid, t))
  /\ (c = false \/ ScanResult.hashes payload = None -> db' = db).
Proof.
  destruct c; [|by intros [= _ <-]].
  rewrite hashTask_run. destruct (ScanResult.hashes payload) as [hashes|];
    [|by intros [= _ <-]].
  destruct (ScanResult.pgHashes hashes); intros [= _ <-];
    cbn [models modelVersions modelFiles modelHashes];
    (do 3 (split; [done|])); (split; [|by intros [?|?]]); intros fid t Hne.
  - by rewrite replacedHashes_lookup, decide_False.
  - destruct (modelHashes db !! (fid, t)) as [h|] eqn:Hl.
    + by apply map_lookup_filter_Some.
    + apply map_lookup_filter_None. by left.
Qed.

Lemma hash_step_throws (c : bool) fileId payload db e db' :
  (if c then hashTask fileId payload else mret tt) db = (Throw e, db') ->
  e = ValueRejected /\ c = true
  /\ modelHashes db' = filter (fun kv => kv.1.1 <> fileId) (modelHashes db).
Proof.
  destruct c; [|done]. rewrite hashTask_run.
  destruct (ScanResult.hashes payload) as [hashes|]; [|done].
  destruct (ScanResult.pgHashes hashes); [done|]. by intros [= <- <-].
Qed.

Section HandlerOutcome.

Context (bucket : string) (now : Z) (req : Request) (db : DB) (file : ModelFile.t).
Hypothesis Hpost : method req = "POST".
Hypothesis Hresolves : resolves db (query req) file.

#[local] Abbreviation q := (query req).
#[local] Abbreviation scanStep :=
  (if hasTask (requestedTasks q) Scan
   then scanTask now (body req) ModelFileUpdateInput.empty
   else Some (ModelFileUpdateInput.empty, body req)).
#[local] Abbreviation importStep d1 sr1 :=
  (if hasTask (requestedTasks q) Import
   then importTask bucket (modelVersionId q) (ModelFile.url file) sr1 d1
   else mret d1).
#[local] Abbreviation updateStep data sr1 :=
  (if Nat.ltb 0 (ModelFileUpdateInput.keys data)
   then prisma_modelFile.update (fileKey q) data sr1
   else mret tt).
#[local] Abbreviation hashStep sr1 :=
  (if hasTask (requestedTasks q) Hash
   then hashTask (ModelFile.id file) sr1 else mret tt).

(** The run of a POST for a resolved file: the four blocks in sequence, the
    first failure ending it with the database as the blocks before left it. *)
Lemma handler_run :
  handler bucket now req db =
  match scanStep with
  | None => (Throw URIError, db)
  | Some (d1, sr1) =>
      match importStep d1 sr1 db with
      | (Throw e, db2) => (Throw e, db2)
      | (Ok data, db2) =>
          match updateStep data sr1 db2 with
          | (Throw e, db3) => (Throw e, db3)
          | (Ok _, db3) =>
              match hashStep sr1 db3 with
              | (Throw e, db4) => (Throw e, db4)
              | (Ok _, db4) => (Ok (mkResponse 200 JsonOk), db4)
              end
          end
      end
  end.
Proof.
  rewrite (handler_resolved _ _ _ _ _ Hpost Hresolves), bind_run.
  assert (forall d1 sr1,
    (data ← importStep d1 sr1; updateStep data sr1;; hashStep sr1;;
     mret (mkResponse 200 JsonOk)) db
    = match importStep d1 sr1 db with
      | (Throw e, db2) => (Throw e, db2)
      | (Ok data, db2) =>
          match updateStep data sr1 db2 with
          | (Throw e, db3) => (Throw e, db3)
          | (Ok _, db3) =>
              match hashStep sr1 db3 with
              | (Throw e, db4) => (Throw e, db4)
              | (Ok _, db4) => (Ok (mkResponse 200 JsonOk), db4)
              end
          end
      end) as Hrest.
  { intros d1 sr1. rewrite bind_run.
    destruct (importStep d1 sr1 db) as [[data|e] db2]; [|done].
    rewrite bind_run. destruct (updateStep data sr1 db2) as [[[]|e] db3]; [|done].
    rewrite bind_run. by destruct (hashStep sr1 db3) as [[[]|e] db4]. }
  destruct (hasTask (requestedTasks q) Scan).
  - destruct (scanTask now (body req) ModelFileUpdateInput.empty) as [[d1 sr1]|]; [|done].
    apply Hrest.
  - apply Hrest.
Qed.

(** What each block of a run, finished or not, leaves alone: [db2] is the
    database after the [Import] block and [db3] the one after the update. *)
Lemma handler_frames r db' :
  handler bucket now req db = (r, db') ->
  exists db2 db3,
    (modelFiles db2 = modelFiles db /\ modelHashes db2 = modelHashes db
     /\ (Import ∉ requestedTasks q \/ ScanResult.fileExists (body req) = 1 -> db2 = db))
    /\ (models db3 = models db2 /\ modelVersions db3 = modelVersions db2
        /\ modelHashes db3 = modelHashes db2
        /\ (forall k, k <> fileKey q -> modelFiles db3 !! k = modelFiles db2 !! k)
        /\ ModelFile.id <$> modelFiles db3 !! fileKey q
           = ModelFile.id <$> modelFiles db2 !! fileKey q
        /\ ModelFile.name <$> modelFiles db3 !! fileKey q
           = ModelFile.name <$> modelFiles db2 !! fileKey q
        /\ (Scan ∉ requestedTasks q -> Import ∉ requestedTasks q -> db3 = db2))
    /\ (models db' = models db3 /\ modelVersions db' = modelVersions db3
        /\ modelFiles db' = modelFiles db3
        /\ (forall fid t, fid <> ModelFile.id file ->
                          modelHashes db' !! (fid, t) = modelHashes db3 !! (fid, t))
        /\ (Hash ∉ requestedTasks q \/ ScanResult.hashes (body req) = None -> db' = db3)).
Proof.
  rewrite handler_run.
  destruct scanStep as [[d1 sr1]|] eqn:Hs; [|intros [= _ <-]; by exists db, db].
  pose proof (scan_step_payload_frame _ _ _ _ _ Hs) as (_ & Hfe & Hhs).
  assert (forall ri db2, importStep d1 sr1 db = (ri, db2) ->
    modelFiles db2 = modelFiles db /\ modelHashes db2 = modelHashes db
    /\ (Import ∉ requestedTasks q \/ ScanResult.fileExists (body req) = 1 -> db2 = db))
    as Himport.
  { intros ri db2 Hi. apply import_step_any in Hi as (? & ? & Hsame & _).
    split; [done|]. split; [done|]. intros [Hno|Hex]; apply Hsame.
    - left. by apply bool_decide_eq_false_2.
    - right. congruence. }
  assert (forall data db2 ru db3,
    importStep d1 sr1 db = (Ok data, db2) -> updateStep data sr1 db2 = (ru, db3) ->
    models db3 = models db2 /\ modelVersions db3 = modelVersions db2
    /\ modelHashes db3 = modelHashes db2
    /\ (forall k, k <> fileKey q -> modelFiles db3 !! k = modelFiles db2 !! k)
    /\ ModelFile.id <$> modelFiles db3 !! fileKey q
       = ModelFile.id <$> modelFiles db2 !! fileKey q
    /\ ModelFile.name <$> modelFiles db3 !! fileKey q
       = ModelFile.name <$> modelFiles db2 !! fileKey q
    /\ (Scan ∉ requestedTasks q -> Import ∉ requestedTasks q -> db3 = db2)) as Hupdate.
  { intros data db2 ru db3 Hi Hu.
    apply import_step_data_eq in Hi.
    apply update_step_any in Hu as (? & ? & ? & ? & ? & ? & Hsame).
    do 6 (split; [done|]). intros Hns Hni. apply Hsame.
    unfold hasTask in Hs, Hi. rewrite bool_decide_eq_false_2 in Hs, Hi by done.
    injection Hs as <- _. by subst data. }
  assert (forall rh db3 db4, hashStep sr1 db3 = (rh, db4) ->
    models db4 = models db3 /\ modelVersions db4 = modelVersions db3
    /\ modelFiles db4 = modelFiles db3
    /\ (forall fid t, fid <> ModelFile.id file ->
                      modelHashes db4 !! (fid, t) = modelHashes db3 !! (fid, t))
    /\ (Hash ∉ requestedTasks q \/ ScanResult.hashes (body req) = None -> db4 = db3))
    as Hhash.
  { intros rh db3 db4 Hh. apply hash_step_any in Hh as (? & ? & ? & ? & Hsame).
    do 4 (split; [done|]). intros [Hno|Hnone]; apply Hsame.
    - left. by apply bool_decide_eq_false_2.
    - right. congruence. }
  destruct (importStep d1 sr1 db) as [[data|e] db2] eqn:Hi.
  2:{ intros [= _ <-]. exists db2, db2. split; [by eapply Himport|]. by split. }
  destruct (updateStep data sr1 db2) as [[[]|e] db3] eqn:Hu.
  2:{ intros [= _ <-]. exists db2, db3.
      split; [by eapply Himport|]. split; [by eapply Hupdate|done]. }
  destruct (hashStep sr1 db3) as [[[]|e] db4] eqn:Hh; intros [= _ <-];
    exists db2, db3; (split; [by eapply Himport|]);
    (split; [by eapply Hupdate|by eapply Hhash]).
Qed.

(** The four ways a POST for a resolved file fails: an import that does not
    decode, before any write; a missing version, before any write; a value the
    database refuses in the file update, after the unpublish cascade if there
    was one; a hash the database refuses, after the file update and the
    deletion of the file's hash rows. *)
Lemma handler_thrown e db' :
  handler bucket now req db = (Throw e, db') ->
  (e = URIError /\ db' = db /\ scanStep = None)
  \/ (e = RecordNotFound /\ db' = db /\ Import ∈ requestedTasks q
      /\ ScanResult.fileExists (body req) <> 1
      /\ modelVersions db !! modelVersionId q = None)
  \/ (e = ValueRejected
      /\ modelFiles db' = modelFiles db /\ modelHashes db' = modelHashes db
      /\ (db' = db \/ unpublish (modelVersionId q) db = (Ok tt, db')))
  \/ (e = ValueRejected /\ Hash ∈ requestedTasks q
      /\ modelHashes db'
         = filter (fun kv => kv.1.1 <> ModelFile.id file) (modelHashes db)).
Proof.
  rewrite handler_run.
  destruct scanStep as [[d1 sr1]|] eqn:Hs; [|intros [= <- <-]; by left].
  pose proof (scan_step_payload_frame _ _ _ _ _ Hs) as (_ & Hfe & _).
  destruct (importStep d1 sr1 db) as [[data|e0] db2] eqn:Hi.
  2:{ intros [= <- <-]. right. left.
      apply import_step_throws in Hi as (-> & -> & Hin & Hex & Hv).
      apply bool_decide_eq_true_1 in Hin. rewrite Hfe in Hex. done. }
  apply import_step_any in Hi as (Hf2 & Hh2 & _ & Hun).
  destruct (updateStep data sr1 db2) as [[[]|e0] db3] eqn:Hu.
  2:{ intros [= <- <-]. right. right. left.
      destruct Hresolves as (Hf & _).
      eapply update_step_throws in Hu as (-> & ->); [|by rewrite Hf2]. done. }
  apply update_step_frame in Hu as (_ & _ & Hh3).
  destruct (hashStep sr1 db3) as [[[]|e0] db4] eqn:Hh; [done|].
  intros [= <- <-]. right. right. right.
  apply hash_step_throws in Hh as (-> & Hin & ->).
  apply bool_decide_eq_true_1 in Hin. by rewrite Hh3, Hh2.
Qed.

End HandlerOutcome.

(** The cases of a run: a request that is not a POST or that the handler does
    not resolve leaves the database as it was; otherwise [Hm], [file] and
    [Hres] name the resolved file. *)
Ltac handler_any H Hm file Hres :=
  match type of H with
  | handler ?bucket ?now ?req ?db = (_, ?db') =>
      destruct (decide (method req = "POST")) as [Hm|Hm];
      [destruct (resolves_dec db (query req)) as [[file Hres]|Hres];
       [|assert (db' = db) as ->
           by (rewrite <- (handler_not_resolved bucket now req db Hm Hres); by rewrite H)]
      |assert (db' = db) as ->
         by (rewrite (handler_not_post bucket now req db Hm) in H; by injection H)]
  end.

(** X3.  A run of the handler that does not answer 200 has written nothing,
    unless it failed on a value the database refuses: no transaction spans the
    request, so what was written before the refused statement stays.  When the
    file update is refused, the file and hash tables are as they were, and the
    version and model tables are as the unpublish cascade left them if it ran;
    when the hash insertion is refused, the hash records of the file are gone. *)
Theorem handler_failed_run bucket now req db r db' :
  handler bucket now req db = (r, db') ->
  r <> Ok (mkResponse 200 JsonOk) ->
  (r <> Throw ValueRejected -> db' = db)
  /\ (r = Throw ValueRejected ->
      (modelFiles db' = modelFiles db /\ modelHashes db' = modelHashes db
       /\ (db' = db \/ unpublish (modelVersionId (query req)) db = (Ok tt, db')))
      \/ (exists file,
            modelFiles db !! fileKey (query req) = Some file
            /\ Hash ∈ requestedTasks (query req)
            /\ modelHashes db'
               = filter (fun kv => kv.1.1 <> ModelFile.id file) (modelHashes db))).
Proof.
  intros H Hne.
  assert (db' = db -> (r <> Throw ValueRejected -> db' = db)
    /\ (r = Throw ValueRejected ->
        (modelFiles db' = modelFiles db /\ modelHashes db' = modelHashes db
         /\ (db' = db \/ unpublish (modelVersionId (query req)) db = (Ok tt, db')))
        \/ (exists file,
              modelFiles db !! fileKey (query req) = Some file
              /\ Hash ∈ requestedTasks (query req)
              /\ modelHashes db'
                 = filter (fun kv => kv.1.1 <> ModelFile.id file) (modelHashes db))))
    as Hsame.
  { intros ->. split; [done|]. intros _. left. by auto. }
  handler_any H Hm file Hres; [|by apply Hsame|by apply Hsame].
  destruct r as [resp|e].
  { by destruct (handler_ok_inv _ _ _ _ _ Hm Hres _ _ H)
      as (? & ? & ? & ? & ? & _ & _ & _ & _ & ->). }
  destruct (handler_thrown _ _ _ _ _ Hm Hres _ _ H)
    as [(-> & -> & _) | [(-> & -> & _) | [(-> & Hf & Hh & Hun) | (-> & Hin & Hh)]]].
  - by apply Hsame.
  - by apply Hsame.
  - split; [done|]. intros _. by left.
  - split; [done|]. intros _. right. exists file. by destruct Hres as (? & _).
Qed.

(** The file is reported missing, and the virus scanner's output holds a NUL:
    the version and the model are unpublished, then the file update is
    refused. *)
Lemma handler_failed_run_witness :
  let p := ScanResult.mk "https://model-share.example/10/mymodel.ckpt" 0
             ScanExitCode.Success None None None ScanExitCode.Error
             (String NUL "FOUND") None in
  let r := handler Sample.bucket 1700000000 (Sample.request None p) Sample.db in
  r.1 = Throw ValueRejected
  /\ ModelVersion.status <$> modelVersions r.2 !! 10 = Some Draft
  /\ ((modelFiles r.2 = modelFiles Sample.db /\ modelHashes r.2 = modelHashes Sample.db
       /\ (r.2 = Sample.db \/ unpublish 10 Sample.db = (Ok tt, r.2)))
      \/ (exists file,
            modelFiles Sample.db !! (10, "Model", PickleTensor) = Some file
            /\ Hash ∈ requestedTasks (query (Sample.request None p))
            /\ modelHashes r.2
               = filter (fun kv => kv.1.1 <> ModelFile.id file) (modelHashes Sample.db))).
Proof.
  intros p r.
  split; [vm_compute; reflexivity|]. split; [vm_compute; reflexivity|].
  apply (proj2 (handler_failed_run Sample.bucket 1700000000 (Sample.request None p)
                  Sample.db r.1 r.2 (surjective_pairing r)
                  ltac:(vm_compute; discriminate))).
  vm_compute; reflexivity.
Defined.

Lemma scanTask_None now sr d :
  scanTask now sr d = None <-> examinePickleScanMessage sr = None.
Proof.
  unfold scanTask. destruct (examinePickleScanMessage sr); simpl; split; done.
Qed.






(** ** What the handler leaves alone *)

(** X5.  Whatever the request and its outcome, the handler changes no
    [ModelFile] row but the one at the request's key; it creates and deletes
    none, and the row at the key keeps its id and its name. *)
Theorem handler_file_table_frame bucket now req db r db' :
  handler bucket now req db = (r, db') ->
  (forall k, k <> fileKey (query req) -> modelFiles db' !! k = modelFiles db !! k)
  /\ ModelFile.id <$> modelFiles db' !! fileKey (query req)
     = ModelFile.id <$> modelFiles db !! fileKey (query req)
  /\ ModelFile.name <$> modelFiles db' !! fileKey (query req)
     = ModelFile.name <$> modelFiles db !! fileKey (query req).
Proof.
  intros H. handler_any H Hm file Hres; [|done|done].
  destruct (handler_frames _ _ _ _ _ Hm Hres _ _ H)
    as (db2 & db3 & (Hf2 & _) & (_ & _ & _ & Hk & Hid & Hname & _) & (_ & _ & Hf' & _)).
  rewrite Hf', <- Hf2. done.
Qed.

(** X6.  Whatever the outcome, a request that does not ask for [Import], or
    that reports the file as existing, leaves the [Model] and [ModelVersion]
    tables exactly as they were. *)
Theorem handler_status_tables_frame bucket now req db r db' :
  Import ∉ requestedTasks (query req) \/ ScanResult.fileExists (body req) = 1 ->
  handler bucket now req db = (r, db') ->
  models db' = models db /\ modelVersions db' = modelVersions db.
Proof.
  intros Hno H. handler_any H Hm file Hres; [|done|done].
  destruct (handler_frames _ _ _ _ _ Hm Hres _ _ H)
    as (db2 & db3 & (_ & _ & Hsame) & (Hm3 & Hv3 & _) & (Hm' & Hv' & _)).
  rewrite Hm', Hv', Hm3, Hv3. by rewrite (Hsame Hno).
Qed.

(** X7.  Whatever the request and its outcome, the handler changes no hash
    record of a file other than the one it resolves, and it changes no hash
    record at all unless [Hash] is requested and the payload carries hashes. *)
Theorem handler_hash_table_frame bucket now req db r db' :
  handler bucket now req db = (r, db') ->
  (forall file fid t,
     modelFiles db !! fileKey (query req) = Some file ->
     fid <> ModelFile.id file ->
     modelHashes db' !! (fid, t) = modelHashes db !! (fid, t))
  /\ (Hash ∉ requestedTasks (query req) \/ ScanResult.hashes (body req) = None ->
      modelHashes db' = modelHashes db).
Proof.
  intros H. handler_any H Hm file Hres; [|done|done].
  destruct (handler_frames _ _ _ _ _ Hm Hres _ _ H)
    as (db2 & db3 & (_ & Hh2 & _) & (_ & _ & Hh3 & _) & (_ & _ & _ & Hother & Hsame)).
  split.
  - intros file0 fid t Hf0 Hne. destruct Hres as (Hf & _).
    rewrite Hf in Hf0. injection Hf0 as <-. by rewrite Hother, Hh3, Hh2.
  - intros Hno. by rewrite (Hsame Hno), Hh3, Hh2.
Qed.

Lemma handler_file_table_frame_witness :
  let r := handler Sample.bucket 1700000000
             (Sample.request None (Sample.payload 1 ScanExitCode.Success None None))
             Sample.db in
  ModelFile.id <$> modelFiles r.2 !! (10, "Model", PickleTensor) = Some 5
  /\ ModelFile.name <$> modelFiles r.2 !! (10, "Model", PickleTensor) = Some "mymodel.ckpt"
  /\ modelFiles r.2 !! (10, "VAE", Other) = None.
Proof.
  intros r.
  destruct (handler_file_table_frame Sample.bucket 1700000000
    (Sample.request None (Sample.payload 1 ScanExitCode.Success None None))
    Sample.db r.1 r.2 (surjective_pairing r)) as (Hother & Hid & Hname).
  split; [exact (eq_trans Hid eq_refl)|].
  split; [exact (eq_trans Hname eq_refl)|].
  exact (eq_trans (Hother (10, "VAE", Other) ltac:(discriminate)) eq_refl).
Defined.

Lemma handler_status_tables_frame_witness :
  let r := handler Sample.bucket 1700000000
             (Sample.request (Some [Scan; Hash]) Sample.missing) Sample.db in
  models r.2 = models Sample.db /\ modelVersions r.2 = modelVersions Sample.db.
Proof.
  intros r.
  apply (handler_status_tables_frame Sample.bucket 1700000000
    (Sample.request (Some [Scan; Hash]) Sample.missing) Sample.db r.1 r.2);
    [|exact (surjective_pairing r)].
  left. apply (bool_decide_eq_false_1 (Import ∈ [Scan; Hash])). reflexivity.
Defined.

Lemma handler_hash_table_frame_witness :
  let r := handler Sample.bucket 1700000000
             (Sample.request None (Sample.payload 1 ScanExitCode.Success None None))
             Sample.db in
  modelHashes r.2 !! (6, SHA256) = Some "0c0c".
Proof.
  intros r.
  destruct (handler_hash_table_frame Sample.bucket 1700000000
    (Sample.request None (Sample.payload 1 ScanExitCode.Success None None))
    Sample.db r.1 r.2 (surjective_pairing r)) as (Hother & _).
  exact (eq_trans (Hother Sample.file 6 SHA256 eq_refl ltac:(discriminate)) eq_refl).
Defined.

(** ** What the blocks store *)

Lemma import_step_scan_data (c : bool) bucket v url sr d db data db2 :
  (if c then importTask bucket v url sr d else mret d) db = (Ok data, db2) ->
  ModelFileUpdateInput.scannedAt data = ModelFileUpdateInput.scannedAt d
  /\ ModelFileUpdateInput.virusScanResult data = ModelFileUpdateInput.virusScanResult d
  /\ ModelFileUpdateInput.virusScanMessage data = ModelFileUpdateInput.virusScanMessage d.
Proof.
  destruct c; [|by intros [= <- _]].
  rewrite importTask_run. cbv zeta.
  destruct (_ =? 1); [by intros [= <- _]|].
  destruct (unpublish v db) as [[[]|e] dbu]; [|done].
  by intros [= <- _].
Qed.

(** X8.  When [Scan] is requested and the handler answers, the file's virus
    verdict is the image of the clamscan exit code, its scan time is the time of
    the request, and its virus message is the clamscan output unless the exit
    code is Success, in which case the message is cleared, whatever message was
    stored before. *)
Theorem handler_stores_virus_scan bucket now req db resp db' file :
  method req = "POST" ->
  resolves db (query req) file ->
  Scan ∈ requestedTasks (query req) ->
  handler bucket now req db = (Ok resp, db') ->
  exists file',
    modelFiles db' !! fileKey (query req) = Some file'
    /\ ModelFile.virusScanResult file'
       = resultCodeMap (ScanResult.clamscanExitCode (body req))
    /\ ModelFile.virusScanMessage file'
       = (if decide (ScanResult.clamscanExitCode (body req) = ScanExitCode.Success)
          then None else Some (ScanResult.clamscanOutput (body req)))
    /\ ModelFile.scannedAt file' = Some now.
Proof.
  intros Hm Hres Hscan H. handler_blocks Hm Hres H.
  unfold hasTask in Hs. rewrite bool_decide_eq_true_2 in Hs by done.
  unfold scanTask in Hs. apply bind_Some in Hs as ([ex sre] & Hex & Hs).
  injection Hs as <- <-.
  pose proof (import_step_scan_data _ _ _ _ _ _ _ _ _ Hi) as (Hat & Hr & Hmsg).
  pose proof (import_step_data _ _ _ _ _ _ _ _ _ Hi) as (Hp & _).
  apply import_step_frame in Hi as (Hfiles & _).
  rewrite (keys_pickleScanResult _ _ Hp) in Hu.
  apply update_ok_inv in Hu as (_ & Hu). rewrite Hfiles in Hu.
  destruct Hres as (Hf & _ & _).
  rewrite Hf in Hu. injection Hu as <-.
  apply hash_step_frame in Hh as (_ & _ & Hh).
  eexists. split; [by rewrite Hh; apply lookup_insert_eq|].
  unfold ModelFileUpdateInput.apply.
  cbn [ModelFile.virusScanResult ModelFile.virusScanMessage ModelFile.scannedAt].
  by rewrite Hat, Hr, Hmsg.
Qed.

Lemma handler_stores_virus_scan_witness :
  let file := ModelFile.mk 5 "mymodel.ckpt" "https://uploads.example/tmp/mymodel.ckpt"
                ScanResultCode.Pending None None ScanResultCode.Danger
                (Some "Eicar-Signature FOUND") None None in
  let db := mkDB (models Sample.db) (modelVersions Sample.db)
              {[ (10, "Model", PickleTensor) := file ]} (modelHashes Sample.db) in
  let r := handler Sample.bucket 1700000000
             (Sample.request (Some [Scan]) (Sample.payload 1 ScanExitCode.Success None None))
             db in
  ModelFile.virusScanMessage <$> modelFiles r.2 !! (10, "Model", PickleTensor) = Some None
  /\ ModelFile.virusScanResult <$> modelFiles r.2 !! (10, "Model", PickleTensor)
     = Some ScanResultCode.Success.
Proof.
  intros file db r.
  assert (resolves db (query (Sample.request (Some [Scan])
            (Sample.payload 1 ScanExitCode.Success None None))) file) as Hres
    by (split; [vm_compute; reflexivity | split; vm_compute; discriminate]).
  destruct (handler_stores_virus_scan Sample.bucket 1700000000
    (Sample.request (Some [Scan]) (Sample.payload 1 ScanExitCode.Success None None))
    db (mkResponse 200 JsonOk) r.2 file eq_refl Hres
    ltac:(apply list_elem_of_here) ltac:(vm_compute; reflexivity))
    as (file' & Hf & Hres' & Hmsg & _).
  change (ModelFile.virusScanMessage <$> modelFiles r.2 !! fileKey (query
            (Sample.request (Some [Scan]) (Sample.payload 1 ScanExitCode.Success None None)))
          = Some None
          /\ ModelFile.virusScanResult <$> modelFiles r.2 !! fileKey (query
            (Sample.request (Some [Scan]) (Sample.payload 1 ScanExitCode.Success None None)))
          = Some ScanResultCode.Success).
  rewrite Hf. simpl. split; f_equal.
  - exact (eq_trans Hmsg eq_refl).
  - exact (eq_trans Hres' eq_refl).
Defined.

(** X9.  When [Import] is requested and the handler answers, the file's
    existence flag is set to whether the payload's [fileExists] is 1; and when
    it is not 1 the stored URL is left as it was, even if the scanner's URL
    points at the permanent bucket and the stored one does not. *)
Theorem handler_stores_existence bucket now req db resp db' file :
  method req = "POST" ->
  resolves db (query req) file ->
  Import ∈ requestedTasks (query req) ->
  handler bucket now req db = (Ok resp, db') ->
  exists file',
    modelFiles db' !! fileKey (query req) = Some file'
    /\ ModelFile.exists_ file' = Some (ScanResult.fileExists (body req) =? 1)
    /\ (ScanResult.fileExists (body req) <> 1 ->
        ModelFile.url file' = ModelFile.url file).
Proof.
  intros Hm Hres Himp H. handler_blocks Hm Hres H.
  pose proof (scan_step_data _ _ _ _ _ Hs) as (Hd1 & _).
  apply scan_step_payload_frame in Hs as (Hurl & Hfe & _).
  pose proof (import_step_frame _ _ _ _ _ _ _ _ _ Hi) as (Hfiles & _).
  unfold hasTask in Hi. rewrite bool_decide_eq_true_2 in Hi by done.
  rewrite importTask_run in Hi. cbv zeta in Hi. rewrite Hfe, Hd1 in Hi.
  assert (exists u,
    data = ModelFileUpdateInput.mk
             (ModelFileUpdateInput.scannedAt d1) (ModelFileUpdateInput.rawScanResult d1)
             (ModelFileUpdateInput.virusScanResult d1)
             (ModelFileUpdateInput.virusScanMessage d1)
             (ModelFileUpdateInput.pickleScanResult d1)
             (ModelFileUpdateInput.pickleScanMessage d1)
             (Some (ScanResult.fileExists (body req) =? 1)) u
    /\ (ScanResult.fileExists (body req) <> 1 -> u = None)) as (u & -> & Hu0).
  { destruct (ScanResult.fileExists (body req) =? 1) eqn:Hex.
    - injection Hi as <- _. eexists. split; [done|]. apply Z.eqb_eq in Hex. done.
    - destruct (unpublish _ db) as [[[]|e] dbu]; [|done].
      injection Hi as <- _. eexists. split; [done|]. done. }
  rewrite (keys_exists _ (ScanResult.fileExists (body req) =? 1)) in Hu by done.
  apply update_ok_inv in Hu as (_ & Hu). rewrite Hfiles in Hu.
  destruct Hres as (Hf & _ & _).
  rewrite Hf in Hu. injection Hu as <-.
  apply hash_step_frame in Hh as (_ & _ & Hh).
  eexists. split; [by rewrite Hh; apply lookup_insert_eq|].
  split; [done|]. intros Hne. simpl. by rewrite (Hu0 Hne).
Qed.

Lemma handler_stores_existence_witness :
  let r := handler Sample.bucket 1700000000
             (Sample.request (Some [Import]) Sample.missing) Sample.db in
  ModelFile.exists_ <$> modelFiles r.2 !! (10, "Model", PickleTensor) = Some (Some false)
  /\ ModelFile.url <$> modelFiles r.2 !! (10, "Model", PickleTensor)
     = Some "https://uploads.example/tmp/mymodel.ckpt".
Proof.
  intros r.
  destruct (handler_stores_existence Sample.bucket 1700000000
    (Sample.request (Some [Import]) Sample.missing) Sample.db
    (mkResponse 200 JsonOk) r.2 Sample.file eq_refl (sample_resolves _ _)
    ltac:(apply list_elem_of_here) ltac:(vm_compute; reflexivity))
    as (file' & Hf & Hex & Hurl).
  change (ModelFile.exists_ <$> modelFiles r.2 !! fileKey (query
            (Sample.request (Some [Import]) Sample.missing)) = Some (Some false)
          /\ ModelFile.url <$> modelFiles r.2 !! fileKey (query
            (Sample.request (Some [Import]) Sample.missing))
             = Some "https://uploads.example/tmp/mymodel.ckpt").
  rewrite Hf. simpl. split; f_equal.
  - exact (eq_trans Hex eq_refl).
  - exact (eq_trans (Hurl ltac:(discriminate)) eq_refl).
Defined.

(** X10.  A request that asks for neither [Scan] nor [Import] (so for [Hash],
    for [Convert], or for nothing) sends no update of the file: the [ModelFile]
    table is left exactly as it was; and one that does not ask for [Hash]
    either changes nothing at all, [Convert] being a no-op. *)
Theorem handler_without_scan_and_import bucket now req db r db' :
  Scan ∉ requestedTasks (query req) ->
  Import ∉ requestedTasks (query req) ->
  handler bucket now req db = (r, db') ->
  modelFiles db' = modelFiles db
  /\ (Hash ∉ requestedTasks (query req) -> db' = db).
Proof.
  intros Hns Hni H. handler_any H Hm file Hres; [|done|done].
  destruct (handler_frames _ _ _ _ _ Hm Hres _ _ H)
    as (db2 & db3 & (Hf2 & _ & Hsame2) & (_ & _ & _ & _ & _ & _ & Hsame3)
        & (_ & _ & Hf' & _ & Hsame')).
  rewrite (Hsame3 Hns Hni) in *. split; [by rewrite Hf', Hf2|].
  intros Hnh. rewrite (Hsame' (or_introl Hnh)). apply Hsame2. by left.
Qed.

Lemma handler_without_scan_and_import_witness :
  let r := handler Sample.bucket 1700000000
             (Sample.request (Some [Convert]) Sample.missing) Sample.db in
  r.2 = Sample.db.
Proof.
  intros r.
  destruct (handler_without_scan_and_import Sample.bucket 1700000000
    (Sample.request (Some [Convert]) Sample.missing) Sample.db r.1 r.2
    ltac:(apply (bool_decide_eq_false_1 (Scan ∈ [Convert])); reflexivity)
    ltac:(apply (bool_decide_eq_false_1 (Import ∈ [Convert])); reflexivity)
    (surjective_pairing r)) as (_ & Hall).
  apply Hall. apply (bool_decide_eq_false_1 (Hash ∈ [Convert])). reflexivity.
Defined.

(** * Further properties of [examinePickleScanMessage] *)

Lemma filterSpecial_Some globals kept :
  filterSpecial globals = Some kept ->
  kept = List.filter isSpecial globals
  /\ Forall (fun x => is_Some (processImport x)) globals.
Proof.
  revert kept. induction globals as [|x rest IH]; intros kept H.
  - by injection H as <-.
  - simpl in H. apply bind_Some in H as (p & Hp & H).
    apply bind_Some in H as (kept' & Hk & H). injection H as <-.
    destruct (IH _ Hk) as (-> & Hall). split.
    + simpl.
      assert (isSpecial x = arrayIncludes specialImports p) as ->
        by (unfold isSpecial; by rewrite Hp).
      by destruct (arrayIncludes _ _).
    + constructor; [by eexists|done].
Qed.

Lemma reclassify_app dangerousGlobals dangerous globals :
  (reclassify dangerousGlobals dangerous globals).1 = dangerous ++ dangerousGlobals.
Proof.
  unfold reclassify. revert dangerous globals.
  induction dangerousGlobals as [|imp rest IH]; intros dangerous globals; simpl.
  - by rewrite app_nil_r.
  - rewrite IH. by rewrite <- app_assoc.
Qed.

Lemma splice1_sublist arr start : sublist (splice1 arr start) arr.
Proof. unfold splice1. apply sublist_delete. Qed.

Lemma splice1_length arr start : (length arr - 1 <= length (splice1 arr start))%nat.
Proof.
  unfold splice1. set (i := Z.to_nat _).
  destruct (decide (i < length arr)%nat) as [Hi|Hi].
  - rewrite length_delete by (by apply lookup_lt_is_Some_2). lia.
  - assert (delete i arr = arr) as ->; [|lia].
    clearbody i. revert i Hi. induction arr as [|a arr IH]; intros [|i] Hi; simpl in *;
      [done|done|lia|]. f_equal. apply IH. lia.
Qed.

Lemma reclassify_globals dangerousGlobals dangerous globals :
  sublist (reclassify dangerousGlobals dangerous globals).2 globals
  /\ (length globals - length dangerousGlobals
      <= length (reclassify dangerousGlobals dangerous globals).2)%nat.
Proof.
  unfold reclassify. revert dangerous globals.
  induction dangerousGlobals as [|imp rest IH]; intros dangerous globals; simpl.
  - split; [done|lia].
  - destruct (IH (dangerous ++ [imp])
                (splice1 globals (indexOf (dangerous ++ [imp]) imp))) as (Hsub & Hlen).
    split.
    + etrans; [exact Hsub|apply splice1_sublist].
    + pose proof (splice1_length globals (indexOf (dangerous ++ [imp]) imp)). lia.
Qed.

(** The function on a payload whose exit code is not Pending and that reports
    at least one import. *)
Lemma examine_imports_inv sr ex sr' :
  ScanResult.picklescanExitCode sr <> ScanExitCode.Pending ->
  (length (default [] (ScanResult.picklescanDangerousImports sr))
   + length (default [] (ScanResult.picklescanGlobalImports sr)) <> 0)%nat ->
  examinePickleScanMessage sr = Some (ex, sr') ->
  let dangerous := default [] (ScanResult.picklescanDangerousImports sr) in
  let globals := default [] (ScanResult.picklescanGlobalImports sr) in
  let moved := reclassify (List.filter isSpecial globals) dangerous globals in
  hasDanger ex = Some (0 <? length moved.1)%nat
  /\ ScanResult.picklescanDangerousImports sr'
     = (fun _ => moved.1) <$> ScanResult.picklescanDangerousImports sr
  /\ ScanResult.picklescanGlobalImports sr'
     = (fun _ => moved.2) <$> ScanResult.picklescanGlobalImports sr
  /\ exists block,
       pickleScanMessage ex
       = Some (("**Detected Pickle imports ("
                +:+ JsString.ofNat (length dangerous + length globals) +:+ ")**")
               +:+ newline
               +:+ (if (0 <? length moved.1)%nat
                    then "*Dangerous import detected*" +:+ newline +:+ block
                    else block))
       /\ String.prefix "```" block = true.
Proof.
  intros Hp Hn H. cbv zeta. unfold examinePickleScanMessage in H.
  rewrite decide_False in H by done. apply Nat.eqb_neq in Hn. rewrite Hn in H.
  apply bind_Some in H as (dg & Hdg & H).
  apply filterSpecial_Some in Hdg as (-> & _).
  apply bind_Some in H as (dl & _ & H).
  apply bind_Some in H as (gl & _ & H).
  injection H as <- <-. cbn [hasDanger pickleScanMessage
    ScanResult.picklescanDangerousImports ScanResult.picklescanGlobalImports].
  repeat split.
  exists (JsString.join newline ("```" :: dl ++ gl ++ ["```"])). split.
  - by destruct (0 <? _)%nat.
  - destruct (dl ++ gl ++ ["```"]) as [|x xs] eqn:Hl; [|done].
    apply app_eq_nil in Hl as [_ Hl]. by apply app_eq_nil in Hl as [_ Hl].
Qed.


Lemma examine_no_imports_lists sr :
  (length (default [] (ScanResult.picklescanDangerousImports sr))
   + length (default [] (ScanResult.picklescanGlobalImports sr)) = 0)%nat ->
  default [] (ScanResult.picklescanDangerousImports sr) = []
  /\ default [] (ScanResult.picklescanGlobalImports sr) = [].
Proof.
  destruct (default [] (ScanResult.picklescanDangerousImports sr)),
    (default [] (ScanResult.picklescanGlobalImports sr)); simpl; intros; (done || lia).
Qed.

Lemma filter_nonempty_existsb {A} (f : A -> bool) l :
  (0 <? length (List.filter f l))%nat = existsb f l.
Proof.
  induction l as [|x l IH]; [done|]. simpl. destruct (f x); [done|]. by rewrite IH.
Qed.

(** X11.  For a payload whose exit code is not Pending,
    [examinePickleScanMessage], when it returns, flags danger exactly when some
    import was reported as dangerous or some reported global import reads, once
    processed, as an entry of the special-import list; otherwise the flag is
    false (never undefined). *)
Theorem examine_flags_danger_iff sr ex sr' :
  ScanResult.picklescanExitCode sr <> ScanExitCode.Pending ->
  examinePickleScanMessage sr = Some (ex, sr') ->
  let dangerous := default [] (ScanResult.picklescanDangerousImports sr) in
  let globals := default [] (ScanResult.picklescanGlobalImports sr) in
  hasDanger ex = Some (negb (bool_decide (dangerous = [])) || existsb isSpecial globals).
Proof.
  intros Hp H. cbv zeta.
  destruct (decide (length (default [] (ScanResult.picklescanDangerousImports sr))
     + length (default [] (ScanResult.picklescanGlobalImports sr)) = 0)%nat) as [Hz|Hnz].
  - destruct (examine_no_imports_lists _ Hz) as (Hd & Hg).
    rewrite (examine_no_imports _ Hp Hd Hg) in H. injection H as <- _.
    by rewrite Hd, Hg.
  - destruct (examine_imports_inv _ _ _ Hp Hnz H) as (-> & _).
    rewrite reclassify_app, length_app, <- filter_nonempty_existsb. f_equal.
    destruct (default [] (ScanResult.picklescanDangerousImports sr)); done.
Qed.

Lemma examine_flags_danger_iff_witness :
  hasDanger <$> (fst <$> examinePickleScanMessage
     (Sample.payload 1 ScanExitCode.Success
        (Some ["torch,FloatStorage"; "collections,OrderedDict"]) (Some [])))
  = Some (Some false).
Proof.
  destruct (examinePickleScanMessage (Sample.payload 1 ScanExitCode.Success
     (Some ["torch,FloatStorage"; "collections,OrderedDict"]) (Some [])))
    as [[ex sr']|] eqn:He; [|by vm_compute in He].
  simpl. f_equal.
  exact (eq_trans (examine_flags_danger_iff
                     (Sample.payload 1 ScanExitCode.Success
                        (Some ["torch,FloatStorage"; "collections,OrderedDict"]) (Some []))
                     ex sr' ltac:(discriminate) He) eq_refl).
Defined.

(** X12.  For a payload whose exit code is not Pending and that carries a
    list of dangerous imports, that list is, after the call, the reported one
    followed by the special global imports in their order: nothing reported as
    dangerous is dropped or reordered. *)
Theorem examine_dangerous_list sr ex sr' dangerous :
  ScanResult.picklescanExitCode sr <> ScanExitCode.Pending ->
  ScanResult.picklescanDangerousImports sr = Some dangerous ->
  examinePickleScanMessage sr = Some (ex, sr') ->
  ScanResult.picklescanDangerousImports sr'
  = Some (dangerous
          ++ List.filter isSpecial (default [] (ScanResult.picklescanGlobalImports sr))).
Proof.
  intros Hp Hd H.
  destruct (decide (length (default [] (ScanResult.picklescanDangerousImports sr))
     + length (default [] (ScanResult.picklescanGlobalImports sr)) = 0)%nat) as [Hz|Hnz].
  - destruct (examine_no_imports_lists _ Hz) as (Hd0 & Hg0).
    rewrite (examine_no_imports _ Hp Hd0 Hg0) in H. injection H as _ <-.
    rewrite Hg0, Hd. rewrite Hd in Hd0. simpl in Hd0. subst. done.
  - destruct (examine_imports_inv _ _ _ Hp Hnz H) as (_ & -> & _).
    rewrite reclassify_app, Hd. done.
Qed.

Lemma examine_dangerous_list_witness :
  ScanResult.picklescanDangerousImports <$>
    (snd <$> examinePickleScanMessage
       (Sample.payload 1 ScanExitCode.Danger
          (Some ["torch,FloatStorage"; Sample.checkpointImport]) (Some ["os,system"])))
  = Some (Some ["os,system"; Sample.checkpointImport]).
Proof.
  destruct (examinePickleScanMessage (Sample.payload 1 ScanExitCode.Danger
     (Some ["torch,FloatStorage"; Sample.checkpointImport]) (Some ["os,system"])))
    as [[ex sr']|] eqn:He; [|by vm_compute in He].
  simpl. f_equal.
  exact (eq_trans (examine_dangerous_list
                     (Sample.payload 1 ScanExitCode.Danger
                        (Some ["torch,FloatStorage"; Sample.checkpointImport])
                        (Some ["os,system"]))
                     ex sr' ["os,system"] ltac:(discriminate) eq_refl He) eq_refl).
Defined.

Lemma reclassify_splicedAt dangerousGlobals dangerous globals :
  (reclassify dangerousGlobals dangerous globals).2
  = foldl splice1 globals (splicedAt dangerous dangerousGlobals).
Proof.
  unfold reclassify. revert dangerous globals.
  induction dangerousGlobals as [|imp rest IH]; intros dangerous globals; [done|].
  simpl. by rewrite IH.
Qed.

Lemma list_find_fresh (dangerous : list string) imp :
  imp ∉ dangerous ->
  list_find (fun y => y = imp) (dangerous ++ [imp]) = Some (length dangerous, imp).
Proof.
  induction dangerous as [|x rest IH]; intros Hn; simpl.
  - by rewrite decide_True.
  - apply not_elem_of_cons in Hn as (Hne & Hn).
    rewrite decide_False by congruence. by rewrite (IH Hn).
Qed.

Lemma splicedAt_fresh dangerous special :
  NoDup special ->
  (forall g, g ∈ special -> g ∉ dangerous) ->
  splicedAt dangerous special
  = (fun j => Z.of_nat (length dangerous + j)) <$> seq 0 (length special).
Proof.
  revert dangerous. induction special as [|imp rest IH]; intros dangerous Hnd Hfresh;
    [done|].
  apply NoDup_cons in Hnd as (Hnotin & Hnd).
  cbn [splicedAt length seq fmap list_fmap]. f_equal.
  - unfold indexOf. rewrite list_find_fresh by (apply Hfresh; by left).
    f_equal. lia.
  - rewrite (IH (dangerous ++ [imp]) Hnd).
    + rewrite <- fmap_S_seq, <- list_fmap_compose. apply list_fmap_ext.
      intros i j _. simpl. rewrite length_app. simpl. f_equal. lia.
    + intros g Hg Hin. apply elem_of_app in Hin as [Hin|Hin].
      * by apply (Hfresh g); [right|].
      * apply list_elem_of_singleton in Hin as ->. done.
Qed.

(** X13.  For a payload whose exit code is not Pending and that carries a
    list of global imports, that list is, after the call, the reported one
    spliced once for each special global import in turn, at the index that
    import has in the dangerous list once pushed there (not at its index in the
    global list).  When the special imports are distinct and none was reported
    as dangerous, these indices are the length of the reported dangerous list
    and its successors.  Elements are removed only, at most one per special
    import. *)
Theorem examine_global_list sr ex sr' globals :
  ScanResult.picklescanExitCode sr <> ScanExitCode.Pending ->
  ScanResult.picklescanGlobalImports sr = Some globals ->
  examinePickleScanMessage sr = Some (ex, sr') ->
  let dangerous := default [] (ScanResult.picklescanDangerousImports sr) in
  let special := List.filter isSpecial globals in
  exists globals',
    ScanResult.picklescanGlobalImports sr' = Some globals'
    /\ globals' = foldl splice1 globals (splicedAt dangerous special)
    /\ (NoDup special -> (forall g, g ∈ special -> g ∉ dangerous) ->
        globals'
        = foldl splice1 globals
            ((fun j => Z.of_nat (length dangerous + j)) <$> seq 0 (length special)))
    /\ sublist globals' globals
    /\ (length globals - length special <= length globals')%nat.
Proof.
  intros Hp Hg H. cbv zeta.
  destruct (decide (length (default [] (ScanResult.picklescanDangerousImports sr))
     + length (default [] (ScanResult.picklescanGlobalImports sr)) = 0)%nat) as [Hz|Hnz].
  - destruct (examine_no_imports_lists _ Hz) as (Hd0 & Hg0).
    rewrite (examine_no_imports _ Hp Hd0 Hg0) in H. injection H as _ <-.
    rewrite Hg in Hg0. simpl in Hg0. subst globals.
    exists []. split; [done|]. split; [done|]. split; [done|]. split; [done|simpl; lia].
  - destruct (examine_imports_inv _ _ _ Hp Hnz H) as (_ & _ & -> & _).
    rewrite Hg. simpl. eexists. split; [done|].
    destruct (reclassify_globals (List.filter isSpecial globals)
                (default [] (ScanResult.picklescanDangerousImports sr)) globals)
      as (Hsub & Hlen).
    split; [apply reclassify_splicedAt|].
    split; [|done].
    intros Hnd Hfresh. by rewrite reclassify_splicedAt, splicedAt_fresh.
Qed.

(** One import was reported as dangerous, and the third global import is the
    special one: the second global import is the one removed. *)
Lemma examine_global_list_witness :
  ScanResult.picklescanGlobalImports <$>
    (snd <$> examinePickleScanMessage
       (Sample.payload 1 ScanExitCode.Danger
          (Some ["collections,OrderedDict"; "torch,FloatStorage"; Sample.checkpointImport])
          (Some ["os,system"])))
  = Some (Some ["collections,OrderedDict"; Sample.checkpointImport]).
Proof.
  destruct (examinePickleScanMessage (Sample.payload 1 ScanExitCode.Danger
     (Some ["collections,OrderedDict"; "torch,FloatStorage"; Sample.checkpointImport])
     (Some ["os,system"])))
    as [[ex sr']|] eqn:He; [|by vm_compute in He].
  destruct (examine_global_list
              (Sample.payload 1 ScanExitCode.Danger
                 (Some ["collections,OrderedDict"; "torch,FloatStorage";
                        Sample.checkpointImport])
                 (Some ["os,system"]))
              ex sr' ["collections,OrderedDict"; "torch,FloatStorage";
                      Sample.checkpointImport]
              ltac:(discriminate) eq_refl He) as (globals' & Hg & Heq & _).
  simpl. rewrite Hg. do 2 f_equal. exact (eq_trans Heq eq_refl).
Defined.

(** X14.  For a payload whose exit code is not Pending and that reports at
    least one import, the message built starts with the line
    "**Detected Pickle imports (n)**", n being the number of imports of the two
    reported lists together; the line "*Dangerous import detected*" follows
    exactly when danger is flagged, and then the fenced block of imports. *)
Theorem examine_message_header sr ex sr' :
  ScanResult.picklescanExitCode sr <> ScanExitCode.Pending ->
  (length (default [] (ScanResult.picklescanDangerousImports sr))
   + length (default [] (ScanResult.picklescanGlobalImports sr)) <> 0)%nat ->
  examinePickleScanMessage sr = Some (ex, sr') ->
  exists flag block,
    hasDanger ex = Some flag
    /\ pickleScanMessage ex
       = Some (("**Detected Pickle imports ("
                +:+ JsString.ofNat
                      (length (default [] (ScanResult.picklescanDangerousImports sr))
                       + length (default [] (ScanResult.picklescanGlobalImports sr)))
                +:+ ")**")
               +:+ newline
               +:+ (if flag then "*Dangerous import detected*" +:+ newline +:+ block
                    else block))
    /\ String.prefix "```" block = true.
Proof.
  intros Hp Hn H.
  destruct (examine_imports_inv _ _ _ Hp Hn H) as (Hflag & _ & _ & block & Hmsg & Hpre).
  by eexists _, block.
Qed.

Lemma examine_message_header_witness :
  pickleScanMessage <$> (fst <$> examinePickleScanMessage
     (Sample.payload 1 ScanExitCode.Success (Some ["torch,FloatStorage"]) (Some ["os,system"])))
  = Some (Some ("**Detected Pickle imports (2)**" +:+ newline
                +:+ "*Dangerous import detected*" +:+ newline
                +:+ "```" +:+ newline +:+ "*os.system*" +:+ newline
                +:+ "torch.FloatStorage" +:+ newline +:+ "```")).
Proof.
  destruct (examinePickleScanMessage (Sample.payload 1 ScanExitCode.Success
     (Some ["torch,FloatStorage"]) (Some ["os,system"])))
    as [[ex sr']|] eqn:He; [|by vm_compute in He].
  destruct (examine_message_header
              (Sample.payload 1 ScanExitCode.Success (Some ["torch,FloatStorage"])
                 (Some ["os,system"]))
              ex sr' ltac:(discriminate) ltac:(discriminate) He)
    as (flag & block & _ & _ & _).
  vm_compute in He. injection He as <- _. reflexivity.
Defined.

(** X15.  When [Scan] is requested with a picklescan exit code of Pending,
    none of the imports the payload lists is processed: whatever they are, the
    request does not fail with [URIError]; and when the handler answers, the
    file's pickle verdict is Pending, its pickle message is left as it was, and
    the raw result stored is the payload as received. *)
Theorem handler_pending_pickle_scan bucket now req db file r db' :
  method req = "POST" ->
  resolves db (query req) file ->
  Scan ∈ requestedTasks (query req) ->
  ScanResult.picklescanExitCode (body req) = ScanExitCode.Pending ->
  handler bucket now req db = (r, db') ->
  r <> Throw URIError
  /\ (forall resp, r = Ok resp ->
      exists file',
        modelFiles db' !! fileKey (query req) = Some file'
        /\ ModelFile.pickleScanResult file' = ScanResultCode.Pending
        /\ ModelFile.pickleScanMessage file' = ModelFile.pickleScanMessage file
        /\ ModelFile.rawScanResult file' = Some (body req)).
Proof.
  intros Hm Hres Hscan Hp H.
  assert (examinePickleScanMessage (body req) = Some (mkExamined None None, body req))
    as Hex by (unfold examinePickleScanMessage; by rewrite decide_True).
  split.
  - intros ->.
    destruct (handler_thrown _ _ _ _ _ Hm Hres _ _ H)
      as [(_ & _ & Hs) | [(? & _) | [(? & _) | (? & _)]]]; try done.
    unfold hasTask in Hs. rewrite bool_decide_eq_true_2 in Hs by done.
    apply scanTask_None in Hs. congruence.
  - intros resp ->.
    destruct (handler_scan_stored _ _ _ _ _ Hm Hres _ _ Hscan H)
      as (ex & sr1 & file' & Hex' & Hf & Hr & Hmsg & Hraw & _).
    rewrite Hex in Hex'. injection Hex' as <- <-.
    exists file'. rewrite Hp in Hr. by repeat split.
Qed.

Lemma handler_pending_pickle_scan_witness :
  let r := handler Sample.bucket 1700000000
             (Sample.request None (Sample.payload 1 ScanExitCode.Pending (Some ["100%"]) None))
             Sample.db in
  r.1 = Ok (mkResponse 200 JsonOk)
  /\ ModelFile.pickleScanResult <$> modelFiles r.2 !! (10, "Model", PickleTensor)
     = Some ScanResultCode.Pending.
Proof.
  intros r.
  destruct (handler_pending_pickle_scan Sample.bucket 1700000000
    (Sample.request None (Sample.payload 1 ScanExitCode.Pending (Some ["100%"]) None))
    Sample.db Sample.file r.1 r.2 eq_refl (sample_resolves _ _)
    ltac:(vm_compute; apply list_elem_of_further, list_elem_of_here)
    eq_refl (surjective_pairing r))
    as (_ & Hok).
  destruct (Hok (mkResponse 200 JsonOk) ltac:(vm_compute; reflexivity))
    as (file' & Hf & Hr & _).
  split; [vm_compute; reflexivity|].
  change (ModelFile.pickleScanResult <$> modelFiles r.2 !! fileKey (query
            (Sample.request None
               (Sample.payload 1 ScanExitCode.Pending (Some ["100%"]) None)))
          = Some ScanResultCode.Pending).
  by rewrite Hf, <- Hr.
Defined.

(** X16.  When [Scan] is requested and the handler answers, the raw scan
    result stored on the file is the payload with its picklescan exit code set
    to Danger if danger was flagged and left as reported if not; its URL, its
    existence flag and its hashes are as received. *)
Theorem handler_stores_raw_result bucket now req db resp db' file :
  method req = "POST" ->
  resolves db (query req) file ->
  Scan ∈ requestedTasks (query req) ->
  handler bucket now req db = (Ok resp, db') ->
  exists ex sr1 file' raw,
    examinePickleScanMessage (body req) = Some (ex, sr1)
    /\ modelFiles db' !! fileKey (query req) = Some file'
    /\ ModelFile.rawScanResult file' = Some raw
    /\ ScanResult.picklescanExitCode raw
       = (if decide (hasDanger ex = Some true) then ScanExitCode.Danger
          else ScanResult.picklescanExitCode (body req))
    /\ ScanResult.url raw = ScanResult.url (body req)
    /\ ScanResult.fileExists raw = ScanResult.fileExists (body req)
    /\ ScanResult.hashes raw = ScanResult.hashes (body req).
Proof.
  intros Hm Hres Hscan H.
  destruct (handler_scan_stored _ _ _ _ _ Hm Hres _ _ Hscan H)
    as (ex & sr1 & file' & Hex & Hf & _ & _ & Hraw & _).
  destruct (examine_payload_frame _ _ _ Hex) as (Hu & Hfe & Hh & He).
  exists ex, sr1, file'. eexists. split; [done|]. split; [done|]. split; [done|].
  by destruct (decide _).
Qed.

Lemma handler_stores_raw_result_witness :
  let r := handler Sample.bucket 1700000000
             (Sample.request (Some [Scan])
                (Sample.payload 1 ScanExitCode.Success (Some []) (Some ["os,system"])))
             Sample.db in
  ScanResult.picklescanExitCode <$>
    (modelFiles r.2 !! (10, "Model", PickleTensor) ≫= ModelFile.rawScanResult)
  = Some ScanExitCode.Danger.
Proof.
  intros r.
  destruct (handler_stores_raw_result Sample.bucket 1700000000
    (Sample.request (Some [Scan])
       (Sample.payload 1 ScanExitCode.Success (Some []) (Some ["os,system"])))
    Sample.db (mkResponse 200 JsonOk) r.2 Sample.file eq_refl (sample_resolves _ _)
    ltac:(apply list_elem_of_here) ltac:(vm_compute; reflexivity))
    as (ex & sr1 & file' & raw & Hex & Hf & Hraw & Hcode & _).
  change (ScanResult.picklescanExitCode <$>
    (modelFiles r.2 !! fileKey (query (Sample.request (Some [Scan])
       (Sample.payload 1 ScanExitCode.Success (Some []) (Some ["os,system"]))))
     ≫= ModelFile.rawScanResult) = Some ScanExitCode.Danger).
  rewrite Hf. simpl. rewrite Hraw. simpl. f_equal. rewrite Hcode.
  vm_compute in Hex. injection Hex as <- _. reflexivity.
Defined.

(** * Further properties of [processImport] *)

Lemma includes_char c s : JsString.includes s (String c EmptyString) = occurs c s.
Proof.
  induction s as [|x s IH]; [done|]. simpl. rewrite IH. f_equal.
  destruct (Ascii.ascii_dec c x) as [->|Hne].
  - rewrite Ascii.eqb_refl. by destruct s.
  - symmetry. apply Ascii.eqb_neq. congruence.
Qed.

Lemma occurs_app c a b : occurs c (a +:+ b) = occurs c a || occurs c b.
Proof.
  induction a as [|x a IH]; [done|].
  change (String x a +:+ b) with (String x (a +:+ b)). simpl.
  by rewrite IH, orb_assoc.
Qed.

Lemma decodeFrom_plain s :
  occurs "%"%char s = false -> JsString.decodeFrom 0 [] s = Some s.
Proof.
  induction s as [|c s IH]; [done|]. simpl. intros H.
  apply orb_false_iff in H as (Hc & Hs). rewrite Hc. by rewrite (IH Hs).
Qed.

(** X17.  A string with no percent sign decodes to itself: on such an import
    [processImport] never fails, and its result is the comma-separated parts,
    each without quotes and trimmed, joined by dots. *)
Theorem processImport_plain importStr :
  JsString.includes importStr "%" = false ->
  JsString.decodeURIComponent importStr = Some importStr
  /\ processImport importStr
     = Some (JsString.join "."
               ((fun x => JsString.trim (JsString.removeAll "'"%char x))
                  <$> JsString.split ","%char importStr)).
Proof.
  rewrite includes_char. intros H.
  assert (JsString.decodeURIComponent importStr = Some importStr) as Hd
    by (by apply decodeFrom_plain).
  split; [done|]. unfold processImport. by rewrite Hd.
Qed.

Lemma processImport_plain_witness :
  processImport "'torch._utils', '_rebuild_tensor_v2'"
  = Some "torch._utils._rebuild_tensor_v2".
Proof.
  exact (eq_trans
           (proj2 (processImport_plain "'torch._utils', '_rebuild_tensor_v2'" eq_refl))
           eq_refl).
Defined.

Lemma decodeFrom_trailing_percent n :
  forall need octs s, (String.length s <= n)%nat ->
    JsString.decodeFrom need octs (s +:+ "%") = None.
Proof.
  induction n as [n IH] using lt_wf_ind. intros need octs s Hn.
  destruct s as [|c rest]; [by destruct need|].
  change (String c rest +:+ "%") with (String c (rest +:+ "%")).
  cbn [JsString.decodeFrom].
  destruct (Ascii.eqb c "%") eqn:Hc.
  - destruct rest as [|h1 rest]; [done|].
    change (String h1 rest +:+ "%") with (String h1 (rest +:+ "%")).
    destruct rest as [|h2 rest].
    + change (EmptyString +:+ "%") with "%". cbv beta iota.
      unfold JsString.hexByte. destruct (JsString.hexDigit h1); done.
    + change (String h2 rest +:+ "%") with (String h2 (rest +:+ "%")). cbv beta iota.
      simpl in Hn.
      assert (forall need' octs', JsString.decodeFrom need' octs' (rest +:+ "%") = None)
        as Hrec by (intros; apply (IH (String.length rest)); lia).
      destruct (JsString.hexByte h1 h2); [|done].
      destruct need as [|need'].
      * destruct (JsString.leadingOnes n0) as [|[|[|[|[|?]]]]]; rewrite ?Hrec; done.
      * destruct (JsString.isCont n0); [|done].
        destruct need'; [destruct (JsString.validUtf8 _)|]; rewrite ?Hrec; done.
  - destruct need; [|done]. simpl in Hn.
    by rewrite (IH (String.length rest)) by lia.
Qed.

(** X18.  An import that ends with a bare percent sign never decodes,
    whatever precedes the sign: [processImport] fails on it. *)
Theorem processImport_trailing_percent importStr :
  processImport (importStr +:+ "%") = None.
Proof.
  unfold processImport, JsString.decodeURIComponent.
  by rewrite (decodeFrom_trailing_percent (String.length importStr)).
Qed.

Lemma split_parts_free c s x : x ∈ JsString.split c s -> occurs c x = false.
Proof.
  revert x. induction s as [|a s IH]; intros x Hx; simpl in Hx.
  - by apply list_elem_of_singleton in Hx as ->.
  - destruct (Ascii.eqb a c) eqn:Hac.
    + apply elem_of_cons in Hx as [-> | Hx]; [done|by apply IH].
    + destruct (JsString.split c s) as [|h t] eqn:Hs.
      * apply list_elem_of_singleton in Hx as ->. simpl. by rewrite Hac.
      * apply elem_of_cons in Hx as [-> | Hx].
        -- simpl. rewrite Hac. simpl. apply IH. by left.
        -- apply IH. by right.
Qed.

Lemma removeAll_free c s : occurs c (JsString.removeAll c s) = false.
Proof.
  induction s as [|x s IH]; [done|]. simpl.
  destruct (Ascii.eqb x c) eqn:Hx; [done|]. simpl. by rewrite Hx.
Qed.

Lemma removeAll_keeps_free d c s :
  occurs d s = false -> occurs d (JsString.removeAll c s) = false.
Proof.
  induction s as [|x s IH]; [done|]. simpl. intros H.
  apply orb_false_iff in H as (Hx & Hs).
  destruct (Ascii.eqb x c); [by apply IH|]. simpl. by rewrite Hx, IH.
Qed.

Lemma rev_onto_occurs d s acc :
  occurs d (JsString.rev_onto s acc) = occurs d s || occurs d acc.
Proof.
  revert acc. induction s as [|x s IH]; intros acc; [done|]. simpl.
  rewrite IH. simpl. by destruct (Ascii.eqb x d), (occurs d s), (occurs d acc).
Qed.

Lemma trimStart_keeps_free d n :
  forall s, (String.length s <= n)%nat -> occurs d s = false ->
    occurs d (JsString.trimStart s) = false
    /\ occurs d (JsString.trimStartRev s) = false.
Proof.
  induction n as [n IH] using lt_wf_ind. intros s Hn Hs.
  destruct s as [|a [|b [|c s3]]]; cbn [JsString.trimStart JsString.trimStartRev].
  - done.
  - by destruct (JsString.ws1 _).
  - simpl in Hn, Hs. apply orb_false_iff in Hs as (Ha & Hb).
    destruct (IH 1%nat ltac:(lia) (String b EmptyString) ltac:(simpl; lia) Hb) as (H1 & H2).
    split; (destruct (JsString.ws1 _); [done|]); (destruct (JsString.ws2 _ _); [done|]);
      simpl; by rewrite Ha, Hb.
  - simpl in Hn. pose proof Hs as Hs0. simpl in Hs.
    apply orb_false_iff in Hs as (Ha & Hs). pose proof Hs as Hs1.
    apply orb_false_iff in Hs as (Hb & Hs). pose proof Hs as Hs2.
    apply orb_false_iff in Hs as (Hc & Hs).
    destruct (IH (S (S (String.length s3))) ltac:(lia) (String b (String c s3))
                ltac:(simpl; lia) Hs1) as (H1 & H1').
    destruct (IH (S (String.length s3)) ltac:(lia) (String c s3)
                ltac:(simpl; lia) Hs2) as (H2 & H2').
    destruct (IH (String.length s3) ltac:(lia) s3 ltac:(lia) Hs) as (H3 & H3').
    split; (destruct (JsString.ws1 _); [done|]); (destruct (JsString.ws2 _ _); [done|]);
      (destruct (JsString.ws3 _ _ _); [done|]); exact Hs0.
Qed.

Lemma trim_keeps_free d s : occurs d s = false -> occurs d (JsString.trim s) = false.
Proof.
  intros H. unfold JsString.trim, JsString.rev.
  rewrite rev_onto_occurs, orb_false_r.
  apply (trimStart_keeps_free d (String.length
           (JsString.rev_onto (JsString.trimStart s) EmptyString))); [lia|].
  rewrite rev_onto_occurs, orb_false_r.
  by apply (trimStart_keeps_free d (String.length s)).
Qed.

Lemma join_keeps_free d sep l :
  occurs d sep = false -> Forall (fun x => occurs d x = false) l ->
  occurs d (JsString.join sep l) = false.
Proof.
  intros Hsep Hl. induction Hl as [|x l Hx Hl IH]; [done|].
  destruct l as [|y l]; [done|].
  change (JsString.join sep (x :: y :: l))
    with (x +:+ sep +:+ JsString.join sep (y :: l)).
  by rewrite !occurs_app, Hx, Hsep, IH.
Qed.

(** X19.  Whatever the import, the string [processImport] returns contains
    neither a comma nor a single quote. *)
Theorem processImport_result_free importStr p :
  processImport importStr = Some p ->
  JsString.includes p "," = false /\ JsString.includes p "'" = false.
Proof.
  unfold processImport. intros H. apply bind_Some in H as (decoded & _ & H).
  injection H as <-. rewrite !includes_char.
  split; (apply join_keeps_free; [done|]); apply Forall_fmap, Forall_forall;
    intros x Hx; simpl; apply trim_keeps_free.
  - apply removeAll_keeps_free. by eapply split_parts_free.
  - apply removeAll_free.
Qed.

Lemma processImport_result_free_witness :
  JsString.includes "a.b" "," = false /\ JsString.includes "a.b" "'" = false.
Proof.
  apply (processImport_result_free "%27a%27%2C %27b%27" "a.b"). vm_compute; reflexivity.
Defined.

(** * Further properties of [unpublish] *)

(** X20.  Whatever its outcome, [unpublish] writes to no row but the given
    version's and that version's model's: it leaves the files and the hashes
    alone, every other version and every other model; it creates and deletes no
    row; and in the two rows it writes, the name, the model id and the trained
    words of the version and the name and the type of the model are kept. *)
Theorem unpublish_writes_two_rows v db r db' :
  unpublish v db = (r, db') ->
  modelFiles db' = modelFiles db
  /\ modelHashes db' = modelHashes db
  /\ (forall v', v' <> v -> modelVersions db' !! v' = modelVersions db !! v')
  /\ (forall m, Some m <> ModelVersion.modelId <$> modelVersions db !! v ->
                models db' !! m = models db !! m)
  /\ ModelVersion.name <$> modelVersions db' !! v
     = ModelVersion.name <$> modelVersions db !! v
  /\ ModelVersion.modelId <$> modelVersions db' !! v
     = ModelVersion.modelId <$> modelVersions db !! v
  /\ ModelVersion.trainedWords <$> modelVersions db' !! v
     = ModelVersion.trainedWords <$> modelVersions db !! v
  /\ (forall m, Model.name <$> models db' !! m = Model.name <$> models db !! m)
  /\ (forall m, Model.type <$> models db' !! m = Model.type <$> models db !! m).
Proof.
  rewrite unpublish_run. intros H.
  destruct (modelVersions db !! v) as [ver|] eqn:Hv; [|by injection H as _ <-; rewrite Hv].
  cbv zeta in H.
  assert (modelVersions db' = <[v := ModelVersion.with_status Draft ver]> (modelVersions db)
          /\ modelFiles db' = modelFiles db /\ modelHashes db' = modelHashes db
          /\ (models db' = models db
              \/ exists mo, models db !! ModelVersion.modelId ver = Some mo
                   /\ models db' = <[ModelVersion.modelId ver
                                      := Model.with_status Unpublished mo]> (models db)))
    as (Hvs & Hf & Hh & Hms).
  { destruct (truthyZ _); [destruct (models db !! _) as [mo|] eqn:Hmo|];
      [destruct (decide _)|..]; injection H as _ <-; cbn; eauto 10. }
  assert (forall (A : Type) (f : Model.t -> A),
    (forall mo, f (Model.with_status Unpublished mo) = f mo) ->
    forall m, f <$> models db' !! m = f <$> models db !! m) as Hkept.
  { intros A f Hfm m. destruct Hms as [-> | (mo & Hmo & ->)]; [done|].
    destruct (decide (m = ModelVersion.modelId ver)) as [->|Hne].
    - by rewrite lookup_insert_eq, Hmo; simpl; rewrite Hfm.
    - by rewrite lookup_insert_ne. }
  rewrite Hvs, lookup_insert_eq. split; [done|]. split; [done|].
  split; [intros v' Hne; by rewrite lookup_insert_ne|].
  split.
  { intros m Hm. destruct Hms as [-> | (mo & Hmo & ->)]; [done|].
    rewrite lookup_insert_ne; [done|]. intros <-. by destruct Hm. }
  do 3 (split; [done|]). split; by apply Hkept.
Qed.

Lemma unpublish_writes_two_rows_witness :
  let db' := (unpublish 10 Sample.db2).2 in
  modelVersions db' !! 11 = Some (ModelVersion.mk "v2" 1 [] Published)
  /\ modelFiles db' = modelFiles Sample.db2
  /\ ModelVersion.modelId <$> modelVersions db' !! 10 = Some 1.
Proof.
  intros db'.
  destruct (unpublish_writes_two_rows 10 Sample.db2 (unpublish 10 Sample.db2).1 db'
              (surjective_pairing _)) as (Hf & _ & Hv & _ & _ & Hid & _).
  split; [|split; [exact Hf|exact (eq_trans Hid eq_refl)]].
  exact (eq_trans (Hv 11 ltac:(discriminate)) eq_refl).
Defined.

(** X21.  After a successful [unpublish] of a version whose model exists and
    has a non-zero id, that model is Unpublished or still has a Published
    version: it is not left Published (or in any status but Unpublished)
    without one. *)
Theorem unpublish_restores_model_invariant v db db' ver mo :
  modelVersions db !! v = Some ver ->
  ModelVersion.modelId ver <> 0 ->
  models db !! ModelVersion.modelId ver = Some mo ->
  unpublish v db = (Ok tt, db') ->
  Model.status <$> models db' !! ModelVersion.modelId ver = Some Unpublished
  \/ exists v2 ver2,
       modelVersions db' !! v2 = Some ver2
       /\ ModelVersion.modelId ver2 = ModelVersion.modelId ver
       /\ ModelVersion.status ver2 = Published.
Proof.
  intros Hv Hm0 Hmo H. rewrite unpublish_run, Hv in H. cbv zeta in H.
  assert (truthyZ (ModelVersion.modelId ver) = true) as Ht
    by (unfold truthyZ; by apply negb_true_iff, Z.eqb_neq).
  rewrite Ht, Hmo in H. destruct (decide _) as [Hz|Hnz]; injection H as <-.
  - left. cbn [models]. by rewrite lookup_insert_eq.
  - right. cbn [modelVersions].
    destruct (map_choose (prisma.publishedVersions
                (<[v:=ModelVersion.with_status Draft ver]> (modelVersions db))
                (ModelVersion.modelId ver))) as (v2 & ver2 & Hl).
    { intros He. by rewrite He, map_size_empty in Hnz. }
    apply publishedVersions_lookup in Hl. by exists v2, ver2.
Qed.

Lemma unpublish_restores_model_invariant_witness :
  Model.status <$> models (unpublish 10 Sample.db).2 !! 1 = Some Unpublished
  \/ exists v2 ver2,
       modelVersions (unpublish 10 Sample.db).2 !! v2 = Some ver2
       /\ ModelVersion.modelId ver2 = 1
       /\ ModelVersion.status ver2 = Published.
Proof.
  apply (unpublish_restores_model_invariant 10 Sample.db (unpublish 10 Sample.db).2
           (ModelVersion.mk "v1" 1 [] Published) (Model.mk "My Model" Checkpoint Published)).
  - reflexivity.
  - discriminate.
  - reflexivity.
  - vm_compute; reflexivity.
Defined.

(** X22.  [unpublish] never publishes: a version or a model that is Published
    after it was Published before it, with the same row. *)
Theorem unpublish_never_publishes v db r db' :
  unpublish v db = (r, db') ->
  (forall v' ver', modelVersions db' !! v' = Some ver' ->
                   ModelVersion.status ver' = Published ->
                   modelVersions db !! v' = Some ver')
  /\ (forall m mo', models db' !! m = Some mo' ->
                    Model.status mo' = Published ->
                    models db !! m = Some mo').
Proof.
  rewrite unpublish_run. intros H.
  destruct (modelVersions db !! v) as [ver|] eqn:Hv; [|by injection H as _ <-].
  cbv zeta in H.
  assert (modelVersions db' = <[v := ModelVersion.with_status Draft ver]> (modelVersions db)
          /\ (models db' = models db
              \/ exists mo, models db' = <[ModelVersion.modelId ver
                                      := Model.with_status Unpublished mo]> (models db)))
    as (Hvs & Hms).
  { destruct (truthyZ _); [destruct (models db !! _) as [mo|] eqn:Hmo|];
      [destruct (decide _)|..]; injection H as _ <-; cbn; eauto 10. }
  rewrite Hvs. split.
  - intros v' ver' Hl Hp. destruct (decide (v' = v)) as [->|Hne].
    + rewrite lookup_insert_eq in Hl. injection Hl as <-. done.
    + by rewrite lookup_insert_ne in Hl.
  - intros m mo' Hl Hp. destruct Hms as [Hms | (mo & Hms)]; rewrite Hms in Hl; [done|].
    destruct (decide (m = ModelVersion.modelId ver)) as [->|Hne].
    + rewrite lookup_insert_eq in Hl. injection Hl as <-. done.
    + by rewrite lookup_insert_ne in Hl.
Qed.

Lemma unpublish_never_publishes_witness :
  modelVersions Sample.db2 !! 11 = Some (ModelVersion.mk "v2" 1 [] Published).
Proof.
  destruct (unpublish_never_publishes 10 Sample.db2 (unpublish 10 Sample.db2).1
              (unpublish 10 Sample.db2).2 (surjective_pairing _)) as (Hv & _).
  apply (Hv 11 (ModelVersion.mk "v2" 1 [] Published)); [vm_compute|]; reflexivity.
Defined.

(** * Further properties of [getDownloadFilename] *)

Lemma split_nonempty c s : JsString.split c s <> [].
Proof.
  destruct s as [|a s]; [done|]. simpl.
  destruct (Ascii.eqb a c); [done|]. by destruct (JsString.split c s).
Qed.

Lemma split_free c s : occurs c s = false -> JsString.split c s = [s].
Proof.
  induction s as [|a s IH]; [done|]. simpl. intros H.
  apply orb_false_iff in H as (Ha & Hs). by rewrite Ha, (IH Hs).
Qed.

Lemma pop_cons x l : l <> [] -> JsString.pop (x :: l) = JsString.pop l.
Proof. by destruct l. Qed.

Lemma split_occurs c s :
  occurs c s = true -> exists h x t, JsString.split c s = h :: x :: t.
Proof.
  induction s as [|a s IH]; [done|]. simpl. intros H.
  destruct (Ascii.eqb a c) eqn:Ha.
  - destruct (JsString.split c s) as [|x t] eqn:Hs; [by apply split_nonempty in Hs|].
    by eexists _, _, _.
  - destruct (IH H) as (h & x & t & ->). by eexists _, _, _.
Qed.

Lemma pop_split_cons c a s :
  JsString.pop (JsString.split c (String a s))
  = if Ascii.eqb a c || occurs c s then JsString.pop (JsString.split c s)
    else String a s.
Proof.
  simpl. destruct (Ascii.eqb a c) eqn:Ha; simpl.
  - apply pop_cons, split_nonempty.
  - destruct (occurs c s) eqn:Hs.
    + by destruct (split_occurs c s Hs) as (h & x & t & ->).
    + by rewrite (split_free c s Hs).
Qed.

Lemma pop_split_free c s : occurs c (JsString.pop (JsString.split c s)) = false.
Proof.
  apply (split_parts_free c s). unfold JsString.pop.
  destruct (JsString.split c s) as [|h t] eqn:Hs; [by apply split_nonempty in Hs|].
  clear Hs. revert h. induction t as [|x t IH]; intros h; [by left|].
  right. apply IH.
Qed.

(** The text after the last separator of [a ++ b] is that of [b] when [b]
    holds a separator. *)
Lemma pop_split_app c a b :
  occurs c b = true ->
  JsString.pop (JsString.split c (a +:+ b)) = JsString.pop (JsString.split c b).
Proof.
  intros Hb. induction a as [|x a IH]; [done|].
  change (String x a +:+ b) with (String x (a +:+ b)).
  by rewrite pop_split_cons, occurs_app, Hb, orb_true_r, orb_true_r.
Qed.

Lemma pop_split_dot_ext c e :
  occurs c e = false ->
  JsString.pop (JsString.split c (String c EmptyString +:+ e)) = e.
Proof.
  intros He. change (String c EmptyString +:+ e) with (String c e).
  by rewrite pop_split_cons, Ascii.eqb_refl, (split_free c e He).
Qed.

(** X23.  For a vocabulary that holds "Training Data", a file of that type is
    named after the model and the version only, with the fixed suffix
    "_trainingData.zip": the model type, the trained words and the stored file
    name (and its extension) play no part. *)
Theorem getDownloadFilename_training_data
    (filenamize : string -> string) (modelFileTypes : list string)
    model_name model_type version_name words file_name :
  "Training Data" ∈ modelFileTypes ->
  getDownloadFilename filenamize modelFileTypes model_name model_type
    version_name words file_name "Training Data"
  = filenamize model_name +:+ "_"
    +:+ JsString.replace (filenamize version_name) (filenamize model_name) ""
    +:+ "_trainingData.zip".
Proof.
  intros Hin. unfold getDownloadFilename. by rewrite (arrayIncludes_true _ _ Hin).
Qed.

Lemma getDownloadFilename_training_data_witness :
  getDownloadFilename Sample.filenamize Sample.modelFileTypes "mymodel" TextualInversion
    "mymodel-v2" ["foo"] "images.tar.gz" "Training Data"
  = "mymodel_-v2_trainingData.zip".
Proof.
  exact (eq_trans
    (getDownloadFilename_training_data Sample.filenamize Sample.modelFileTypes
       "mymodel" TextualInversion "mymodel-v2" ["foo"] "images.tar.gz"
       ltac:(apply (bool_decide_eq_true_1 ("Training Data" ∈ Sample.modelFileTypes));
             vm_compute; reflexivity))
    eq_refl).
Defined.

(** X24.  A file keeps its stored name when it is a "VAE" file of a model
    that is not a textual inversion, and when it belongs to a textual inversion
    whose version has no trained word or an empty first one (its type being in
    the vocabulary and not "Training Data"). *)
Theorem getDownloadFilename_keeps_name
    (filenamize : string -> string) (modelFileTypes : list string)
    model_name model_type version_name words file_name file_type :
  file_type ∈ modelFileTypes ->
  file_type <> "Training Data" ->
  (model_type <> TextualInversion /\ file_type = "VAE")
  \/ (model_type = TextualInversion /\ (words !! 0%nat = None \/ words !! 0%nat = Some "")) ->
  getDownloadFilename filenamize modelFileTypes model_name model_type
    version_name words file_name file_type = file_name.
Proof.
  intros Hin Htd Hcase. unfold getDownloadFilename.
  rewrite (arrayIncludes_true _ _ Hin). apply String.eqb_neq in Htd. rewrite Htd. simpl.
  destruct Hcase as [(Hti & ->) | (-> & [-> | ->])].
  - by rewrite decide_False.
  - by rewrite decide_True.
  - by rewrite decide_True.
Qed.

Lemma getDownloadFilename_keeps_name_witness :
  getDownloadFilename Sample.filenamize Sample.modelFileTypes "mymodel" Checkpoint
    "v2" [] "vae-ft-mse.pt" "VAE" = "vae-ft-mse.pt".
Proof.
  apply (getDownloadFilename_keeps_name Sample.filenamize Sample.modelFileTypes).
  - apply (bool_decide_eq_true_1 ("VAE" ∈ Sample.modelFileTypes)). vm_compute; reflexivity.
  - discriminate.
  - left. split; [discriminate|reflexivity].
Defined.

(** X25.  For a model that is not a textual inversion and a vocabulary that
    holds "Text Encoder", a text-encoder file gets the suffix "_txt" before its
    extension, unless its stored name contains "-inpainting": then it gets
    "-inpainting" instead, never both. *)
Theorem getDownloadFilename_text_encoder
    (filenamize : string -> string) (modelFileTypes : list string)
    model_name model_type version_name words file_name :
  "Text Encoder" ∈ modelFileTypes ->
  model_type <> TextualInversion ->
  getDownloadFilename filenamize modelFileTypes model_name model_type
    version_name words file_name "Text Encoder"
  = filenamize model_name +:+ "_"
    +:+ JsString.replace (filenamize version_name) (filenamize model_name) ""
    +:+ (if JsString.includes file_name "-inpainting" then "-inpainting" else "_txt")
    +:+ "." +:+ JsString.pop (JsString.split "."%char file_name).
Proof.
  intros Hin Hti. unfold getDownloadFilename.
  rewrite (arrayIncludes_true _ _ Hin). simpl. by rewrite decide_False.
Qed.

Lemma getDownloadFilename_text_encoder_witness :
  getDownloadFilename Sample.filenamize Sample.modelFileTypes "mymodel" Checkpoint
    "v2" [] "encoder.pt" "Text Encoder" = "mymodel_v2_txt.pt"
  /\ getDownloadFilename Sample.filenamize Sample.modelFileTypes "mymodel" Checkpoint
       "v2" [] "encoder-inpainting.pt" "Text Encoder" = "mymodel_v2-inpainting.pt".
Proof.
  assert ("Text Encoder" ∈ Sample.modelFileTypes) as Hin
    by (apply (bool_decide_eq_true_1 ("Text Encoder" ∈ Sample.modelFileTypes));
        vm_compute; reflexivity).
  split.
  - exact (eq_trans
      (getDownloadFilename_text_encoder Sample.filenamize Sample.modelFileTypes
         "mymodel" Checkpoint "v2" [] "encoder.pt" Hin ltac:(discriminate)) eq_refl).
  - exact (eq_trans
      (getDownloadFilename_text_encoder Sample.filenamize Sample.modelFileTypes
         "mymodel" Checkpoint "v2" [] "encoder-inpainting.pt" Hin ltac:(discriminate))
      eq_refl).
Defined.

(** X26.  Unless the file is of type "Training Data" in the vocabulary, the
    derived name has the extension of the stored name: the text after the last
    dot is the same in both, whatever the model, the version and the helper that
    normalises their names. *)
Theorem getDownloadFilename_keeps_extension
    (filenamize : string -> string) (modelFileTypes : list string)
    model_name model_type version_name words file_name file_type :
  file_type <> "Training Data" ->
  JsString.pop (JsString.split "."%char
    (getDownloadFilename filenamize modelFileTypes model_name model_type
       version_name words file_name file_type))
  = JsString.pop (JsString.split "."%char file_name).
Proof.
  intros Htd. unfold getDownloadFilename.
  set (ext := JsString.pop (JsString.split "."%char file_name)).
  assert (forall a, JsString.pop (JsString.split "."%char (a +:+ "." +:+ ext)) = ext) as Hext.
  { intros a. rewrite pop_split_app.
    - apply (pop_split_dot_ext "."%char). apply pop_split_free.
    - change ("." +:+ ext) with (String "."%char ext). simpl. done. }
  assert (forall b, occurs "."%char (b +:+ "." +:+ ext) = true) as Hdot.
  { intros b. rewrite occurs_app. change ("." +:+ ext) with (String "."%char ext).
    simpl. apply orb_true_r. }
  destruct (arrayIncludes modelFileTypes file_type); [|done]. simpl.
  apply String.eqb_neq in Htd. rewrite Htd.
  destruct (decide (model_type = TextualInversion)).
  - destruct (words !! 0%nat) as [w|]; [|done].
    destruct (String.eqb w ""); [done|].
    rewrite pop_split_app; [apply Hext | apply Hdot].
  - destruct (negb _); [|done].
    rewrite pop_split_app.
    2:{ do 2 rewrite occurs_app. by rewrite Hdot, !orb_true_r. }
    rewrite pop_split_app.
    2:{ rewrite occurs_app. by rewrite Hdot, orb_true_r. }
    rewrite pop_split_app; [apply Hext | apply Hdot].
Qed.

Lemma getDownloadFilename_keeps_extension_witness :
  JsString.pop (JsString.split "."%char
    (getDownloadFilename Sample.filenamize Sample.modelFileTypes "My Model v1.5"
       Checkpoint "v2.0" [] "model.v2.safetensors" "Model"))
  = "safetensors".
Proof.
  exact (eq_trans
    (getDownloadFilename_keeps_extension Sample.filenamize Sample.modelFileTypes
       "My Model v1.5" Checkpoint "v2.0" [] "model.v2.safetensors" "Model"
       ltac:(discriminate)) eq_refl).
Defined.

(** * Properties of the callers *)

(** ** [hashesAsObject] *)

Lemma hashesAsObject_foldl_in (rows : list (ModelHashType * string))
    (acc : gmap ModelHashType string) t h :
  foldl (fun acc r => <[r.1 := r.2]> acc) acc rows !! t = Some h ->
  (t, h) ∈ rows \/ acc !! t = Some h.
Proof.
  revert acc. induction rows as [|[t' h'] rows IH]; intros acc H; [by right|].
  simpl in H. destruct (IH _ H) as [Hin | Hacc].
  - left. by right.
  - destruct (decide (t' = t)) as [->|Hne].
    + rewrite lookup_insert_eq in Hacc. injection Hacc as <-. left. by left.
    + rewrite lookup_insert_ne in Hacc by done. by right.
Qed.

Lemma hashesAsObject_foldl_keep (rows : list (ModelHashType * string))
    (acc : gmap ModelHashType string) t :
  t ∉ rows.*1 ->
  foldl (fun acc r => <[r.1 := r.2]> acc) acc rows !! t = acc !! t.
Proof.
  revert acc. induction rows as [|[t' h'] rows IH]; intros acc Hn; [done|].
  simpl in *. apply not_elem_of_cons in Hn as (Hne & Hn).
  rewrite (IH _ Hn). by rewrite lookup_insert_ne.
Qed.

Lemma hashesAsObject_foldl_bound (rows : list (ModelHashType * string))
    (acc : gmap ModelHashType string) t :
  t ∈ rows.*1 ->
  is_Some (foldl (fun acc r => <[r.1 := r.2]> acc) acc rows !! t).
Proof.
  revert acc. induction rows as [|[t' h'] rows IH]; intros acc Hin;
    [by apply elem_of_nil in Hin|].
  simpl in *. destruct (decide (t ∈ rows.*1)) as [Hyes|Hno]; [by apply IH|].
  apply elem_of_cons in Hin as [->|Hin]; [|done].
  rewrite (hashesAsObject_foldl_keep rows _ t' Hno), lookup_insert_eq. by eexists.
Qed.

(** X27.  In the object [hashesAsObject] builds, a type is bound to the hash
    of the last row of that type, and a type with no row is not bound: a later
    row overwrites an earlier one of the same type. *)
Theorem hashesAsObject_last_wins rows :
  (forall before t h after,
     rows = before ++ (t, h) :: after -> t ∉ after.*1 ->
     hashesAsObject rows !! t = Some h)
  /\ (forall t, t ∉ rows.*1 -> hashesAsObject rows !! t = None).
Proof.
  split.
  - intros before t h after -> Hn. unfold hashesAsObject.
    rewrite foldl_app. simpl. rewrite (hashesAsObject_foldl_keep after _ t Hn).
    apply lookup_insert_eq.
  - intros t Hn. unfold hashesAsObject.
    by rewrite (hashesAsObject_foldl_keep rows ∅ t Hn).
Qed.

Lemma hashesAsObject_functional (rows : list (ModelHashType * string)) t h :
  (forall t x y, (t, x) ∈ rows -> (t, y) ∈ rows -> x = y) ->
  (t, h) ∈ rows -> hashesAsObject rows !! t = Some h.
Proof.
  intros Hfun Hin.
  destruct (hashesAsObject_foldl_bound rows ∅ t) as [h' Hh'].
  { apply list_elem_of_fmap. by exists (t, h). }
  unfold hashesAsObject. rewrite Hh'. f_equal.
  destruct (hashesAsObject_foldl_in rows ∅ t h' Hh') as [Hin'|He]; [|by rewrite lookup_empty in He].
  by apply (Hfun t).
Qed.

(** X28.  [hashesAsObject] inverts the listing of an object's entries: folded
    over the entries of a map from type to hash, in whatever order, it gives
    the map back. *)
Theorem hashesAsObject_entries (m : gmap ModelHashType string) rows :
  rows ≡ₚ map_to_list m -> hashesAsObject rows = m.
Proof.
  intros Hperm. apply map_eq. intros t.
  assert (forall x, (t, x) ∈ rows <-> m !! t = Some x) as Hin.
  { intros x. rewrite Hperm. apply elem_of_map_to_list. }
  destruct (m !! t) as [x|] eqn:Hm.
  - apply hashesAsObject_functional; [|by apply Hin].
    intros t' a b Ha Hb. rewrite Hperm in Ha, Hb.
    apply elem_of_map_to_list in Ha, Hb. congruence.
  - destruct (hashesAsObject rows !! t) as [x|] eqn:Hl; [|done].
    destruct (hashesAsObject_foldl_in rows ∅ t x Hl) as [Hx|He];
      [|by rewrite lookup_empty in He].
    apply Hin in Hx. congruence.
Qed.

Lemma hashesAsObject_entries_witness :
  hashesAsObject [(SHA256, "1a1a"); (AutoV1, "1b1b")]
  = {[ SHA256 := "1a1a"; AutoV1 := "1b1b" ]}.
Proof.
  apply (hashesAsObject_entries {[ SHA256 := "1a1a"; AutoV1 := "1b1b" ]}).
  apply NoDup_Permutation.
  - apply (NoDup_fmap_1 fst). simpl. apply (bool_decide_unpack _). by vm_compute.
  - apply NoDup_map_to_list.
  - intros [t x]. rewrite elem_of_map_to_list.
    rewrite !elem_of_cons, elem_of_nil. split.
    + intros [[= -> ->]|[[= -> ->]|[]]]; by vm_compute.
    + intros H. destruct t; vm_compute in H; try discriminate;
        injection H as <-; eauto.
Defined.

Lemma hashesAsObject_last_wins_witness :
  hashesAsObject [(SHA256, "0a0a"); (CRC32, "0b0b"); (SHA256, "1a1a")] !! SHA256
  = Some "1a1a".
Proof.
  apply (proj1 (hashesAsObject_last_wins
                  [(SHA256, "0a0a"); (CRC32, "0b0b"); (SHA256, "1a1a")])
           [(SHA256, "0a0a"); (CRC32, "0b0b")] SHA256 "1a1a" []).
  - reflexivity.
  - apply not_elem_of_nil.
Defined.

(** X29.  The [Hash] block and the details API compose to the identity: once
    the handler has answered a POST that asks for [Hash] and carries hashes,
    [hashesAsObject] over the hash rows the details API selects for the file,
    in whatever order the database lists them, gives back the hash map of the
    payload. *)
Theorem handler_hashes_read_back bucket now req db resp db' file hashes rows :
  method req = "POST" ->
  resolves db (query req) file ->
  Hash ∈ requestedTasks (query req) ->
  ScanResult.hashes (body req) = Some hashes ->
  handler bucket now req db = (Ok resp, db') ->
  rows ≡ₚ getModelVersionApiSelect_hashes db' (ModelFile.id file) ->
  hashesAsObject rows = hashes.
Proof.
  intros Hm Hres Hhash Hhs H Hperm. handler_blocks Hm Hres H.
  apply scan_step_payload_frame in Hs as (_ & _ & Hhs1).
  unfold hasTask in Hh. rewrite bool_decide_eq_true_2 in Hh by done.
  apply hashTask_ok_inv in Hh. rewrite Hhs1, Hhs in Hh. injection Hh as <-.
  set (table := replacedHashes (ModelFile.id file) hashes (modelHashes db3)) in *.
  assert (forall t x, (t, x) ∈ rows <-> hashes !! t = Some x) as Hin.
  { intros t x. rewrite Hperm. unfold getModelVersionApiSelect_hashes.
    cbn [modelHashes]. rewrite list_elem_of_fmap. split.
    - intros ([[fid t'] x'] & [= -> ->] & Hl). apply elem_of_map_to_list in Hl.
      apply map_lookup_filter_Some in Hl as (Hl & Hfid). simpl in Hfid. subst fid.
      unfold table in Hl. by rewrite replacedHashes_lookup, decide_True in Hl.
    - intros Hx. exists ((ModelFile.id file, t), x). split; [done|].
      apply elem_of_map_to_list, map_lookup_filter_Some. split; [|done].
      unfold table. by rewrite replacedHashes_lookup, decide_True. }
  apply map_eq. intros t. destruct (hashes !! t) as [x|] eqn:Hx.
  - apply hashesAsObject_functional; [|by apply Hin].
    intros t' a b Ha Hb. apply Hin in Ha, Hb. congruence.
  - destruct (hashesAsObject _ !! t) as [x|] eqn:Hl; [|done].
    destruct (hashesAsObject_foldl_in _ ∅ t x Hl) as [Hy|He];
      [|by rewrite lookup_empty in He].
    apply Hin in Hy. congruence.
Qed.

Lemma handler_hashes_read_back_witness :
  hashesAsObject (getModelVersionApiSelect_hashes
    (handler Sample.bucket 1700000000
       (Sample.request None (Sample.payload 1 ScanExitCode.Success None None))
       Sample.db).2 5)
  = {[ SHA256 := "1a1a"; AutoV1 := "1b1b" ]}.
Proof.
  apply (handler_hashes_read_back Sample.bucket 1700000000
    (Sample.request None (Sample.payload 1 ScanExitCode.Success None None))
    Sample.db (mkResponse 200 JsonOk)
    (handler Sample.bucket 1700000000
       (Sample.request None (Sample.payload 1 ScanExitCode.Success None None))
       Sample.db).2
    Sample.file).
  - reflexivity.
  - apply sample_resolves.
  - vm_compute. do 2 apply list_elem_of_further. apply list_elem_of_here.
  - reflexivity.
  - vm_compute; reflexivity.
  - reflexivity.
Defined.

(** ** The address test of the download endpoint *)

Lemma split_head_prefix c s h t :
  JsString.split c s = h :: t -> String.prefix h s = true.
Proof.
  revert h t. induction s as [|a s IH]; intros h t H; simpl in H.
  - by injection H as <- _.
  - destruct (Ascii.eqb a c); [by injection H as <- _|].
    destruct (JsString.split c s) as [|h' t'] eqn:Hs; injection H as <- _; simpl.
    + by apply split_nonempty in Hs.
    + destruct (Ascii.ascii_dec a a); [|done]. by apply (IH h' t').
Qed.

Lemma split_parts_included c s x : x ∈ JsString.split c s -> JsString.includes s x = true.
Proof.
  revert x. induction s as [|a s IH]; intros x Hx.
  - simpl in Hx. by apply list_elem_of_singleton in Hx as ->.
  - destruct (JsString.split c (String a s)) as [|h t] eqn:Hsp;
      [by apply elem_of_nil in Hx|].
    apply elem_of_cons in Hx as [->|Hx].
    + cbn [JsString.includes]. by rewrite (split_head_prefix _ _ _ _ Hsp).
    + cbn [JsString.includes]. rewrite (IH x); [apply orb_true_r|].
      simpl in Hsp. destruct (Ascii.eqb a c).
      * by injection Hsp as _ <-.
      * destruct (JsString.split c s) as [|h' t'];
          injection Hsp as _ <-; [by apply elem_of_nil in Hx|by right].
Qed.

(** X30.  Without an ['ip-blacklist'] row, or with an empty one, no address is
    refused; and an address that is refused is not empty, holds no comma, and
    occurs in the blacklist value (as one of its comma-separated parts, which
    are compared untrimmed). *)
Theorem ipBlacklisted_sound value ip :
  (value = None \/ value = Some "" -> ipBlacklisted value ip = false)
  /\ (ipBlacklisted value ip = true ->
      exists a, ip = Some a /\ a <> ""
                /\ a ∈ JsString.split ","%char (default "" value)
                /\ JsString.includes a "," = false
                /\ JsString.includes (default "" value) a = true).
Proof.
  unfold ipBlacklisted. split.
  - intros Hv. destruct ip as [a|]; [|done].
    assert (default "" value = "") as -> by (by destruct Hv as [-> | ->]).
    simpl. destruct (String.eqb a "") eqn:Ha; [done|]. simpl.
    apply bool_decide_eq_false_2. intros Hin.
    apply list_elem_of_singleton in Hin as ->. by rewrite String.eqb_refl in Ha.
  - destruct ip as [a|]; [|done]. intros H.
    apply andb_true_iff in H as (Hne & Hin).
    apply negb_true_iff, String.eqb_neq in Hne.
    apply bool_decide_eq_true_1 in Hin.
    exists a. rewrite includes_char.
    repeat split; [done|done|by eapply split_parts_free|by eapply split_parts_included].
Qed.

Lemma ipBlacklisted_sound_witness :
  ipBlacklisted None (Some "203.0.113.7") = false
  /\ JsString.includes "198.51.100.2,203.0.113.7" "203.0.113.7" = true.
Proof.
  destruct (ipBlacklisted_sound None (Some "203.0.113.7")) as (Hnone & _).
  destruct (ipBlacklisted_sound (Some "198.51.100.2,203.0.113.7") (Some "203.0.113.7"))
    as (_ & Hin).
  split; [apply Hnone; by left|].
  destruct (Hin ltac:(vm_compute; reflexivity)) as (a & [= <-] & _ & _ & _ & Hinc).
  exact Hinc.
Defined.
